(** * Binary build-cache layer of Spack: a shallow embedding

    Source: [lib/spack/spack/binary_distribution.py].

    Python code is embedded as state-passing functions over a [world]
    (local file system, mirror contents, terminal log, trace of calls to
    external services, the module-level cache of [get_specs]).  A raised
    exception is an [outcome]; the world reached when it is raised is kept,
    as Python keeps side effects performed before a [raise].

    Libraries outside the file (ruamel.yaml, hashlib, tarfile, gpg,
    [spack.relocate], [os.path.relpath], [re], [Spec.from_yaml]) are the
    fields of the record [Externals]; every definition and theorem is
    parametric in it. *)

From Stdlib Require Import String Ascii List ZArith Lia Bool.
From stdpp Require Import base option list strings gmap fin_maps.

Local Open Scope string_scope.
Local Open Scope list_scope.
Local Set Warnings "-register-all".

(** ** Exceptions *)

(** The exception classes that the module defines or that cross it.  The
    first seven are the classes defined at the top of the file; the others
    are built-in or library classes.  [SystemExit] is what [tty.die] ends
    in; it derives from [BaseException] only, so [except Exception] does not
    catch it. *)
Inductive exn : Type :=
| NoOverwriteException (file_path : string)
| NoGpgException (msg : string)
| NoKeyException (msg : string)
| PickKeyException (keys : string)
| NoVerifyException (msg : string)
| NoChecksumException (msg : string)
| NewLayoutException (msg : string)
| ValueError (msg : string)
| KeyError (key : string)
| TypeError (msg : string)
| AttributeError (msg : string)
| IOError (path : string)
| URLError (reason : string)
| FetchError (url : string)
| ProcessError (msg : string)
| ReadError (msg : string)
| YAMLError (msg : string)
| SystemExit (code : Z).

Definition is_Exception (e : exn) : bool :=
  match e with SystemExit _ => false | _ => true end.

Definition is_URLError (e : exn) : bool :=
  match e with URLError _ => true | _ => false end.

Definition is_FetchError (e : exn) : bool :=
  match e with FetchError _ => true | _ => false end.

Definition nl : string := String (ascii_of_nat 10) "".

(** [str(e)]: the message built by the constructors of the classes defined
    in the file, the carried message for the others. *)
Definition str_exn (e : exn) : string :=
  match e with
  | NoOverwriteException p =>
      nl +:+ p +:+ nl +:+ "exists" +:+ nl +:+ "Use -f option to overwrite."
  | PickKeyException keys =>
      "Multi keys available for signing" +:+ nl +:+ keys +:+ nl +:+
      "Use spack buildcache create -k <key hash> to pick a key."
  | NoGpgException m | NoKeyException m | NoVerifyException m
  | NoChecksumException m | NewLayoutException m | ValueError m
  | KeyError m | TypeError m | AttributeError m | IOError m | URLError m
  | FetchError m | ProcessError m | ReadError m | YAMLError m => m
  | SystemExit _ => ""
  end.

(** ** Parsed YAML documents *)

(** What [syaml.load] returns.  A mapping keeps its entries in document
    order; the keys the module reads are strings.  Floating-point scalars
    are left out: no field the module reads holds one. *)
Inductive yaml : Type :=
| YNull
| YBool (b : bool)
| YInt (z : Z)
| YStr (s : string)
| YSeq (items : list yaml)
| YMap (entries : list (string * yaml)).

Fixpoint assoc {A : Type} (k : string) (l : list (string * A)) : option A :=
  match l with
  | [] => None
  | (k', v) :: rest => if String.eqb k k' then Some v else assoc k rest
  end.

(** [d[k] = v] on a dict kept as an entry list: replace in place, or append. *)
Fixpoint assoc_set {A : Type} (k : string) (v : A) (l : list (string * A))
  : list (string * A) :=
  match l with
  | [] => [(k, v)]
  | (k', v') :: rest =>
      if String.eqb k k' then (k, v) :: rest else (k', v') :: assoc_set k v rest
  end.

(** [v != s] for a parsed value [v] and a Python string [s]. *)
Definition py_ne_str (v : yaml) (s : string) : bool :=
  match v with YStr t => negb (String.eqb t s) | _ => true end.

Definition is_substring (needle hay : string) : bool :=
  match String.index 0 needle hay with Some _ => true | None => false end.

(** ** Concrete specs and mirrors (external entities) *)

Record Spec : Type := mkSpec {
  name : string;
  version : string;
  architecture : string;        (* str(spec.architecture) *)
  platform : string;            (* spec.architecture.platform *)
  compiler : string;            (* str(spec.compiler) *)
  concrete : bool;
  dag_hash : string;            (* spec.dag_hash() *)
  full_hash : string;           (* spec.full_hash() *)
  short_spec : string;
  tree : string;                (* spec.tree() *)
  prefix : string               (* spec.prefix *)
}.

Record Mirror : Type := mkMirror {
  mirror_name : string;
  fetch_url : string
}.

(** Entries of the rebuild report of [check_specs_against_mirrors]. *)
Record rebuild_spec : Type := mkRebuildSpec {
  rs_short_spec : string;       (* 'short_spec' *)
  rs_hash : string              (* 'hash' *)
}.

Record mirror_report : Type := mkMirrorReport {
  mirrorName : string;
  mirrorUrl : string;
  rebuildSpecs : list rebuild_spec
}.

(** ** The world *)

Inductive node : Type :=
| File (content : string)
| Dir
| Link (target : string).

(** What a mirror answers for a URL: a body, or an exception raised by the
    transport.  A URL with no entry does not exist on the mirror; reading it
    raises [URLError]. *)
Inductive response : Type :=
| Content (body : string)
| Fault (e : exn).

Inductive tty_event : Type :=
| TtyDebug (s : string)
| TtyMsg (s : string)
| TtyWarn (s : string)
| TtyError (s : string).

(** Calls that leave the process, in the order they are made. *)
Inductive ext_event : Type :=
| ReadUrl (url : string)
| RemoveUrl (url : string)
| PushUrl (url : string) (body : string)
| ListUrl (url : string)
| Spider (url : string)
| StageFetch (url : string)
| GpgSign (key : option string) (file : string) (out : string)
| GpgVerify (sig : string) (file : string)
| GpgTrust (file : string).

Record world : Type := World {
  fs : gmap string node;
  remote : gmap string response;
  tty : list tty_event;
  calls : list ext_event;
  tmp_supply : list string;             (* names tempfile.mkdtemp will try *)
  mirrors : list Mirror;                (* spack.mirror.MirrorCollection() *)
  cached_specs : option (list Spec)     (* the global _cached_specs *)
}.

Definition set_fs (f : gmap string node → gmap string node) (w : world) : world :=
  World (f (fs w)) (remote w) (tty w) (calls w) (tmp_supply w) (mirrors w)
        (cached_specs w).
Definition set_remote (f : gmap string response → gmap string response)
  (w : world) : world :=
  World (fs w) (f (remote w)) (tty w) (calls w) (tmp_supply w) (mirrors w)
        (cached_specs w).
Definition add_tty (e : tty_event) (w : world) : world :=
  World (fs w) (remote w) (tty w ++ [e]) (calls w) (tmp_supply w) (mirrors w)
        (cached_specs w).
Definition add_call (e : ext_event) (w : world) : world :=
  World (fs w) (remote w) (tty w) (calls w ++ [e]) (tmp_supply w) (mirrors w)
        (cached_specs w).
Definition set_tmp_supply (l : list string) (w : world) : world :=
  World (fs w) (remote w) (tty w) (calls w) l (mirrors w) (cached_specs w).
Definition set_cached_specs (c : option (list Spec)) (w : world) : world :=
  World (fs w) (remote w) (tty w) (calls w) (tmp_supply w) (mirrors w) c.

(** ** The monad of Python statements *)

Inductive outcome (A : Type) : Type :=
| Ok (a : A)
| Raise (e : exn).
Arguments Ok {A} a.
Arguments Raise {A} e.

Definition M (A : Type) : Type := world → outcome A * world.

Definition ret {A : Type} (a : A) : M A := λ w, (Ok a, w).
Definition raise {A : Type} (e : exn) : M A := λ w, (Raise e, w).
Definition bind {A B : Type} (m : M A) (k : A → M B) : M B :=
  λ w, match m w with
       | (Ok a, w') => k a w'
       | (Raise e, w') => (Raise e, w')
       end.

Declare Scope py_scope.
Delimit Scope py_scope with py.
Notation "x <- m ;; k" := (bind m (λ x, k))
  (at level 100, m at next level, right associativity) : py_scope.
Notation "m ;; k" := (bind m (λ _, k))
  (at level 100, right associativity) : py_scope.
Local Open Scope py_scope.

(** [try: m  except C as e: h e], where [catches] recognises class [C]. *)
Definition try_except {A : Type} (catches : exn → bool) (m : M A)
  (h : exn → M A) : M A :=
  λ w, match m w with
       | (Raise e, w') => if catches e then h e w' else (Raise e, w')
       | r => r
       end.

(** [try: m  except C as e: h e  else: k]. *)
Definition try_except_else {A B : Type} (catches : exn → bool) (m : M A)
  (h : exn → M B) (k : A → M B) : M B :=
  λ w, match m w with
       | (Raise e, w') => if catches e then h e w' else (Raise e, w')
       | (Ok a, w') => k a w'
       end.

(** [try: m  finally: f]: [f] runs on every exit; an exception of [f]
    replaces the pending outcome. *)
Definition try_finally {A : Type} (m : M A) (f : M unit) : M A :=
  λ w, match m w with
       | (r, w') =>
           match f w' with
           | (Ok _, w'') => (r, w'')
           | (Raise e, w'') => (Raise e, w'')
           end
       end.

Definition lift_outcome {A : Type} (r : exn + A) : M A :=
  match r with inl e => raise e | inr a => ret a end.

(** [for x in l: body x]. *)
Fixpoint for_each {A : Type} (l : list A) (body : A → M unit) : M unit :=
  match l with
  | [] => ret tt
  | x :: rest => body x ;; for_each rest body
  end.

(** ** llnl.util.tty *)

Definition tty_debug (s : string) : M unit := λ w, (Ok tt, add_tty (TtyDebug s) w).
Definition tty_msg (s : string) : M unit := λ w, (Ok tt, add_tty (TtyMsg s) w).
Definition tty_warn (s : string) : M unit := λ w, (Ok tt, add_tty (TtyWarn s) w).
Definition tty_error (s : string) : M unit := λ w, (Ok tt, add_tty (TtyError s) w).

(** [tty.die(msg)]: print the error, then [sys.exit(1)]. *)
Definition tty_die {A : Type} (s : string) : M A :=
  tty_error s ;; raise (SystemExit 1).

(** ** Names of the build cache (lines 37, 120-228) *)

(** [os.path.join(a, b)] for a relative [b] and an [a] that does not end in
    a separator, which is how the module uses it. *)
Definition os_path_join (a b : string) : string := a +:+ "/" +:+ b.

Definition _build_cache_relative_path : string := "build_cache".

Definition build_cache_relative_path : string := _build_cache_relative_path.

Definition build_cache_prefix (prefix : string) : string :=
  os_path_join prefix build_cache_relative_path.

Definition buildinfo_file_name (prefix : string) : string :=
  os_path_join prefix ".spack/binary_distribution".

(** [s.replace("@", "-")]. *)
Fixpoint replace_at (s : string) : string :=
  match s with
  | EmptyString => EmptyString
  | String c rest =>
      String (if Ascii.eqb c "@"%char then "-"%char else c) (replace_at rest)
  end.

Definition tarball_directory_name (spec : Spec) : string :=
  architecture spec +:+ "/" +:+ replace_at (compiler spec) +:+ "/" +:+
  name spec +:+ "-" +:+ version spec.

Definition tarball_name (spec : Spec) (ext : string) : string :=
  architecture spec +:+ "-" +:+ replace_at (compiler spec) +:+ "-" +:+
  name spec +:+ "-" +:+ version spec +:+ "-" +:+ dag_hash spec +:+ ext.

Definition tarball_path_name (spec : Spec) (ext : string) : string :=
  os_path_join (tarball_directory_name spec) (tarball_name spec ext).

(** ** Libraries outside the module *)

Record Externals : Type := {
  (* spack.util.spack_yaml, ruamel.yaml, json *)
  syaml_load : string → exn + yaml;
  syaml_dump : yaml → string;
  yaml_load : string → exn + yaml;
  json_dumps : list (string * mirror_report) → string;
  py_repr : yaml → string;                 (* str() of a non-string value *)
  (* hashlib.sha256 *)
  hasher : Type;
  sha256_new : hasher;
  sha256_update : hasher → string → hasher;
  sha256_hexdigest : hasher → string;
  (* tarfile: the members of an archive, relative names *)
  tar_read : string → exn + list (string * node);
  tar_write : list (string * node) → string;
  (* spack.util.gpg *)
  gpg_available : bool;                    (* gpg --version succeeds *)
  gpg_signing_keys : list string;
  gpg_signature : option string → string → exn + string;
  gpg_verifies : string → string → bool;   (* signature, signed content *)
  (* spack.store.layout, spack.paths, os.path *)
  layout_root : string;
  spack_prefix : string;
  metadata_dir : string;
  manifest_file_name : string;
  os_path_relpath : string → string → string;
  os_path_realpath : string → string;
  (* spack.util.url, spack.util.web, spack.stage, Spec.from_yaml *)
  url_format : string → string;
  local_file_path : string → option string;
  html_links : string → list string;       (* links of a fetched page *)
  stage_save_filename : string → string;
  spec_from_yaml : string → exn + Spec;
  (* spack.relocate: classification *)
  mime_type : gmap string node → string → string * string;
  needs_binary_relocation : string → string → bool;
  needs_text_relocation : string → string → bool;
  (* spack.relocate: primitives that rewrite files of the local tree *)
  make_macho_binaries_relative :
    list string → list string → string → bool →
    gmap string node → option exn * gmap string node;
  make_elf_binaries_relative :
    list string → list string → string → bool →
    gmap string node → option exn * gmap string node;
  make_link_relative :
    list string → list string →
    gmap string node → option exn * gmap string node;
  check_files_relocatable :
    list string → bool →
    gmap string node → option exn * gmap string node;
  make_link_placeholder :
    list string → string → string →
    gmap string node → option exn * gmap string node;
  relocate_text :
    gset string → string → string → string → string →
    gmap string node → option exn * gmap string node;
  relocate_macho_binaries :
    gset string → string → string → bool →
    gmap string node → option exn * gmap string node;
  relocate_elf_binaries :
    gset string → string → string → bool →
    gmap string node → option exn * gmap string node;
  relocate_links :
    gset string → string → string →
    gmap string node → option exn * gmap string node
}.

Definition py_str (X : Externals) (v : yaml) : string :=
  match v with YStr s => s | _ => py_repr X v end.

(** ** The local file system *)

(** A path is a key of [fs]; a directory exists as soon as it or anything
    below it does. *)
Definition at_or_under (p q : string) : bool :=
  String.eqb p q || String.prefix (p +:+ "/") q.

Definition fs_exists (p : string) (m : gmap string node) : bool :=
  existsb (λ kv, at_or_under p kv.1) (map_to_list m).

Definition fs_rmtree (p : string) (m : gmap string node) : gmap string node :=
  filter (λ kv, at_or_under p kv.1 = false) m.

Definition os_path_exists (p : string) : M bool :=
  λ w, (Ok (fs_exists p (fs w)), w).

(** [shutil.rmtree(p)]: fails on a path that does not exist. *)
Definition shutil_rmtree (p : string) : M unit :=
  λ w, if fs_exists p (fs w) then (Ok tt, set_fs (fs_rmtree p) w)
       else (Raise (IOError p), w).

(** [os.remove(p)]: removes a file or a link, fails otherwise. *)
Definition os_remove (p : string) : M unit :=
  λ w, match fs w !! p with
       | Some (File _) | Some (Link _) => (Ok tt, set_fs (delete p) w)
       | _ => (Raise (IOError p), w)
       end.

(** [open(p, 'r').read()]. *)
Definition read_file (p : string) : M string :=
  λ w, match fs w !! p with
       | Some (File c) => (Ok c, w)
       | _ => (Raise (IOError p), w)
       end.

(** [open(p, 'w').write(c)]. *)
Definition write_file (p c : string) : M unit :=
  λ w, (Ok tt, set_fs (insert p (File c)) w).

Definition mkdirp (p : string) : M unit :=
  λ w, if fs_exists p (fs w) then (Ok tt, w)
       else (Ok tt, set_fs (insert p Dir) w).

(** [tempfile.mkdtemp()]: the first candidate name that does not exist yet
    is created; it fails when the candidates run out. *)
Fixpoint pick_fresh (m : gmap string node) (supply : list string)
  : option (string * list string) :=
  match supply with
  | [] => None
  | p :: rest => if fs_exists p m then pick_fresh m rest else Some (p, rest)
  end.

Definition mkdtemp : M string :=
  λ w, match pick_fresh (fs w) (tmp_supply w) with
       | Some (p, rest) =>
           (Ok p, set_fs (insert p Dir) (set_tmp_supply rest w))
       | None => (Raise (IOError "mkdtemp"), w)
       end.

(** [s.split("/")]. *)
Fixpoint split_slash (s : string) : list string :=
  match s with
  | EmptyString => [EmptyString]
  | String c r =>
      let parts := split_slash r in
      if Ascii.eqb c "/"%char then EmptyString :: parts
      else match parts with
           | p :: ps => String c p :: ps
           | [] => [String c EmptyString]
           end
  end.

(** [os.path.normpath], which is how the system resolves a path that goes
    through no symbolic link: empty and ["."] components are dropped, [".."]
    climbs one level; it is kept at the front of a relative path and dropped
    at the root. *)
Definition normpath_step (absolute : bool) (acc : list string) (c : string)
  : list string :=
  if String.eqb c "" || String.eqb c "." then acc
  else if String.eqb c ".."
       then match last acc with
            | Some l => if String.eqb l ".." then acc ++ [c]
                        else removelast acc
            | None => if absolute then acc else acc ++ [c]
            end
       else acc ++ [c].

Definition os_path_normpath (p : string) : string :=
  let absolute := String.prefix "/" p in
  let body :=
    String.concat "/" (fold_left (normpath_step absolute) (split_slash p) []) in
  if absolute then "/" +:+ body
  else if String.eqb body "" then "." else body.

(** A member name that stays below the directory it is unpacked into:
    relative, every component a proper name. *)
Definition member_inside (name : string) : bool :=
  negb (String.prefix "/" name) &&
  forallb (λ c, negb (String.eqb c "" || String.eqb c "." || String.eqb c ".."))
    (split_slash name).

(** Where [tar.extractall(dir)] writes the member [name]: at
    [os.path.join(dir, name)], as the system resolves it.  An absolute
    [name] is taken as it is, whatever [dir], and [".."] climbs out of [dir]:
    [tarfile] checks neither.  A name that stays inside is used as
    written.  Writing through a symbolic link that an earlier member of the
    archive created is not followed here: the statements that need the
    members to stay inside leave archives with link members out. *)
Definition tar_member_path (dir name : string) : string :=
  if member_inside name then os_path_join dir name
  else os_path_normpath
         (if String.prefix "/" name then name else os_path_join dir name).

(** Unpacking the members of an archive with [dir] as the destination. *)
Fixpoint fs_unpack (dir : string) (members : list (string * node))
  (m : gmap string node) : gmap string node :=
  match members with
  | [] => m
  | (n, x) :: rest => fs_unpack dir rest (<[tar_member_path dir n := x]> m)
  end.

(** [with closing(tarfile.open(archive, 'r')) as tar: tar.extractall(dir)]. *)
Definition tar_extractall (X : Externals) (archive dir : string) : M unit :=
  c <- read_file archive ;;
  members <- lift_outcome (tar_read X c) ;;
  λ w, (Ok tt, set_fs (fs_unpack dir members) w).

(** The entries below [src], with names relative to it. *)
Definition strip_dir (src q : string) : option string :=
  if String.eqb src q then Some ""
  else if String.prefix (src +:+ "/") q
       then Some (String.substring (String.length src) (String.length q - String.length src) q)
       else None.

Definition fs_subtree (src : string) (m : gmap string node)
  : list (string * node) :=
  omap (λ kv, match strip_dir src kv.1 with
              | Some rel => Some (rel, kv.2)
              | None => None
              end) (map_to_list m).

Fixpoint fs_place (dst : string) (entries : list (string * node))
  (m : gmap string node) : gmap string node :=
  match entries with
  | [] => m
  | (rel, x) :: rest => fs_place dst rest (<[dst +:+ rel := x]> m)
  end.

(** [install_tree(src, dst, symlinks=True)]: copy the tree at [src] to
    [dst], links kept as links. *)
Definition install_tree (src dst : string) : M unit :=
  λ w, if fs_exists src (fs w)
       then (Ok tt, set_fs (λ m, fs_place dst (fs_subtree src m) m) w)
       else (Raise (IOError src), w).

(** A primitive of [spack.relocate] run on the local tree. *)
Definition run_fsop (op : gmap string node → option exn * gmap string node)
  : M unit :=
  λ w, match op (fs w) with
       | (None, m) => (Ok tt, set_fs (λ _, m) w)
       | (Some e, m) => (Raise e, set_fs (λ _, m) w)
       end.

(** ** The mirrors *)

(** [web_util.read_from_url(url)] followed by the utf-8 read of the body. *)
Definition read_from_url (url : string) : M string :=
  λ w, match remote w !! url with
       | Some (Content body) => (Ok body, add_call (ReadUrl url) w)
       | Some (Fault e) => (Raise e, add_call (ReadUrl url) w)
       | None => (Raise (URLError url), add_call (ReadUrl url) w)
       end.

Definition url_exists (url : string) : M bool :=
  λ w, (Ok (match remote w !! url with Some (Content _) => true | _ => false end), w).

Definition remove_url (url : string) : M unit :=
  λ w, (Ok tt, add_call (RemoveUrl url) (set_remote (delete url) w)).

(** [web_util.push_to_url(local, url, keep_original=False)]. *)
Definition push_to_url (local url : string) : M unit :=
  body <- read_file local ;;
  (λ w, (Ok tt, add_call (PushUrl url body)
                  (set_remote (insert url (Content body)) w))) ;;
  os_remove local.

(** [os.path.split]: the part before the last separator (if there is one)
    and the part after it. *)
Fixpoint path_split (s : string) : option string * string :=
  match s with
  | EmptyString => (None, EmptyString)
  | String c r =>
      match path_split r with
      | (Some h, t) => (Some (String c h), t)
      | (None, t) =>
          if Ascii.eqb c "/"%char then (Some EmptyString, t)
          else (None, String c t)
      end
  end.

Fixpoint all_slashes (s : string) : bool :=
  match s with
  | EmptyString => true
  | String c r => Ascii.eqb c "/"%char && all_slashes r
  end.

Fixpoint rstrip_slashes (s : string) : string :=
  match s with
  | EmptyString => EmptyString
  | String c r =>
      let r' := rstrip_slashes r in
      if Ascii.eqb c "/"%char && String.eqb r' "" then EmptyString
      else String c r'
  end.

Definition os_path_dirname (s : string) : string :=
  match (path_split s).1 with
  | None => ""
  | Some h => if all_slashes h then h +:+ "/" else rstrip_slashes h
  end.

Definition os_path_basename (s : string) : string := (path_split s).2.

(** [s.endswith(suffix)] and [s.startswith(p)]. *)
Definition endswith (s suffix : string) : bool :=
  String.eqb
    (String.substring (String.length s - String.length suffix)
       (String.length suffix) s) suffix
  && Nat.leb (String.length suffix) (String.length s).

Definition startswith (s p : string) : bool := String.prefix p s.

(** The name of the entry of [dir] through which [q] is reached. *)
Fixpoint first_component (s : string) : string :=
  match s with
  | EmptyString => EmptyString
  | String c r =>
      if Ascii.eqb c "/"%char then EmptyString else String c (first_component r)
  end.

Definition child_names (dir : string) (keys : list string) : list string :=
  remove_dups
    (omap (λ q, if String.prefix (dir +:+ "/") q
                then Some (first_component
                             (String.substring (S (String.length dir))
                                (String.length q - S (String.length dir)) q))
                else None) keys).

(** [os.listdir(dir)]. *)
Definition os_listdir (dir : string) : M (list string) :=
  λ w, if fs_exists dir (fs w)
       then (Ok (child_names dir (map fst (map_to_list (fs w)))), w)
       else (Raise (IOError dir), w).

(** [url_util.join(a, b)], used like [os.path.join]. *)
Definition url_join (a b : string) : string := a +:+ "/" +:+ b.

(** [web_util.list_url(url)]: the names published below [url]. *)
Definition list_url (url : string) : M (list string) :=
  λ w, (Ok (child_names url (map fst (map_to_list (remote w)))),
        add_call (ListUrl url) w).

(** [web_util.spider(url)]: the links of the page at [url]; a page that
    cannot be read yields none. *)
Definition spider (X : Externals) (url : string) : M (list string) :=
  λ w, (Ok (match remote w !! url with
            | Some (Content body) => html_links X body
            | _ => []
            end), add_call (Spider url) w).

(** [Stage(link, name="build_cache", keep=True).fetch()]. *)
Definition stage_fetch (X : Externals) (link : string) : M unit :=
  λ w, match remote w !! link with
       | Some (Content body) =>
           (Ok tt, add_call (StageFetch link)
                     (set_fs (insert (stage_save_filename X link) (File body)) w))
       | _ => (Raise (FetchError link), add_call (StageFetch link) w)
       end.

(** [re.search('spec.yaml', s)]: "spec", any character but a newline,
    "yaml", anywhere in [s]. *)
Definition matches_spec_yaml_here (s : string) : bool :=
  String.prefix "spec" s &&
  match String.get 4 s with
  | Some c => negb (Ascii.eqb c (ascii_of_nat 10))
  | None => false
  end &&
  String.prefix "yaml" (String.substring 5 (String.length s - 5) s).

Fixpoint re_search_spec_yaml (s : string) : bool :=
  matches_spec_yaml_here s ||
  match s with
  | EmptyString => false
  | String _ r => re_search_spec_yaml r
  end.

(** ** spack.util.gpg *)

Definition has_gnupg2 (X : Externals) : M bool := ret (gpg_available X).

Definition Gpg_signing_keys (X : Externals) : M (list string) :=
  ret (gpg_signing_keys X).

(** [Gpg.sign(key, file, output)]. *)
Definition Gpg_sign (X : Externals) (key : option string) (file out : string)
  : M unit :=
  λ w, let w' := add_call (GpgSign key file out) w in
       match fs w !! file with
       | Some (File c) =>
           match gpg_signature X key c with
           | inr sig => (Ok tt, set_fs (insert out (File sig)) w')
           | inl e => (Raise e, w')
           end
       | _ => (Raise (ProcessError "gpg: cannot open file"), w')
       end.

(** [Gpg.verify(signature, file)]: raises when gpg rejects the pair. *)
Definition Gpg_verify (X : Externals) (sig file : string) : M unit :=
  λ w, let w' := add_call (GpgVerify sig file) w in
       match fs w !! sig, fs w !! file with
       | Some (File s), Some (File c) =>
           if gpg_verifies X s c then (Ok tt, w')
           else (Raise (ProcessError "gpg: signature verification failed"), w')
       | _, _ => (Raise (ProcessError "gpg: cannot open file"), w')
       end.

(** ** Dictionary access on parsed YAML *)

(** [k in v]. *)
Definition py_in (k : string) (v : yaml) : M bool :=
  match v with
  | YMap m => ret (match assoc k m with Some _ => true | None => false end)
  | YSeq l =>
      ret (existsb (λ x, match x with YStr s => String.eqb s k | _ => false end) l)
  | YStr s => ret (is_substring k s)
  | _ => raise (TypeError "argument is not iterable")
  end.

(** [v[k]]. *)
Definition py_getitem (v : yaml) (k : string) : M yaml :=
  match v with
  | YMap m =>
      match assoc k m with Some x => ret x | None => raise (KeyError k) end
  | _ => raise (TypeError "indices must be integers")
  end.

(** [v.get(k, default)]. *)
Definition py_get (v : yaml) (k : string) (default : yaml) : M yaml :=
  match v with
  | YMap m => ret (match assoc k m with Some x => x | None => default end)
  | _ => raise (AttributeError "no attribute 'get'")
  end.

(** [v[k] = x]. *)
Definition py_setitem (v : yaml) (k : string) (x : yaml) : M yaml :=
  match v with
  | YMap m => ret (YMap (assoc_set k x m))
  | _ => raise (TypeError "object does not support item assignment")
  end.

(** Truth value of a parsed value. *)
Definition py_truthy (v : yaml) : bool :=
  match v with
  | YNull => false
  | YBool b => b
  | YInt z => negb (Z.eqb z 0)
  | YStr s => negb (String.eqb s "")
  | YSeq l => match l with [] => false | _ => true end
  | YMap m => match m with [] => false | _ => true end
  end.

Fixpoint chars_of (s : string) : list string :=
  match s with
  | EmptyString => []
  | String c r => String c EmptyString :: chars_of r
  end.

Fixpoint strs_of (l : list yaml) : option (list string) :=
  match l with
  | [] => Some []
  | YStr s :: rest =>
      match strs_of rest with Some r => Some (s :: r) | None => None end
  | _ => None
  end.

(** The file names met by [for filename in v: os.path.join(dir, filename)]:
    a name that is not a string makes [os.path.join] raise. *)
Definition py_iter_names (v : yaml) : M (list string) :=
  match v with
  | YSeq l =>
      match strs_of l with
      | Some names => ret names
      | None => raise (TypeError "expected str")
      end
  | YStr s => ret (chars_of s)
  | YMap m => ret (map fst m)
  | _ => raise (TypeError "object is not iterable")
  end.

(** ** needs_rebuild (lines 764-824) *)

Section Operations.
Context (X : Externals).

Definition needs_rebuild (spec : Spec) (mirror_url : string)
  (rebuild_on_errors : bool) : M bool :=
  if negb (concrete spec)
  then raise (ValueError "spec must be concrete to check against mirror")
  else
    let pkg_name := name spec in
    let pkg_version := version spec in
    let pkg_hash := dag_hash spec in
    let pkg_full_hash := full_hash spec in
    tty_debug ("Checking " +:+ pkg_name +:+ "-" +:+ pkg_version +:+
               ", dag_hash = " +:+ pkg_hash +:+
               ", full_hash = " +:+ pkg_full_hash) ;;
    tty_debug (tree spec) ;;
    let cache_prefix := build_cache_prefix mirror_url in
    let spec_yaml_file_name := tarball_name spec ".spec.yaml" in
    let file_path := os_path_join cache_prefix spec_yaml_file_name in
    let result_of_error :=
      "Package (" +:+ short_spec spec +:+ ") will " +:+
      (if rebuild_on_errors then "" else "not ") +:+ "be rebuilt" in
    fetched <-
      try_except is_URLError
        (yaml_contents <- read_from_url file_path ;; ret (Some yaml_contents))
        (λ url_err,
           tty_error ("Unable to determine whether " +:+ short_spec spec +:+
                      " needs rebuilding," +:+
                      " caught URLError attempting to read from " +:+
                      file_path +:+ ".") ;;
           tty_debug (str_exn url_err) ;;
           tty_warn result_of_error ;;
           ret None) ;;
    match fetched with
    | None => ret rebuild_on_errors
    | Some yaml_contents =>
        if String.eqb yaml_contents ""
        then
          tty_error ("Reading " +:+ file_path +:+ " returned nothing") ;;
          tty_warn result_of_error ;;
          ret rebuild_on_errors
        else
          spec_yaml <- lift_outcome (syaml_load X yaml_contents) ;;
          present <- py_in "full_hash" spec_yaml ;;
          stale <- (if negb present then ret true
                    else v <- py_getitem spec_yaml "full_hash" ;;
                         ret (py_ne_str v pkg_full_hash)) ;;
          if (stale : bool)
          then
            present' <- py_in "full_hash" spec_yaml ;;
            reason <- (if (present' : bool)
                       then v <- py_getitem spec_yaml "full_hash" ;;
                            ret ("hash mismatch, remote = " +:+ py_str X v +:+
                                 ", local = " +:+ pkg_full_hash)
                       else ret "full_hash was missing from remote spec.yaml") ;;
            tty_msg ("Rebuilding " +:+ short_spec spec +:+ ", reason: " +:+ reason) ;;
            tty_msg (tree spec) ;;
            ret true
          else ret false
    end.

(** [for x in l: ...] with the local variables the body updates threaded
    through as [s]. *)
Fixpoint for_fold {A S : Type} (l : list A) (s : S) (body : A → S → M S)
  : M S :=
  match l with
  | [] => ret s
  | x :: rest => s' <- body x s ;; for_fold rest s' body
  end.

(** ** check_specs_against_mirrors (lines 827-870) *)

(** Lines 846-864: the report [rebuilds], a dict keyed by fetch URL.
    [mirrors] is [MirrorCollection(mirrors).values()]. *)
Definition collect_rebuilds (mirrors : list Mirror) (specs : list Spec)
  (rebuild_on_errors : bool) : M (list (string * mirror_report)) :=
  for_fold mirrors []
    (λ mirror rebuilds,
       tty_msg ("Checking for built specs at " +:+ fetch_url mirror) ;;
       rebuild_list <-
         for_fold specs []
           (λ spec rebuild_list,
              stale <- needs_rebuild spec (fetch_url mirror) rebuild_on_errors ;;
              ret (if (stale : bool)
                   then rebuild_list ++
                        [mkRebuildSpec (short_spec spec) (dag_hash spec)]
                   else rebuild_list)) ;;
       ret (match rebuild_list with
            | [] => rebuilds
            | _ :: _ =>
                assoc_set (fetch_url mirror)
                  (mkMirrorReport (mirror_name mirror) (fetch_url mirror)
                     rebuild_list) rebuilds
            end)).

Definition check_specs_against_mirrors (mirrors : list Mirror)
  (specs : list Spec) (output_file : option string)
  (rebuild_on_errors : bool) : M Z :=
  rebuilds <- collect_rebuilds mirrors specs rebuild_on_errors ;;
  (match output_file with
   | Some f =>
       if String.eqb f "" then ret tt
       else write_file f (json_dumps X rebuilds)
   | None => ret tt
   end) ;;
  ret (match rebuilds with [] => 0%Z | _ :: _ => 1%Z end).

(** ** checksum_tarball (lines 231-240) *)

Definition block_size : nat := N.to_nat 65536.

(** The loop [while len(buf) > 0: hasher.update(buf); buf = tfile.read(...)]
    over what is left to read of the file; every turn consumes at least one
    byte, so [fuel] above the length of the file is never exhausted. *)
Fixpoint hash_blocks (fuel : nat) (h : hasher X) (pending : string) : hasher X :=
  match fuel with
  | O => h
  | S fuel' =>
      let buf := String.substring 0 block_size pending in
      if Nat.ltb 0 (String.length buf)
      then hash_blocks fuel' (sha256_update X h buf)
             (String.substring block_size
                (String.length pending - block_size) pending)
      else h
  end.

Definition sha256_of (content : string) : string :=
  sha256_hexdigest X
    (hash_blocks (S (String.length content)) (sha256_new X) content).

Definition checksum_tarball (file : string) : M string :=
  content <- read_file file ;;
  ret (sha256_of content).

(** ** sign_tarball (lines 243-266) *)

Definition sign_tarball (key : option string) (force : bool)
  (specfile_path : string) : M unit :=
  gpg <- has_gnupg2 X ;;
  key <- (if negb gpg
          then raise (NoGpgException
                        ("gpg2 is not available in $PATH ." +:+ nl +:+
                         "Use spack install gnupg and spack load gnupg."))
          else
            match key with
            | None =>
                keys <- Gpg_signing_keys X ;;
                let key := if Nat.eqb (length keys) 1 then keys !! 0%nat
                           else None in
                (if Nat.ltb 1 (length keys)
                 then raise (PickKeyException (py_repr X (YSeq (map YStr keys))))
                 else ret tt) ;;
                (if Nat.eqb (length keys) 0
                 then raise (NoKeyException
                               ("No default key available for signing." +:+ nl +:+
                                "Use spack gpg init and spack gpg create" +:+
                                " to create a default key."))
                 else ret tt) ;;
                ret key
            | Some k => ret (Some k)
            end) ;;
  asc <- os_path_exists (specfile_path +:+ ".asc") ;;
  (if (asc : bool)
   then if force then os_remove (specfile_path +:+ ".asc")
        else raise (NoOverwriteException (specfile_path +:+ ".asc"))
   else ret tt) ;;
  Gpg_sign X key specfile_path (specfile_path +:+ ".asc").

(** ** Build information (lines 136-196) *)

Definition read_buildinfo_file (prefix : string) : M yaml :=
  let filename := buildinfo_file_name prefix in
  content <- read_file filename ;;
  lift_outcome (yaml_load X content).

Definition blacklist : list string := [".spack"; "man"].

Definition in_blacklist (d : string) : bool :=
  existsb (String.eqb d) blacklist.

(** The files met by [os.walk(prefix, topdown=True)] once the directories
    of the blacklist are pruned: full path, file name, node.  Links are
    listed with the files. *)
Definition walk_files (prefix : string) (m : gmap string node)
  : list (string * string * node) :=
  omap (λ kv,
          match kv.2, strip_dir prefix kv.1 with
          | Dir, _ => None
          | _, None => None
          | x, Some rel =>
              let comps := split_slash rel in
              if existsb in_blacklist (removelast comps) then None
              else Some (kv.1, os_path_basename kv.1, x)
          end) (map_to_list m).

Definition write_buildinfo_file (prefix workdir : string) (rel : bool)
  : M unit :=
  files <- (λ w, (Ok (walk_files prefix (fs w)), w)) ;;
  lists <-
    for_fold files ([], [], [])
      (λ '(path_name, filename, x) '(text_to_relocate, binary_to_relocate,
                                      link_to_relocate),
         mt <- (λ w, (Ok (mime_type X (fs w) path_name), w)) ;;
         let '(m_type, m_subtype) := (mt : string * string) in
         link_to_relocate <-
           (match x with
            | Link link =>
                if startswith link "/"
                then if startswith link (layout_root X)
                     then ret (link_to_relocate ++
                               [os_path_relpath X path_name prefix])
                     else
                       tty_warn ("Absolute link " +:+ path_name +:+ " to " +:+
                                 link +:+ " " +:+ "outside of stage " +:+
                                 prefix +:+ " " +:+ "cannot be relocated.") ;;
                       ret link_to_relocate
                else ret link_to_relocate
            | _ => ret link_to_relocate
            end) ;;
         let binary_to_relocate :=
           if needs_binary_relocation X m_type m_subtype
           then if negb (endswith filename ".o")
                then binary_to_relocate ++ [os_path_relpath X path_name prefix]
                else binary_to_relocate
           else binary_to_relocate in
         let text_to_relocate :=
           if needs_text_relocation X m_type m_subtype
           then text_to_relocate ++ [os_path_relpath X path_name prefix]
           else text_to_relocate in
         ret (text_to_relocate, binary_to_relocate, link_to_relocate)) ;;
  let '(text_to_relocate, binary_to_relocate, link_to_relocate) :=
    (lists : list string * list string * list string) in
  let buildinfo :=
    YMap [("relative_rpaths", YBool rel);
          ("buildpath", YStr (layout_root X));
          ("spackprefix", YStr (spack_prefix X));
          ("relative_prefix", YStr (os_path_relpath X prefix (layout_root X)));
          ("relocate_textfiles", YSeq (map YStr text_to_relocate));
          ("relocate_binaries", YSeq (map YStr binary_to_relocate));
          ("relocate_links", YSeq (map YStr link_to_relocate))] in
  let filename := buildinfo_file_name workdir in
  write_file filename (syaml_dump X buildinfo).

(** ** Relocation drivers (lines 467-554) *)

Definition make_package_relative (workdir : string) (spec : Spec)
  (allow_root : bool) : M unit :=
  let prefix := prefix spec in
  buildinfo <- read_buildinfo_file workdir ;;
  old_path <- py_getitem buildinfo "buildpath" ;;
  binaries <- py_getitem buildinfo "relocate_binaries" ;;
  names <- py_iter_names binaries ;;
  let orig_path_names := map (os_path_join prefix) names in
  let cur_path_names := map (os_path_join workdir) names in
  (if String.eqb (platform spec) "darwin"
   then run_fsop (make_macho_binaries_relative X cur_path_names
                    orig_path_names (py_str X old_path) allow_root)
   else run_fsop (make_elf_binaries_relative X cur_path_names
                    orig_path_names (py_str X old_path) allow_root)) ;;
  links <- py_get buildinfo "relocate_links" (YSeq []) ;;
  names <- py_iter_names links ;;
  let orig_path_names := map (os_path_join prefix) names in
  let cur_path_names := map (os_path_join workdir) names in
  run_fsop (make_link_relative X cur_path_names orig_path_names).

Definition make_package_placeholder (workdir : string) (spec : Spec)
  (allow_root : bool) : M unit :=
  let prefix := prefix spec in
  buildinfo <- read_buildinfo_file workdir ;;
  binaries <- py_getitem buildinfo "relocate_binaries" ;;
  names <- py_iter_names binaries ;;
  let cur_path_names := map (os_path_join workdir) names in
  run_fsop (check_files_relocatable X cur_path_names allow_root) ;;
  links <- py_get buildinfo "relocate_links" (YSeq []) ;;
  names <- py_iter_names links ;;
  let cur_path_names := map (os_path_join workdir) names in
  run_fsop (make_link_placeholder X cur_path_names workdir prefix).

Definition relocate_package (workdir : string) (spec : Spec)
  (allow_root : bool) : M unit :=
  buildinfo <- read_buildinfo_file workdir ;;
  let new_path := layout_root X in
  let new_prefix := spack_prefix X in
  old_path_v <- py_getitem buildinfo "buildpath" ;;
  let old_path := py_str X old_path_v in
  old_prefix_v <- py_get buildinfo "spackprefix"
                    (YStr "/not/in/buildinfo/dictionary") ;;
  let old_prefix := py_str X old_prefix_v in
  rel <- py_get buildinfo "relative_rpaths" (YBool false) ;;
  if py_truthy rel then ret tt
  else
    tty_msg ("Relocating package from " +:+ old_path +:+ " to " +:+
             new_path +:+ ".") ;;
    textfiles <- py_getitem buildinfo "relocate_textfiles" ;;
    names <- py_iter_names textfiles ;;
    let path_names : gset string :=
      list_to_set (filter (λ path_name, endswith path_name "~" = false)
                     (map (os_path_join workdir) names)) in
    run_fsop (relocate_text X path_names old_path new_path old_prefix
                new_prefix) ;;
    if negb (py_truthy rel)
    then
      binaries <- py_getitem buildinfo "relocate_binaries" ;;
      names <- py_iter_names binaries ;;
      let path_names : gset string :=
        list_to_set (map (os_path_join workdir) names) in
      (if String.eqb (platform spec) "darwin"
       then run_fsop (relocate_macho_binaries X path_names old_path new_path
                        allow_root)
       else run_fsop (relocate_elf_binaries X path_names old_path new_path
                        allow_root)) ;;
      links <- py_get buildinfo "relocate_links" (YSeq []) ;;
      names <- py_iter_names links ;;
      let path_names : gset string :=
        list_to_set (map (os_path_join workdir) names) in
      run_fsop (relocate_links X path_names old_path new_path)
    else ret tt.

(** ** generate_package_index (lines 269-298) *)

Definition BUILD_CACHE_INDEX_TEMPLATE (title path_list : string) : string :=
  nl +:+ "<html>" +:+ nl +:+ "<head>" +:+ nl +:+
  "  <title>" +:+ title +:+ "</title>" +:+ nl +:+ "</head>" +:+ nl +:+
  "<body>" +:+ nl +:+ "<ul>" +:+ nl +:+ path_list +:+ nl +:+ "</ul>" +:+ nl +:+
  "</body>" +:+ nl +:+ "</html>" +:+ nl.

Definition dquote : string := String (ascii_of_nat 34) "".

Definition BUILD_CACHE_INDEX_ENTRY_TEMPLATE (path : string) : string :=
  "  <li><a href=" +:+ dquote +:+ path +:+ dquote +:+ ">" +:+ path +:+
  "</a></li>".

Fixpoint join_lines (l : list string) : string :=
  match l with
  | [] => ""
  | [x] => x
  | x :: rest => x +:+ nl +:+ join_lines rest
  end.

Definition generate_package_index (cache_prefix : string) : M unit :=
  tmpdir <- mkdtemp ;;
  try_finally
    (let index_html_path := os_path_join tmpdir "index.html" in
     entries <- list_url cache_prefix ;;
     let file_list :=
       filter (λ entry, endswith entry ".yaml" || endswith entry ".key" = true)
         entries in
     write_file index_html_path
       (BUILD_CACHE_INDEX_TEMPLATE "Spack Package Index"
          (join_lines (map BUILD_CACHE_INDEX_ENTRY_TEMPLATE file_list))) ;;
     push_to_url index_html_path (url_join cache_prefix "index.html"))
    (shutil_rmtree tmpdir).

(** ** build_tarball (lines 301-438), block by block *)

(** [with closing(tarfile.open(out, mode)) as tar: tar.add(name=dir,
    arcname=arcname)]. *)
Definition tar_add_tree (out dir arcname : string) : M unit :=
  λ w, if fs_exists dir (fs w)
       then (Ok tt,
             set_fs (λ m, <[out := File (tar_write X
                                           (map (λ e, (arcname +:+ e.1, e.2))
                                              (fs_subtree dir m)))]> m) w)
       else (Raise (IOError dir), w).

(** The deterministic remote names (lines 320-321 and 338-339). *)
Definition remote_spackfile_path (spec : Spec) (outdir tmpdir : string)
  : string :=
  let cache_prefix := build_cache_prefix tmpdir in
  let spackfile_path :=
    os_path_join cache_prefix (tarball_path_name spec ".spack") in
  url_join outdir (os_path_relpath X spackfile_path tmpdir).

Definition remote_specfile_path (spec : Spec) (outdir tmpdir : string)
  : string :=
  let cache_prefix := build_cache_prefix tmpdir in
  let specfile_name := tarball_name spec ".spec.yaml" in
  let specfile_path :=
    os_path_realpath X (os_path_join cache_prefix specfile_name) in
  url_join outdir
    (os_path_relpath X specfile_path (os_path_realpath X tmpdir)).

(** Lines 307-345: validation, scratch directory, overwrite guard on the
    two remote artifacts.  Returns [tmpdir]. *)
Definition build_guard (spec : Spec) (outdir : string) (force : bool)
  : M string :=
  if negb (concrete spec)
  then raise (ValueError "spec must be concrete to build tarball")
  else
    (* set up some paths *)
    tmpdir <- mkdtemp ;;
    let cache_prefix := build_cache_prefix tmpdir in
    let tarfile_dir := os_path_join cache_prefix (tarball_directory_name spec) in
    let remote_spackfile_path := remote_spackfile_path spec outdir tmpdir in
    mkdirp tarfile_dir ;;
    there <- url_exists remote_spackfile_path ;;
    (if (there : bool)
     then if force then remove_url remote_spackfile_path
          else raise (NoOverwriteException (url_format X remote_spackfile_path))
     else ret tt) ;;
    let remote_specfile_path := remote_specfile_path spec outdir tmpdir in
    there <- url_exists remote_specfile_path ;;
    (if (there : bool)
     then if force then remove_url remote_specfile_path
          else raise (NoOverwriteException (url_format X remote_specfile_path))
     else ret tt) ;;
    ret tmpdir.

(** Lines 347-422: the archive is assembled in the scratch directory. *)
Definition build_package (spec : Spec) (outdir tmpdir : string)
  (force rel unsigned allow_root : bool) (key : option string) : M unit :=
  let cache_prefix := build_cache_prefix tmpdir in
  let tarfile_name := tarball_name spec ".tar.gz" in
  let tarfile_dir := os_path_join cache_prefix (tarball_directory_name spec) in
  let tarfile_path := os_path_join tarfile_dir tarfile_name in
  let spackfile_path :=
    os_path_join cache_prefix (tarball_path_name spec ".spack") in
  let spec_file :=
    os_path_join (os_path_join (prefix spec) ".spack") "spec.yaml" in
  let specfile_name := tarball_name spec ".spec.yaml" in
  let specfile_path :=
    os_path_realpath X (os_path_join cache_prefix specfile_name) in
  let remote_specfile_path := remote_specfile_path spec outdir tmpdir in
  (* make a copy of the install directory to work with *)
  tmp2 <- mkdtemp ;;
  let workdir := os_path_join tmp2 (os_path_basename (prefix spec)) in
  install_tree (prefix spec) workdir ;;
  (* create info for later relocation and create tar *)
  write_buildinfo_file (prefix spec) workdir rel ;;
  (if rel
   then try_except is_Exception
          (make_package_relative workdir spec allow_root)
          (λ e, shutil_rmtree workdir ;; shutil_rmtree tarfile_dir ;;
                shutil_rmtree tmpdir ;; tty_die (str_exn e))
   else try_except is_Exception
          (make_package_placeholder workdir spec allow_root)
          (λ e, shutil_rmtree workdir ;; shutil_rmtree tarfile_dir ;;
                shutil_rmtree tmpdir ;; tty_die (str_exn e))) ;;
  (* create compressed tarball of the install prefix *)
  tar_add_tree tarfile_path workdir (os_path_basename (prefix spec)) ;;
  shutil_rmtree workdir ;;
  checksum <- checksum_tarball tarfile_path ;;
  (* add sha256 checksum to spec.yaml *)
  content <- read_file spec_file ;;
  spec_dict <- lift_outcome (yaml_load X content) ;;
  let bchecksum :=
    YMap [("hash_algorithm", YStr "sha256"); ("hash", YStr checksum)] in
  spec_dict <- py_setitem spec_dict "binary_cache_checksum" bchecksum ;;
  let buildinfo :=
    YMap [("relative_prefix",
           YStr (os_path_relpath X (prefix spec) (layout_root X)))] in
  spec_dict <- py_setitem spec_dict "buildinfo" buildinfo ;;
  spec_dict <- py_setitem spec_dict "full_hash" (YStr (full_hash spec)) ;;
  tty_debug ("The full_hash (" +:+ full_hash spec +:+ ") of " +:+
             name spec +:+ " will be written into " +:+
             url_format X remote_specfile_path) ;;
  tty_debug (tree spec) ;;
  write_file specfile_path (syaml_dump X spec_dict) ;;
  (* sign the tarball and spec file with gpg *)
  (if negb unsigned then sign_tarball key force specfile_path else ret tt) ;;
  (* put tarball, spec and signature files in .spack archive *)
  tarball <- read_file tarfile_path ;;
  specfile <- read_file specfile_path ;;
  signature <- (if negb unsigned
                then sig <- read_file (specfile_path +:+ ".asc") ;;
                     ret [(specfile_name +:+ ".asc", File sig)]
                else ret []) ;;
  write_file spackfile_path
    (tar_write X ([(tarfile_name, File tarball);
                   (specfile_name, File specfile)] ++ signature)) ;;
  (* cleanup file moved to archive *)
  os_remove tarfile_path ;;
  (if negb unsigned then os_remove (specfile_path +:+ ".asc") else ret tt).

(** Lines 424-438: the two artifacts are published, the index rebuilt on
    request, the scratch directory removed. *)
Definition build_publish (spec : Spec) (outdir tmpdir : string)
  (regenerate_index : bool) : M unit :=
  let cache_prefix := build_cache_prefix tmpdir in
  let spackfile_path :=
    os_path_join cache_prefix (tarball_path_name spec ".spack") in
  let specfile_path :=
    os_path_realpath X
      (os_path_join cache_prefix (tarball_name spec ".spec.yaml")) in
  push_to_url spackfile_path (remote_spackfile_path spec outdir tmpdir) ;;
  push_to_url specfile_path (remote_specfile_path spec outdir tmpdir) ;;
  try_finally
    (if regenerate_index
     then generate_package_index
            (url_join outdir (os_path_relpath X cache_prefix tmpdir))
     else ret tt)
    (shutil_rmtree tmpdir).

Definition build_tarball (spec : Spec) (outdir : string)
  (force rel unsigned allow_root : bool) (key : option string)
  (regenerate_index : bool) : M unit :=
  tmpdir <- build_guard spec outdir force ;;
  build_package spec outdir tmpdir force rel unsigned allow_root key ;;
  build_publish spec outdir tmpdir regenerate_index.

(** ** extract_tarball (lines 557-649), block by block *)

Definition NoVerify_msg : string :=
  "Package spec file failed signature verification." +:+ nl +:+
  "Use spack buildcache keys to download " +:+
  "and install a key for verification from the mirror.".

Definition NoChecksum_msg : string :=
  "Package tarball failed checksum verification." +:+ nl +:+
  "It cannot be installed.".

Definition NewLayout_msg : string :=
  "Package tarball was created from an install " +:+
  "prefix with a different directory layout." +:+ nl +:+
  "It cannot be relocated.".

(** Lines 562-578: overwrite guard on the install prefix, temporary
    directory, unpacking of the outer archive.  Returns [tmpdir]. *)
Definition extract_open (spec : Spec) (filename : string) (force : bool)
  : M string :=
  there <- os_path_exists (prefix spec) ;;
  (if (there : bool)
   then if force then shutil_rmtree (prefix spec)
        else raise (NoOverwriteException (prefix spec))
   else ret tt) ;;
  tmpdir <- mkdtemp ;;
  let stagepath := os_path_dirname filename in
  let spackfile_name := tarball_name spec ".spack" in
  let spackfile_path := os_path_join stagepath spackfile_name in
  tar_extractall X spackfile_path tmpdir ;;
  ret tmpdir.

(** Lines 579-591: signature verification. *)
Definition extract_verify (spec : Spec) (tmpdir : string) (unsigned : bool)
  : M unit :=
  let specfile_name := tarball_name spec ".spec.yaml" in
  let specfile_path := os_path_join tmpdir specfile_name in
  if negb unsigned
  then
    signed <- os_path_exists (specfile_path +:+ ".asc") ;;
    if (signed : bool)
    then try_except is_Exception
           (Gpg_verify X (specfile_path +:+ ".asc") specfile_path)
           (λ e, shutil_rmtree tmpdir ;; tty_die (str_exn e))
    else
      shutil_rmtree tmpdir ;;
      raise (NoVerifyException NoVerify_msg)
  else ret tt.

(** Lines 592-607: checksum verification.  Returns [spec_dict]. *)
Definition extract_checksum (spec : Spec) (tmpdir : string) : M yaml :=
  let tarfile_name := tarball_name spec ".tar.gz" in
  let tarfile_path := os_path_join tmpdir tarfile_name in
  let specfile_name := tarball_name spec ".spec.yaml" in
  let specfile_path := os_path_join tmpdir specfile_name in
  checksum <- checksum_tarball tarfile_path ;;
  content <- read_file specfile_path ;;
  spec_dict <- lift_outcome (syaml_load X content) ;;
  bchecksum <- py_getitem spec_dict "binary_cache_checksum" ;;
  recorded <- py_getitem bchecksum "hash" ;;
  if py_ne_str recorded checksum
  then
    shutil_rmtree tmpdir ;;
    raise (NoChecksumException NoChecksum_msg)
  else ret spec_dict.

(** Lines 609-621: directory layout check. *)
Definition extract_layout (spec : Spec) (tmpdir : string) (spec_dict : yaml)
  : M unit :=
  let new_relative_prefix := os_path_relpath X (prefix spec) (layout_root X) in
  buildinfo <- py_get spec_dict "buildinfo" (YMap []) ;;
  old_relative_prefix <-
    py_get buildinfo "relative_prefix" (YStr new_relative_prefix) ;;
  if py_ne_str old_relative_prefix new_relative_prefix
  then
    shutil_rmtree tmpdir ;;
    raise (NewLayoutException NewLayout_msg)
  else ret tt.

(** Lines 623-634: the payload is unpacked and copied to the install
    prefix. *)
Definition extract_install (spec : Spec) (tmpdir : string) : M unit :=
  let tarfile_name := tarball_name spec ".tar.gz" in
  let tarfile_path := os_path_join tmpdir tarfile_name in
  let specfile_name := tarball_name spec ".spec.yaml" in
  let specfile_path := os_path_join tmpdir specfile_name in
  tar_extractall X tarfile_path tmpdir ;;
  let workdir := os_path_join tmpdir (os_path_basename (prefix spec)) in
  install_tree workdir (prefix spec) ;;
  os_remove tarfile_path ;;
  os_remove specfile_path.

(** Lines 636-649: relocation, with its rollback. *)
Definition extract_relocate (spec : Spec) (tmpdir : string)
  (allow_root : bool) : M unit :=
  try_finally
    (try_except_else is_Exception
       (relocate_package (prefix spec) spec allow_root)
       (λ e, shutil_rmtree (prefix spec) ;; tty_die (str_exn e))
       (λ _,
          let manifest_file :=
            os_path_join (os_path_join (prefix spec) (metadata_dir X))
              (manifest_file_name X) in
          there <- os_path_exists manifest_file ;;
          if negb there
          then
            let spec_id :=
              name spec +:+ "/" +:+ String.substring 0 7 (dag_hash spec) in
            tty_warn ("No manifest file in tarball for spec " +:+ spec_id)
          else ret tt))
    (shutil_rmtree tmpdir).

Definition extract_tarball (spec : Spec) (filename : string)
  (allow_root unsigned force : bool) : M unit :=
  tmpdir <- extract_open spec filename force ;;
  extract_verify spec tmpdir unsigned ;;
  spec_dict <- extract_checksum spec tmpdir ;;
  extract_layout spec tmpdir spec_dict ;;
  extract_install spec tmpdir ;;
  extract_relocate spec tmpdir allow_root.

(** ** get_specs (lines 652-711) *)

(** [get_specs] returns the cached list, or [{}] when no mirror is
    configured. *)
Inductive specs_result : Type :=
| SpecList (l : list Spec)
| EmptyDict.

Definition mark_concrete (s : Spec) : Spec :=
  mkSpec (name s) (version s) (architecture s) (platform s) (compiler s) true
         (dag_hash s) (full_hash s) (short_spec s) (tree s) (prefix s).

(** Lines 670-691: the URLs of the spec files that the mirrors list. *)
Definition get_specs_urls (configured : list Mirror) : M (gset string) :=
  for_fold configured (∅ : gset string)
    (λ mirror urls,
       let fetch_url_build_cache :=
         url_join (fetch_url mirror) _build_cache_relative_path in
       match local_file_path X fetch_url_build_cache with
       | Some (String c d) =>
           let mirror_dir := String c d in
           tty_msg ("Finding buildcaches in " +:+ mirror_dir) ;;
           there <- os_path_exists mirror_dir ;;
           if (there : bool)
           then
             files <- os_listdir mirror_dir ;;
             ret (urls ∪
                  list_to_set
                    (map (url_join fetch_url_build_cache)
                       (filter (λ file, re_search_spec_yaml file = true)
                          files)))
           else ret urls
       | _ =>
           tty_msg ("Finding buildcaches at " +:+
                    url_format X fetch_url_build_cache) ;;
           links <- spider X (url_join fetch_url_build_cache "index.html") ;;
           ret (urls ∪
                list_to_set
                  (filter (λ link, re_search_spec_yaml link = true) links))
       end).

(** Lines 695-709: the body of [for link in urls]; the spec read from the
    staged file is appended to the global list. *)
Definition get_specs_load (force : bool) (link : string) : M unit :=
  let save_filename := stage_save_filename X link in
  there <- os_path_exists save_filename ;;
  (if force && there then os_remove save_filename else ret tt) ;;
  there <- os_path_exists save_filename ;;
  fetched <-
    (if negb there
     then try_except is_FetchError
            (stage_fetch X link ;; ret true) (λ _, ret false)
     else ret true) ;;
  if (fetched : bool)
  then
    content <- read_file save_filename ;;
    spec <- lift_outcome (spec_from_yaml X content) ;;
    λ w, (Ok tt,
          set_cached_specs
            (Some (default [] (cached_specs w) ++ [mark_concrete spec])) w)
  else ret tt.

Definition get_specs (force : bool) : M specs_result :=
  cached <- (λ w, (Ok (cached_specs w), w)) ;;
  match cached with
  | Some (s :: l) =>
      tty_debug "Using previously-retrieved specs" ;;
      ret (SpecList (s :: l))
  | _ =>
      configured <- (λ w, (Ok (mirrors w), w)) ;;
      match configured with
      | [] =>
          tty_warn "No Spack mirrors are currently configured" ;;
          ret EmptyDict
      | _ :: _ =>
          urls <- get_specs_urls configured ;;
          (λ w, (Ok tt, set_cached_specs (Some []) w)) ;;
          for_each (elements urls) (get_specs_load force) ;;
          cached <- (λ w, (Ok (cached_specs w), w)) ;;
          ret (SpecList (default [] cached))
      end
  end.

End Operations.

(** * Notions used in the statements *)

(** The URL [needs_rebuild] reads ([file_path], line 783). *)
Definition spec_yaml_url (spec : Spec) (mirror_url : string) : string :=
  os_path_join (build_cache_prefix mirror_url) (tarball_name spec ".spec.yaml").

(** The line [needs_rebuild] prints when it answers [True] (line 819). *)
Definition rebuilding_msg (spec : Spec) (reason : string) : tty_event :=
  TtyMsg ("Rebuilding " +:+ short_spec spec +:+ ", reason: " +:+ reason).

(** The local tree once the overwrite guard of lines 562-566 has passed. *)
Definition fs_after_guard (spec : Spec) (m : gmap string node)
  : gmap string node :=
  if fs_exists (prefix spec) m then fs_rmtree (prefix spec) m else m.

(** The staging area: the temporary directory was created on [m0] and an
    archive unpacked with it as the destination. *)
Definition staged (tmpdir : string) (m0 m : gmap string node) : Prop :=
  fs_exists tmpdir m0 = false ∧
  ∃ ms, m = fs_unpack tmpdir ms (<[tmpdir := Dir]> m0).

(** An archive all of whose members stay below the destination: names
    that stay inside, and no symbolic link to write through. *)
Definition member_stays (e : string * node) : bool :=
  member_inside e.1 && match e.2 with Link _ => false | _ => true end.

Definition members_inside (ms : list (string * node)) : Prop :=
  Forall (λ e, member_stays e = true) ms.

(** The same staging area when the archive had such members only:
    everything that was written is below the temporary directory. *)
Definition staged_inside (tmpdir : string) (m0 m : gmap string node) : Prop :=
  fs_exists tmpdir m0 = false ∧
  ∃ ms, members_inside ms ∧ m = fs_unpack tmpdir ms (<[tmpdir := Dir]> m0).



(** [new_relative_prefix] of [extract_tarball] (line 609). *)
Definition local_relative_prefix (X : Externals) (spec : Spec) : string :=
  os_path_relpath X (prefix spec) (layout_root X).








(** ** Frame conditions *)

(** Every run of [m] relates the world it starts in to the one it ends in
    by [R], whatever its outcome. *)
Definition keeps {A : Type} (R : world → world → Prop) (m : M A) : Prop :=
  ∀ w, R w (m w).2.

(** The same for the runs that return normally. *)
Definition keeps_ok {A : Type} (R : world → world → Prop) (m : M A) : Prop :=
  ∀ w a w', m w = (Ok a, w') → R w w'.

Definition same_fs (w w' : world) : Prop := fs w' = fs w.

(** Only the local tree, the terminal and the supply of temporary names
    may differ. *)
Definition local_step (w w' : world) : Prop :=
  remote w' = remote w ∧ calls w' = calls w ∧
  mirrors w' = mirrors w ∧ cached_specs w' = cached_specs w.

(** Only the terminal may differ. *)
Definition tty_step (w w' : world) : Prop :=
  local_step w w' ∧ fs w' = fs w.

Definition same_remote (w w' : world) : Prop := remote w' = remote w.

(** The external calls made are all of kind [P]. *)
Definition extends_calls (P : ext_event → Prop) (w w' : world) : Prop :=
  ∃ evs, calls w' = calls w ++ evs ∧ Forall P evs.

Definition cache_stays_set (w w' : world) : Prop :=
  is_Some (cached_specs w) → is_Some (cached_specs w').

Definition is_GpgSign (ev : ext_event) : Prop :=
  match ev with GpgSign _ _ _ => True | _ => False end.

Definition not_RemoveUrl (ev : ext_event) : Prop :=
  match ev with RemoveUrl _ => False | _ => True end.

(** ** Notions for the overwrite guard of [build_tarball] *)

(** [web_util.url_exists(u)] on the mirror contents [r]. *)
Definition url_present (r : gmap string response) (u : string) : bool :=
  match r !! u with Some (Content _) => true | _ => false end.

(** The deletions the guard of lines 324-345 performs under [force]. *)
Definition guard_removals (r : gmap string response) (u1 u2 : string)
  : list ext_event :=
  (if url_present r u1 then [RemoveUrl u1] else []) ++
  (if url_present (if url_present r u1 then delete u1 r else r) u2
   then [RemoveUrl u2] else []).

(** * The remaining operations of the module *)

Section Downloads.
Context (X : Externals).

(** ** download_tarball (lines 441-464) *)

(** The loop of lines 452-462 over [MirrorCollection().values()]: the
    first mirror whose fetch succeeds ends it with [stage.save_filename]. *)
Fixpoint download_tarball_from (configured : list Mirror) (tarball : string)
  : M (option string) :=
  match configured with
  | [] => ret None
  | mirror :: rest =>
      let url :=
        url_join (url_join (fetch_url mirror) _build_cache_relative_path)
          tarball in
      fetched <- try_except is_FetchError
                   (stage_fetch X url ;; ret true) (λ _, ret false) ;;
      if (fetched : bool) then ret (Some (stage_save_filename X url))
      else download_tarball_from rest tarball
  end.

Definition download_tarball (spec : Spec) : M (option string) :=
  configured <- (λ w, (Ok (mirrors w), w)) ;;
  (match configured with
   | [] => tty_die ("Please add a spack mirror to allow " +:+
                    "download of pre-compiled packages.")
   | _ :: _ => ret tt
   end) ;;
  let tarball := tarball_path_name spec ".spack" in
  download_tarball_from configured tarball.

(** ** _download_buildcache_entry, download_buildcache_entry
    (lines 873-911) *)

Record description : Type := mkDescription {
  d_url : string;               (* description['url'] *)
  d_path : string;              (* description['path'] *)
  d_required : bool             (* description['required'] *)
}.

(** [Stage(url, name="build_cache", path=path, keep=True).fetch()]: the
    file lands in [path] under the last component of the URL. *)
Definition stage_fetch_into (url path : string) : M unit :=
  λ w, match remote w !! url with
       | Some (Content body) =>
           (Ok tt, add_call (StageFetch url)
                     (set_fs (insert (os_path_join path (os_path_basename url))
                                (File body)) w))
       | _ => (Raise (FetchError url), add_call (StageFetch url) w)
       end.

Fixpoint _download_buildcache_entry (mirror_root : string)
  (descriptions : list description) : M bool :=
  match descriptions with
  | [] => ret true
  | description :: rest =>
      let description_url := os_path_join mirror_root (d_url description) in
      let path := d_path description in
      let fail_if_missing := d_required description in
      mkdirp path ;;
      go_on <-
        try_except is_FetchError
          (stage_fetch_into description_url path ;; ret true)
          (λ e,
             tty_debug (str_exn e) ;;
             if fail_if_missing
             then
               tty_error ("Failed to download required url " +:+
                          description_url) ;;
               ret false
             else ret true) ;;
      if (go_on : bool) then _download_buildcache_entry mirror_root rest
      else ret false
  end.

Fixpoint download_buildcache_entry_from (configured : list Mirror)
  (file_descriptions : list description) : M bool :=
  match configured with
  | [] => ret false
  | mirror :: rest =>
      let mirror_root :=
        os_path_join (fetch_url mirror) _build_cache_relative_path in
      done <- _download_buildcache_entry mirror_root file_descriptions ;;
      if (done : bool) then ret true
      else download_buildcache_entry_from rest file_descriptions
  end.

Definition download_buildcache_entry (file_descriptions : list description)
  : M bool :=
  configured <- (λ w, (Ok (mirrors w), w)) ;;
  (match configured with
   | [] => tty_die ("Please add a spack mirror to allow " +:+
                    "download of buildcache entries.")
   | _ :: _ => ret tt
   end) ;;
  download_buildcache_entry_from configured file_descriptions.

(** ** get_keys (lines 714-761) *)

(** [re.search(r'\.key', s)]: ".key" anywhere in [s]. *)
Definition re_search_dot_key (s : string) : bool := is_substring ".key" s.

(** [Gpg.trust(keyfile)]. *)
Definition Gpg_trust (keyfile : string) : M unit :=
  λ w, let w' := add_call (GpgTrust keyfile) w in
       match fs w !! keyfile with
       | Some (File _) => (Ok tt, w')
       | _ => (Raise (ProcessError "gpg: cannot open file"), w')
       end.

(** Lines 745-761: the body of [for link in keys]. *)
Definition get_keys_load (install trust force : bool) (link : string)
  : M unit :=
  let save_filename := stage_save_filename X link in
  there <- os_path_exists save_filename ;;
  (if there && force then os_remove save_filename else ret tt) ;;
  there <- os_path_exists save_filename ;;
  fetched <-
    (if negb there
     then try_except is_FetchError
            (stage_fetch X link ;; ret true) (λ _, ret false)
     else ret true) ;;
  if (fetched : bool)
  then
    tty_msg ("Found key " +:+ link) ;;
    if install
    then
      if trust
      then
        Gpg_trust save_filename ;;
        tty_msg "Added this key to trusted keys."
      else
        tty_msg ("Will not add this key to trusted keys." +:+
                 "Use -t to install all downloaded keys")
    else ret tt
  else ret tt.

Definition get_keys (install trust force : bool) : M unit :=
  configured <- (λ w, (Ok (mirrors w), w)) ;;
  (match configured with
   | [] => tty_die ("Please add a spack mirror to allow " +:+
                    "download of build caches.")
   | _ :: _ => ret tt
   end) ;;
  for_fold configured (∅ : gset string)
    (λ mirror keys,
       let fetch_url_build_cache :=
         url_join (fetch_url mirror) _build_cache_relative_path in
       keys <-
         match local_file_path X fetch_url_build_cache with
         | Some (String c d) =>
             let mirror_dir := String c d in
             tty_msg ("Finding public keys in " +:+ mirror_dir) ;;
             files <- os_listdir mirror_dir ;;
             ret (keys ∪
                  list_to_set
                    (map (url_join fetch_url_build_cache)
                       (filter (λ file, re_search_dot_key file = true) files)))
         | _ =>
             tty_msg ("Finding public keys at " +:+
                      url_format X fetch_url_build_cache) ;;
             links <- spider X fetch_url_build_cache ;;
             ret (keys ∪
                  list_to_set
                    (filter (λ link, re_search_dot_key link = true) links))
         end ;;
       for_each (elements keys) (get_keys_load install trust force) ;;
       ret keys) ;;
  ret tt.

End Downloads.

(** * Notions used in the further statements *)

(** The URL [download_tarball] fetches from a mirror (line 453). *)
Definition archive_url (spec : Spec) (m : Mirror) : string :=
  url_join (url_join (fetch_url m) _build_cache_relative_path)
    (tarball_path_name spec ".spack").

(** A description that a mirror rooted at [mirror_root] can serve, or that
    is not required. *)
Definition served (r : gmap string response) (mirror_root : string)
  (d : description) : bool :=
  negb (d_required d) || url_present r (os_path_join mirror_root (d_url d)).

Definition not_GpgTrust (ev : ext_event) : Prop :=
  match ev with GpgTrust _ => False | _ => True end.

(** Neither the local tree nor a mirror changes. *)
Definition reads_only (w w' : world) : Prop :=
  fs w' = fs w ∧ remote w' = remote w.

Definition same_mirrors (w w' : world) : Prop := mirrors w' = mirrors w.

(** Every spec of the cache is concrete. *)
Definition cache_concrete (w : world) : Prop :=
  ∀ l, cached_specs w = Some l → Forall (λ s, concrete s = true) l.

Definition keeps_concrete (w w' : world) : Prop :=
  cache_concrete w → cache_concrete w'.

(** * A worked scenario

    A small instance of the externals and a few worlds, on which the
    definitions run: zlib 1.2.11, one staged archive per case. *)

Definition zlib : Spec :=
  mkSpec "zlib" "1.2.11" "linux-ubuntu18.04-x86_64" "linux" "gcc@7.3.0" true
         "abcdefghij" "fh1" "zlib@1.2.11" "zlib@1.2.11 tree"
         "/opt/spack/linux/zlib".

Definition zlib_tarfile : string := tarball_name zlib ".tar.gz".
Definition zlib_specfile : string := tarball_name zlib ".spec.yaml".
Definition zlib_spackfile : string := tarball_name zlib ".spack".

Definition toy_digest (content : string) : string := "sha256:" +:+ content.

(** Metadata documents, by the text that stands for them. *)
Definition toy_metadata (checksum : string) (layout : option string)
  (fh : option string) : yaml :=
  YMap ([("binary_cache_checksum",
          YMap [("hash_algorithm", YStr "sha256"); ("hash", YStr checksum)])] ++
        match layout with
        | Some rel => [("buildinfo", YMap [("relative_prefix", YStr rel)])]
        | None => []
        end ++
        match fh with
        | Some h => [("full_hash", YStr h)]
        | None => []
        end).

Definition toy_buildinfo (buildpath : string) : yaml :=
  YMap [("relative_rpaths", YBool false); ("buildpath", YStr buildpath);
        ("spackprefix", YStr "/old/spack");
        ("relative_prefix", YStr "linux/zlib");
        ("relocate_textfiles", YSeq [YStr "bin/zlib-config"]);
        ("relocate_binaries", YSeq [YStr "lib/libz.so"]);
        ("relocate_links", YSeq [])].

Definition toy_yaml_load (text : string) : exn + yaml :=
  if String.eqb text "meta good"
  then inr (toy_metadata (toy_digest "payload") (Some "linux/zlib") (Some "fh1"))
  else if String.eqb text "meta bad checksum"
  then inr (toy_metadata "sha256:other" (Some "linux/zlib") (Some "fh1"))
  else if String.eqb text "meta other layout"
  then inr (toy_metadata (toy_digest "payload") (Some "darwin/zlib") (Some "fh1"))
  else if String.eqb text "meta no layout"
  then inr (toy_metadata (toy_digest "payload") None (Some "fh1"))
  else if String.eqb text "meta broken"
  then inr (toy_metadata (toy_digest "payload broken") (Some "linux/zlib")
              (Some "fh1"))
  else if String.eqb text "meta stale"
  then inr (toy_metadata (toy_digest "payload") (Some "linux/zlib") (Some "fh0"))
  else if String.eqb text "meta no full hash"
  then inr (toy_metadata (toy_digest "payload") (Some "linux/zlib") None)
  else if String.eqb text "buildinfo"
  then inr (toy_buildinfo "/old/opt")
  else if String.eqb text "buildinfo broken"
  then inr (toy_buildinfo "/broken")
  else if String.eqb text "spec zlib"
  then inr (YMap [("spec", YStr "zlib")])
  else inl (YAMLError text).

Definition toy_bundle (payload metadata : string) (signature : option string)
  : list (string * node) :=
  [(zlib_tarfile, File payload); (zlib_specfile, File metadata)] ++
  match signature with
  | Some s => [(zlib_specfile +:+ ".asc", File s)]
  | None => []
  end.

Definition toy_tar_read (text : string) : exn + list (string * node) :=
  if String.eqb text "bundle good"
  then inr (toy_bundle "payload" "meta good" (Some "signature good"))
  else if String.eqb text "bundle unsigned"
  then inr (toy_bundle "payload" "meta good" None)
  else if String.eqb text "bundle forged"
  then inr (toy_bundle "payload" "meta good" (Some "signature forged"))
  else if String.eqb text "bundle bad checksum"
  then inr (toy_bundle "payload" "meta bad checksum" None)
  else if String.eqb text "bundle other layout"
  then inr (toy_bundle "payload" "meta other layout" None)
  else if String.eqb text "bundle no layout"
  then inr (toy_bundle "payload" "meta no layout" None)
  else if String.eqb text "bundle broken"
  then inr (toy_bundle "payload broken" "meta broken" None)
  else if String.eqb text "payload"
  then inr [("zlib/lib/libz.so", File "ELF");
            ("zlib/bin/zlib-config", File "#!/bin/sh");
            ("zlib/.spack/binary_distribution", File "buildinfo")]
  else if String.eqb text "payload broken"
  then inr [("zlib/lib/libz.so", File "ELF");
            ("zlib/.spack/binary_distribution", File "buildinfo broken")]
  else inl (ReadError text).

Definition toy_relpath (path start : string) : string :=
  match strip_dir start path with
  | Some (String _ rel) => rel
  | _ => path
  end.

Definition toy_fsop (m : gmap string node) : option exn * gmap string node :=
  (None, m).

Definition toy : Externals := {|
  syaml_load := toy_yaml_load;
  syaml_dump := λ v,
    match v with
    | YMap m => match assoc "buildpath" m with
                | Some _ => "buildinfo"
                | None => "meta good"
                end
    | _ => "null"
    end;
  yaml_load := toy_yaml_load;
  json_dumps := λ _, "report";
  py_repr := λ _, "<value>";
  hasher := string;
  sha256_new := "";
  sha256_update := λ h block, h +:+ block;
  sha256_hexdigest := toy_digest;
  tar_read := toy_tar_read;
  tar_write := λ _, "bundle unsigned";
  gpg_available := true;
  gpg_signing_keys := ["KEY1"];
  gpg_signature := λ _ _, inr "signature good";
  gpg_verifies := λ sig _, String.eqb sig "signature good";
  layout_root := "/opt/spack";
  spack_prefix := "/spack";
  metadata_dir := ".spack";
  manifest_file_name := "install_manifest.json";
  os_path_relpath := toy_relpath;
  os_path_realpath := λ p, p;
  url_format := λ u, u;
  local_file_path := λ _, None;
  html_links := λ body,
    if String.eqb body "index"
    then ["https://mirror.example/build_cache/" +:+ zlib_specfile]
    else [];
  stage_save_filename := λ link, "/stage/" +:+ os_path_basename link;
  spec_from_yaml := λ _, inr zlib;
  mime_type := λ _ _, ("text", "plain");
  needs_binary_relocation := λ _ _, false;
  needs_text_relocation := λ _ _, true;
  make_macho_binaries_relative := λ _ _ _ _, toy_fsop;
  make_elf_binaries_relative := λ _ _ _ _, toy_fsop;
  make_link_relative := λ _ _, toy_fsop;
  check_files_relocatable := λ _ _, toy_fsop;
  make_link_placeholder := λ _ _ _, toy_fsop;
  relocate_text := λ _ old _ _ _ m,
    if String.eqb old "/broken"
    then (Some (ProcessError "cannot rewrite"), m)
    else (None, m);
  relocate_macho_binaries := λ _ _ _ _, toy_fsop;
  relocate_elf_binaries := λ _ _ _ _, toy_fsop;
  relocate_links := λ _ _ _, toy_fsop
|}.

Definition mirror_a : Mirror := mkMirror "a" "https://a.example".
Definition mirror_b : Mirror := mkMirror "b" "https://b.example".

(** A host with the archive [bundle] staged, nothing installed. *)
Definition staged_world (bundle : string) : world := {|
  fs := {[ os_path_join "/stage" zlib_spackfile := File bundle ]};
  remote := ∅;
  tty := [];
  calls := [];
  tmp_supply := ["/tmp/t1"; "/tmp/t2"; "/tmp/t3"];
  mirrors := [mirror_a];
  cached_specs := None
|}.


Definition staged_archive : string := os_path_join "/stage" zlib_spackfile.

(** A world whose mirrors answer [answers]. *)
Definition mirror_world (configured : list Mirror)
  (answers : list (string * response)) : world := {|
  fs := ∅;
  remote := list_to_map answers;
  tty := [];
  calls := [];
  tmp_supply := ["/tmp/t1"; "/tmp/t2"; "/tmp/t3"];
  mirrors := configured;
  cached_specs := None
|}.

(** A build host: zlib installed, with its spec file. *)
Definition build_world (answers : list (string * response)) : world := {|
  fs := {[ os_path_join (prefix zlib) "lib/libz.so" := File "ELF";
           os_path_join (os_path_join (prefix zlib) ".spack") "spec.yaml"
             := File "spec zlib" ]};
  remote := list_to_map answers;
  tty := [];
  calls := [];
  tmp_supply := ["/tmp/t1"; "/tmp/t2"; "/tmp/t3"];
  mirrors := [mirror_a];
  cached_specs := None
|}.

(** The scenario with other archives and documents, and another gpg
    installation: [tar] and [yaml] take precedence over what [base] reads. *)
Definition with_setup (base : Externals)
  (tar : string → option (list (string * node)))
  (yaml : string → option yaml)
  (gpg : bool) (keys : list string) : Externals := {|
  syaml_load := λ text,
    match yaml text with Some v => inr v | None => syaml_load base text end;
  syaml_dump := syaml_dump base;
  yaml_load := λ text,
    match yaml text with Some v => inr v | None => yaml_load base text end;
  json_dumps := json_dumps base;
  py_repr := py_repr base;
  hasher := hasher base;
  sha256_new := sha256_new base;
  sha256_update := sha256_update base;
  sha256_hexdigest := sha256_hexdigest base;
  tar_read := λ text,
    match tar text with Some ms => inr ms | None => tar_read base text end;
  tar_write := tar_write base;
  gpg_available := gpg;
  gpg_signing_keys := keys;
  gpg_signature := gpg_signature base;
  gpg_verifies := gpg_verifies base;
  layout_root := layout_root base;
  spack_prefix := spack_prefix base;
  metadata_dir := metadata_dir base;
  manifest_file_name := manifest_file_name base;
  os_path_relpath := os_path_relpath base;
  os_path_realpath := os_path_realpath base;
  url_format := url_format base;
  local_file_path := local_file_path base;
  html_links := html_links base;
  stage_save_filename := stage_save_filename base;
  spec_from_yaml := spec_from_yaml base;
  mime_type := mime_type base;
  needs_binary_relocation := needs_binary_relocation base;
  needs_text_relocation := needs_text_relocation base;
  make_macho_binaries_relative := make_macho_binaries_relative base;
  make_elf_binaries_relative := make_elf_binaries_relative base;
  make_link_relative := make_link_relative base;
  check_files_relocatable := check_files_relocatable base;
  make_link_placeholder := make_link_placeholder base;
  relocate_text := relocate_text base;
  relocate_macho_binaries := relocate_macho_binaries base;
  relocate_elf_binaries := relocate_elf_binaries base;
  relocate_links := relocate_links base
|}.

(** An archive whose metadata is the bare spec file, and build information
    of a package made relative. *)
Definition with_documents (base : Externals)
  (tar : string → option (list (string * node)))
  (yaml : string → option yaml) : Externals :=
  with_setup base tar yaml (gpg_available base) (gpg_signing_keys base).

(** A host without gpg. *)
Definition toy_no_gpg : Externals :=
  with_setup toy (λ _, None) (λ _, None) false [].

Definition toy_bare : Externals :=
  with_documents toy
    (λ text, if String.eqb text "bundle bare"
             then Some (toy_bundle "payload" "spec zlib" None) else None)
    (λ text, if String.eqb text "buildinfo relative"
             then Some (YMap [("relative_rpaths", YBool true);
                              ("buildpath", YStr "/old/opt")])
             else None).

(** The scenario with other mirror pages: the links of a page and the
    directory behind a [file://] mirror. *)
Definition with_pages (base : Externals) (links : string → list string)
  (local : string → option string) : Externals := {|
  syaml_load := syaml_load base;
  syaml_dump := syaml_dump base;
  yaml_load := yaml_load base;
  json_dumps := json_dumps base;
  py_repr := py_repr base;
  hasher := hasher base;
  sha256_new := sha256_new base;
  sha256_update := sha256_update base;
  sha256_hexdigest := sha256_hexdigest base;
  tar_read := tar_read base;
  tar_write := tar_write base;
  gpg_available := gpg_available base;
  gpg_signing_keys := gpg_signing_keys base;
  gpg_signature := gpg_signature base;
  gpg_verifies := gpg_verifies base;
  layout_root := layout_root base;
  spack_prefix := spack_prefix base;
  metadata_dir := metadata_dir base;
  manifest_file_name := manifest_file_name base;
  os_path_relpath := os_path_relpath base;
  os_path_realpath := os_path_realpath base;
  url_format := url_format base;
  local_file_path := local;
  html_links := links;
  stage_save_filename := stage_save_filename base;
  spec_from_yaml := spec_from_yaml base;
  mime_type := mime_type base;
  needs_binary_relocation := needs_binary_relocation base;
  needs_text_relocation := needs_text_relocation base;
  make_macho_binaries_relative := make_macho_binaries_relative base;
  make_elf_binaries_relative := make_elf_binaries_relative base;
  make_link_relative := make_link_relative base;
  check_files_relocatable := check_files_relocatable base;
  make_link_placeholder := make_link_placeholder base;
  relocate_text := relocate_text base;
  relocate_macho_binaries := relocate_macho_binaries base;
  relocate_elf_binaries := relocate_elf_binaries base;
  relocate_links := relocate_links base
|}.

(** Mirror [a] publishes one public key beside its index. *)
Definition toy_keys : Externals :=
  with_pages toy
    (λ body, if String.eqb body "keys page"
             then ["https://a.example/build_cache/signer.key";
                   "https://a.example/build_cache/index.html"]
             else [])
    (λ _, None).

Definition keys_world : world :=
  mirror_world [mirror_a]
    [("https://a.example/build_cache", Content "keys page");
     ("https://a.example/build_cache/signer.key", Content "PUBKEY")].

(** The scenario with another YAML library for the metadata files. *)
Definition with_yaml (base : Externals) (load : string → exn + yaml)
  (dump : yaml → string) : Externals := {|
  syaml_load := load;
  syaml_dump := dump;
  yaml_load := yaml_load base;
  json_dumps := json_dumps base;
  py_repr := py_repr base;
  hasher := hasher base;
  sha256_new := sha256_new base;
  sha256_update := sha256_update base;
  sha256_hexdigest := sha256_hexdigest base;
  tar_read := tar_read base;
  tar_write := tar_write base;
  gpg_available := gpg_available base;
  gpg_signing_keys := gpg_signing_keys base;
  gpg_signature := gpg_signature base;
  gpg_verifies := gpg_verifies base;
  layout_root := layout_root base;
  spack_prefix := spack_prefix base;
  metadata_dir := metadata_dir base;
  manifest_file_name := manifest_file_name base;
  os_path_relpath := os_path_relpath base;
  os_path_realpath := os_path_realpath base;
  url_format := url_format base;
  local_file_path := local_file_path base;
  html_links := html_links base;
  stage_save_filename := stage_save_filename base;
  spec_from_yaml := spec_from_yaml base;
  mime_type := mime_type base;
  needs_binary_relocation := needs_binary_relocation base;
  needs_text_relocation := needs_text_relocation base;
  make_macho_binaries_relative := make_macho_binaries_relative base;
  make_elf_binaries_relative := make_elf_binaries_relative base;
  make_link_relative := make_link_relative base;
  check_files_relocatable := check_files_relocatable base;
  make_link_placeholder := make_link_placeholder base;
  relocate_text := relocate_text base;
  relocate_macho_binaries := relocate_macho_binaries base;
  relocate_elf_binaries := relocate_elf_binaries base;
  relocate_links := relocate_links base
|}.

Fixpoint drop_prefix (p s : string) : option string :=
  match p, s with
  | EmptyString, _ => Some s
  | String a p', String b s' =>
      if Ascii.eqb a b then drop_prefix p' s' else None
  | String _ _, EmptyString => None
  end.

(** Metadata files that keep the full hash they were written with. *)
Definition toy_hashed : Externals :=
  with_yaml toy
    (λ text, match drop_prefix "full_hash: " text with
             | Some h => inr (YMap [("full_hash", YStr h)])
             | None => toy_yaml_load text
             end)
    (λ v, match v with
          | YMap m => match assoc "full_hash" m with
                      | Some (YStr h) => "full_hash: " +:+ h
                      | _ => syaml_dump toy v
                      end
          | _ => syaml_dump toy v
          end).

(** A host on which the build information reads back as that of a package
    made relative. *)
Definition toy_relative : Externals :=
  with_documents toy (λ _, None)
    (λ text, if String.eqb text "buildinfo"
             then Some (YMap [("relative_rpaths", YBool true);
                              ("buildpath", YStr "/opt/spack")])
             else None).




(** A metadata file that holds the YAML document [null]. *)
Definition toy_null : Externals :=
  with_documents toy (λ _, None)
    (λ text, if String.eqb text "null" then Some YNull else None).


(** * Properties *)

(** ** Stepping through monadic code *)

(** Unfolds the statement forms and the primitives of the world. *)
Ltac unfold_py :=
  unfold bind, ret, raise, try_except, try_except_else, try_finally,
    lift_outcome, os_path_exists, shutil_rmtree, os_remove, read_file,
    write_file, tty_die, tty_error, tty_warn, tty_msg, tty_debug,
    py_getitem, py_get, py_in in *;
  unfold bind, ret, raise in *.

Lemma bind_ok {A B : Type} (m : M A) (k : A → M B) (w w' : world) (a : A) :
  m w = (Ok a, w') → bind m k w = k a w'.
Proof. intros H. unfold bind. by rewrite H. Qed.

Lemma bind_raise {A B : Type} (m : M A) (k : A → M B) (w w' : world) (e : exn) :
  m w = (Raise e, w') → bind m k w = (Raise e, w').
Proof. intros H. unfold bind. by rewrite H. Qed.

Lemma bind_ok_inv {A B : Type} (m : M A) (k : A → M B) (w w' : world) (b : B) :
  bind m k w = (Ok b, w') → ∃ a w1, m w = (Ok a, w1) ∧ k a w1 = (Ok b, w').
Proof.
  unfold bind. destruct (m w) as [[a | e] w1]; [eauto | discriminate].
Qed.

(** A run is its outcome and the world it ends in. *)
Lemma run_split {A : Type} (m : M A) (w : world) (r : outcome A) :
  (m w).1 = r → m w = (r, (m w).2).
Proof. intros <-. by destruct (m w). Qed.

Lemma py_ne_str_false (v : yaml) (s : string) :
  py_ne_str v s = false ↔ v = YStr s.
Proof.
  destruct v; simpl; try (split; [discriminate | discriminate]).
  rewrite negb_false_iff, String.eqb_eq. split; congruence.
Qed.

Lemma py_ne_str_true (v : yaml) (s : string) :
  py_ne_str v s = true ↔ v ≠ YStr s.
Proof.
  rewrite <- py_ne_str_false. destruct (py_ne_str v s); split; congruence.
Qed.

(** ** Frame conditions, compositionally *)

Section Frames.
Context (R : world → world → Prop) `{!PreOrder R}.

Lemma keeps_ret {A} (a : A) : keeps R (ret a).
Proof. intros w. simpl. reflexivity. Qed.

Lemma keeps_raise {A} (e : exn) : keeps R (raise (A := A) e).
Proof. intros w. simpl. reflexivity. Qed.

Lemma keeps_bind {A B} (m : M A) (k : A → M B) :
  keeps R m → (∀ a, keeps R (k a)) → keeps R (bind m k).
Proof.
  intros Hm Hk w. unfold bind. specialize (Hm w).
  destruct (m w) as [[a | e] w1]; simpl in *; [| done].
  etransitivity; [exact Hm | apply Hk].
Qed.

Lemma keeps_try_except {A} (c : exn → bool) (m : M A) (h : exn → M A) :
  keeps R m → (∀ e, keeps R (h e)) → keeps R (try_except c m h).
Proof.
  intros Hm Hh w. unfold try_except. specialize (Hm w).
  destruct (m w) as [[a | e] w1]; simpl in *; [done |].
  destruct (c e); [| done]. etransitivity; [exact Hm | apply Hh].
Qed.

Lemma keeps_try_except_else {A B} (c : exn → bool) (m : M A)
  (h : exn → M B) (k : A → M B) :
  keeps R m → (∀ e, keeps R (h e)) → (∀ a, keeps R (k a)) →
  keeps R (try_except_else c m h k).
Proof.
  intros Hm Hh Hk w. unfold try_except_else. specialize (Hm w).
  destruct (m w) as [[a | e] w1]; simpl in *.
  - etransitivity; [exact Hm | apply Hk].
  - destruct (c e); [| done]. etransitivity; [exact Hm | apply Hh].
Qed.

Lemma keeps_try_finally {A} (m : M A) (f : M unit) :
  keeps R m → keeps R f → keeps R (try_finally m f).
Proof.
  intros Hm Hf w. unfold try_finally. specialize (Hm w).
  destruct (m w) as [r w1]. specialize (Hf w1).
  destruct (f w1) as [[[] | e] w2]; simpl in *; by etransitivity.
Qed.

Lemma keeps_lift_outcome {A} (r : exn + A) : keeps R (lift_outcome r).
Proof. destruct r; [apply keeps_raise | apply keeps_ret]. Qed.

Lemma keeps_for_each {A} (l : list A) (body : A → M unit) :
  (∀ x, keeps R (body x)) → keeps R (for_each l body).
Proof.
  intros Hb. induction l as [| x l IH]; simpl; [apply keeps_ret |].
  apply keeps_bind; [apply Hb | done].
Qed.

Lemma keeps_for_fold {A S} (l : list A) (body : A → S → M S) :
  (∀ x s, keeps R (body x s)) → ∀ s, keeps R (for_fold l s body).
Proof.
  intros Hb. induction l as [| x l IH]; intros s; simpl; [apply keeps_ret |].
  apply keeps_bind; [apply Hb | done].
Qed.

Lemma keeps_keeps_ok {A} (m : M A) : keeps R m → keeps_ok R m.
Proof. intros H w a w' E. specialize (H w). by rewrite E in H. Qed.

Lemma keeps_ok_bind {A B} (m : M A) (k : A → M B) :
  keeps_ok R m → (∀ a, keeps_ok R (k a)) → keeps_ok R (bind m k).
Proof.
  intros Hm Hk w b w' E. unfold bind in E.
  destruct (m w) as [[a | e] w1] eqn:E1; [| discriminate].
  etransitivity; [by eapply Hm | by eapply Hk].
Qed.

Lemma keeps_ok_raise {A} (e : exn) : keeps_ok R (raise (A := A) e).
Proof. intros w a w' E. discriminate. Qed.

Lemma keeps_ok_bind_raise {A B} (m : M A) (e : exn) :
  keeps_ok R (bind m (λ _, raise (A := B) e)).
Proof.
  intros w b w' E. unfold bind, raise in E.
  destruct (m w) as [[a | e'] w1]; discriminate.
Qed.

Lemma keeps_ok_try_except {A} (c : exn → bool) (m : M A) (h : exn → M A) :
  keeps_ok R m → (∀ e w a w', h e w ≠ (Ok a, w')) →
  keeps_ok R (try_except c m h).
Proof.
  intros Hm Hh w a w' E. unfold try_except in E.
  destruct (m w) as [[a1 | e] w1] eqn:E1.
  - injection E as <- <-. by eapply Hm.
  - destruct (c e); [| discriminate]. by apply Hh in E.
Qed.

Lemma keeps_weaken {A} (R' : world → world → Prop) (m : M A) :
  (∀ w w', R' w w' → R w w') → keeps R' m → keeps R m.
Proof. intros HR Hm w. apply HR, Hm. Qed.

End Frames.

#[local] Instance same_fs_preorder : PreOrder same_fs.
Proof. split; [done |]. intros x y z; unfold same_fs; congruence. Qed.

#[local] Instance same_remote_preorder : PreOrder same_remote.
Proof. split; [done |]. intros x y z; unfold same_remote; congruence. Qed.

#[local] Instance local_step_preorder : PreOrder local_step.
Proof.
  split; [done |]. intros x y z (? & ? & ? & ?) (? & ? & ? & ?).
  unfold local_step. repeat split; congruence.
Qed.

#[local] Instance tty_step_preorder : PreOrder tty_step.
Proof.
  split; [done |]. intros x y z [? ?] [? ?].
  split; [by etransitivity | congruence].
Qed.

#[local] Instance cache_stays_set_preorder : PreOrder cache_stays_set.
Proof.
  split; [by intros x Hx |]. intros x y z; unfold cache_stays_set; auto.
Qed.

#[local] Instance extends_calls_preorder (P : ext_event → Prop) :
  PreOrder (extends_calls P).
Proof.
  split.
  - intros w. exists []. by rewrite app_nil_r.
  - intros x y z (e1 & H1 & F1) (e2 & H2 & F2). exists (e1 ++ e2).
    split; [by rewrite H2, H1, app_assoc | by apply Forall_app].
Qed.

Lemma tty_step_local w w' : tty_step w w' → local_step w w'.
Proof. by intros [? ?]. Qed.

Lemma tty_step_same_fs w w' : tty_step w w' → same_fs w w'.
Proof. by intros [? ?]. Qed.

Lemma local_step_same_remote w w' : local_step w w' → same_remote w w'.
Proof. by intros (? & _). Qed.

Lemma local_step_extends_calls P w w' : local_step w w' → extends_calls P w w'.
Proof. intros (_ & H & _). exists []. by rewrite app_nil_r. Qed.

Lemma local_step_cache w w' : local_step w w' → cache_stays_set w w'.
Proof. intros (_ & _ & _ & H). unfold cache_stays_set. by rewrite H. Qed.

(** *** The primitives *)

Ltac prim :=
  let w := fresh "w" in
  intros w; unfold tty_step, local_step;
  repeat case_match; simpl; repeat split; done.

Lemma tty_debug_frame s : keeps tty_step (tty_debug s).
Proof. unfold tty_debug. prim. Qed.

Lemma tty_msg_frame s : keeps tty_step (tty_msg s).
Proof. unfold tty_msg. prim. Qed.

Lemma tty_warn_frame s : keeps tty_step (tty_warn s).
Proof. unfold tty_warn. prim. Qed.

Lemma tty_error_frame s : keeps tty_step (tty_error s).
Proof. unfold tty_error. prim. Qed.

Lemma tty_die_frame {A} s : keeps tty_step (tty_die (A := A) s).
Proof. unfold tty_die, tty_error, bind, raise. prim. Qed.

Lemma read_file_frame p : keeps tty_step (read_file p).
Proof. unfold read_file. prim. Qed.

Lemma os_path_exists_frame p : keeps tty_step (os_path_exists p).
Proof. unfold os_path_exists. prim. Qed.

Lemma os_listdir_frame p : keeps tty_step (os_listdir p).
Proof. unfold os_listdir. prim. Qed.

Lemma url_exists_frame u : keeps tty_step (url_exists u).
Proof. unfold url_exists. prim. Qed.

Lemma py_getitem_frame v k : keeps tty_step (py_getitem v k).
Proof. unfold py_getitem, ret, raise. prim. Qed.

Lemma py_get_frame v k d : keeps tty_step (py_get v k d).
Proof. unfold py_get, ret, raise. prim. Qed.

Lemma py_in_frame k v : keeps tty_step (py_in k v).
Proof. unfold py_in, ret, raise. prim. Qed.

Lemma py_setitem_frame v k x : keeps tty_step (py_setitem v k x).
Proof. unfold py_setitem, ret, raise. prim. Qed.

Lemma py_iter_names_frame v : keeps tty_step (py_iter_names v).
Proof. unfold py_iter_names, ret, raise. prim. Qed.

Lemma has_gnupg2_frame X : keeps tty_step (has_gnupg2 X).
Proof. unfold has_gnupg2, ret. prim. Qed.

Lemma Gpg_signing_keys_frame X : keeps tty_step (Gpg_signing_keys X).
Proof. unfold Gpg_signing_keys, ret. prim. Qed.

Lemma shutil_rmtree_frame p : keeps local_step (shutil_rmtree p).
Proof. unfold shutil_rmtree. prim. Qed.

Lemma os_remove_frame p : keeps local_step (os_remove p).
Proof. unfold os_remove. prim. Qed.

Lemma write_file_frame p c : keeps local_step (write_file p c).
Proof. unfold write_file. prim. Qed.

Lemma mkdirp_frame p : keeps local_step (mkdirp p).
Proof. unfold mkdirp. prim. Qed.

Lemma mkdtemp_frame : keeps local_step mkdtemp.
Proof. unfold mkdtemp. prim. Qed.

Lemma install_tree_frame a b : keeps local_step (install_tree a b).
Proof. unfold install_tree. prim. Qed.

Lemma run_fsop_frame op : keeps local_step (run_fsop op).
Proof. unfold run_fsop. prim. Qed.

Lemma tty_step_same_remote w w' : tty_step w w' → same_remote w w'.
Proof. intros H. by apply local_step_same_remote, tty_step_local. Qed.

Lemma tty_step_extends_calls P w w' : tty_step w w' → extends_calls P w w'.
Proof. intros H. by apply local_step_extends_calls, tty_step_local. Qed.

Lemma tty_step_cache w w' : tty_step w w' → cache_stays_set w w'.
Proof. intros H. by apply local_step_cache, tty_step_local. Qed.

Create HintDb frames.
#[local] Hint Resolve tty_debug_frame tty_msg_frame tty_warn_frame
  tty_error_frame tty_die_frame read_file_frame os_path_exists_frame
  os_listdir_frame url_exists_frame py_getitem_frame py_get_frame py_in_frame
  py_setitem_frame py_iter_names_frame has_gnupg2_frame
  Gpg_signing_keys_frame shutil_rmtree_frame os_remove_frame write_file_frame
  mkdirp_frame mkdtemp_frame install_tree_frame run_fsop_frame : frames.
#[local] Hint Resolve tty_step_local tty_step_same_fs local_step_same_remote
  local_step_extends_calls local_step_cache tty_step_same_remote
  tty_step_extends_calls tty_step_cache : frames.

(** A primitive keeps [R] directly, or through a stronger condition. *)
Ltac frame_prim :=
  first
    [ solve [eauto with frames]
    | eapply keeps_weaken;
      [ | solve [eauto with frames] ]; solve [eauto with frames] ].

Ltac frame :=
  repeat (intros;
    first
      [ match goal with |- PreOrder _ => apply _ end
      | frame_prim
      | apply keeps_ret | apply keeps_raise | apply keeps_lift_outcome
      | apply keeps_bind | apply keeps_try_except
      | apply keeps_try_except_else | apply keeps_try_finally
      | apply keeps_for_each | apply keeps_for_fold
      | match goal with
        | |- keeps _ (if ?b then _ else _) => destruct b
        | |- keeps _ (match ?x with _ => _ end) => destruct x
        end ]).

Ltac frame_ok :=
  repeat (intros;
    first
      [ match goal with |- PreOrder _ => apply _ end
      | apply keeps_ok_bind_raise
      | apply keeps_ok_raise
      | apply keeps_keeps_ok; solve [frame]
      | apply keeps_ok_bind
      | match goal with
        | |- keeps_ok _ (if ?b then _ else _) => destruct b
        | |- keeps_ok _ (match ?x with _ => _ end) => destruct x
        end ]).

(** ** The local file system *)

Lemma string_length_app (a b : string) :
  String.length (a +:+ b) = String.length a + String.length b.
Proof. induction a as [| c a IH]; simpl; [done | by rewrite IH]. Qed.

Lemma string_app_cons (x : ascii) (a b : string) :
  String x a +:+ b = String x (a +:+ b).
Proof. reflexivity. Qed.

Lemma string_app_assoc (a b c : string) : (a +:+ b) +:+ c = a +:+ b +:+ c.
Proof.
  induction a as [| x a IH]; [done |].
  by rewrite !string_app_cons, IH.
Qed.

Lemma string_prefix_app (a b : string) : String.prefix a (a +:+ b) = true.
Proof.
  induction a as [| c a IH].
  - destruct b; reflexivity.
  - rewrite string_app_cons. simpl.
    destruct (ascii_dec c c); [done | congruence].
Qed.

Lemma string_app_ne (a b : string) : b ≠ "" → a +:+ b ≠ a.
Proof.
  intros Hb E. apply (f_equal String.length) in E.
  rewrite string_length_app in E. destruct b; [done | simpl in E; lia].
Qed.

Lemma at_or_under_refl (p : string) : at_or_under p p = true.
Proof. unfold at_or_under. by rewrite String.eqb_refl. Qed.

Lemma at_or_under_join (dir n : string) :
  at_or_under dir (os_path_join dir n) = true.
Proof.
  unfold at_or_under, os_path_join.
  rewrite <- string_app_assoc, string_prefix_app. apply orb_true_r.
Qed.

Lemma os_path_join_ne (dir n : string) : os_path_join dir n ≠ dir.
Proof. unfold os_path_join. by apply string_app_ne. Qed.

Lemma fs_exists_true (p : string) (m : gmap string node) :
  fs_exists p m = true ↔ ∃ q x, m !! q = Some x ∧ at_or_under p q = true.
Proof.
  unfold fs_exists. rewrite existsb_exists. split.
  - intros [[q x] [Hin Hq]]. exists q, x. split; [| done].
    apply elem_of_map_to_list. by apply list_elem_of_In.
  - intros (q & x & Hq & Hu). exists (q, x). split; [| done].
    apply list_elem_of_In. by apply elem_of_map_to_list.
Qed.

Lemma fs_exists_false (p : string) (m : gmap string node) :
  fs_exists p m = false ↔ ∀ q, at_or_under p q = true → m !! q = None.
Proof.
  split.
  - intros H q Hq. destruct (m !! q) as [x |] eqn:E; [| done].
    assert (fs_exists p m = true) by (apply fs_exists_true; eauto).
    congruence.
  - intros H. destruct (fs_exists p m) eqn:E; [| done].
    apply fs_exists_true in E as (q & x & Hq & Hu).
    rewrite (H q Hu) in Hq. discriminate.
Qed.

Lemma fs_rmtree_lookup (p q : string) (m : gmap string node) :
  fs_rmtree p m !! q = if at_or_under p q then None else m !! q.
Proof.
  unfold fs_rmtree. destruct (at_or_under p q) eqn:E.
  - apply map_lookup_filter_None. right. intros x _. simpl. congruence.
  - destruct (m !! q) as [x |] eqn:Hq.
    + apply map_lookup_filter_Some. by split.
    + apply map_lookup_filter_None. by left.
Qed.

Lemma fs_exists_rmtree (p : string) (m : gmap string node) :
  fs_exists p (fs_rmtree p m) = false.
Proof.
  apply fs_exists_false. intros q Hq. by rewrite fs_rmtree_lookup, Hq.
Qed.

Lemma fs_exists_rmtree_other (p t : string) (m : gmap string node) :
  fs_exists p m = false → fs_exists p (fs_rmtree t m) = false.
Proof.
  rewrite !fs_exists_false. intros H q Hq. rewrite fs_rmtree_lookup.
  destruct (at_or_under t q); [done | by apply H].
Qed.

Lemma fs_rmtree_absent (p : string) (m : gmap string node) :
  fs_exists p m = false → fs_rmtree p m = m.
Proof.
  intros H. apply map_eq. intros q. rewrite fs_rmtree_lookup.
  destruct (at_or_under p q) eqn:E; [| done].
  symmetry. by apply (proj1 (fs_exists_false p m)).
Qed.

Lemma tar_member_path_inside (dir n : string) :
  member_inside n = true → tar_member_path dir n = os_path_join dir n.
Proof. unfold tar_member_path. by intros ->. Qed.

(** Unpacking only adds and replaces entries. *)
Lemma fs_unpack_keeps (dir : string) (ms : list (string * node))
  (m : gmap string node) (q : string) :
  is_Some (m !! q) → is_Some (fs_unpack dir ms m !! q).
Proof.
  revert m. induction ms as [| [n x] ms IH]; intros m Hq; simpl; [done |].
  apply IH. apply lookup_insert_is_Some.
  destruct (decide (tar_member_path dir n = q)); auto.
Qed.

(** Members that stay inside leave the rest of the tree alone. *)
Lemma fs_unpack_lookup_outside (dir : string) (ms : list (string * node))
  (m : gmap string node) (q : string) :
  members_inside ms →
  at_or_under dir q = false → fs_unpack dir ms m !! q = m !! q.
Proof.
  intros Hin Hq. revert m.
  induction Hin as [| [n x] ms Hn Hin IH]; intros m; simpl; [done |].
  rewrite IH. apply lookup_insert_ne.
  apply andb_true_iff in Hn as [Hn _]. simpl in Hn.
  rewrite (tar_member_path_inside _ _ Hn). intros <-.
  by rewrite at_or_under_join in Hq.
Qed.

Lemma staged_exists tmpdir m0 m : staged tmpdir m0 m → fs_exists tmpdir m = true.
Proof.
  intros [_ [ms ->]].
  destruct (fs_unpack_keeps tmpdir ms (<[tmpdir := Dir]> m0) tmpdir) as [x Hx].
  { rewrite lookup_insert_eq. by eexists. }
  apply fs_exists_true. exists tmpdir, x. split; [done |].
  apply at_or_under_refl.
Qed.

Lemma staged_inside_staged tmpdir m0 m :
  staged_inside tmpdir m0 m → staged tmpdir m0 m.
Proof. intros [Hf (ms & _ & ->)]. split; [done | by exists ms]. Qed.

Lemma staged_rmtree tmpdir m0 m :
  staged_inside tmpdir m0 m → fs_rmtree tmpdir m = m0.
Proof.
  intros [Hfresh (ms & Hin & ->)]. apply map_eq. intros q.
  rewrite fs_rmtree_lookup.
  destruct (at_or_under tmpdir q) eqn:E.
  - symmetry. by apply (proj1 (fs_exists_false tmpdir m0)).
  - rewrite fs_unpack_lookup_outside by done.
    apply lookup_insert_ne. intros ->. by rewrite at_or_under_refl in E.
Qed.

Lemma pick_fresh_absent (m : gmap string node) (supply rest : list string)
  (p : string) :
  pick_fresh m supply = Some (p, rest) → fs_exists p m = false.
Proof.
  induction supply as [| c supply IH]; simpl; [done |].
  destruct (fs_exists c m) eqn:E; [done |]. intros [= <- <-]. done.
Qed.

(** ** needs_rebuild *)



Section RebuildFacts.
Context (X : Externals).

#[local] Arguments String.append : simpl never.
#[local] Arguments tarball_name : simpl never.
#[local] Arguments os_path_join : simpl never.

Ltac run_rebuild Hc :=
  unfold needs_rebuild, spec_yaml_url in *; rewrite Hc; simpl negb; cbv iota;
  unfold bind, try_except, tty_debug, tty_error, tty_warn, tty_msg,
    read_from_url, ret, raise; simpl.

Lemma needs_rebuild_unreachable spec url roe w :
  concrete spec = true →
  (remote w !! spec_yaml_url spec url = None ∨
   ∃ reason, remote w !! spec_yaml_url spec url = Some (Fault (URLError reason))) →
  (needs_rebuild X spec url roe w).1 = Ok roe.
Proof.
  intros Hc [H | [reason H]]; run_rebuild Hc; rewrite H; reflexivity.
Qed.

Lemma needs_rebuild_empty spec url roe w :
  concrete spec = true →
  remote w !! spec_yaml_url spec url = Some (Content "") →
  (needs_rebuild X spec url roe w).1 = Ok roe.
Proof. intros Hc H; run_rebuild Hc; rewrite H; reflexivity. Qed.

Lemma needs_rebuild_missing_field spec url roe w body m :
  concrete spec = true →
  remote w !! spec_yaml_url spec url = Some (Content body) →
  body ≠ "" →
  syaml_load X body = inr (YMap m) →
  assoc "full_hash" m = None →
  (needs_rebuild X spec url roe w).1 = Ok true ∧
  rebuilding_msg spec "full_hash was missing from remote spec.yaml"
    ∈ tty (needs_rebuild X spec url roe w).2.
Proof.
  intros Hc H Hne Hy Hm. apply String.eqb_neq in Hne.
  run_rebuild Hc. rewrite H; simpl. rewrite Hne, Hy; simpl.
  rewrite Hm; simpl. split; [reflexivity |].
  unfold rebuilding_msg. set_solver.
Qed.

Lemma needs_rebuild_mismatch spec url roe w body m v :
  concrete spec = true →
  remote w !! spec_yaml_url spec url = Some (Content body) →
  body ≠ "" →
  syaml_load X body = inr (YMap m) →
  assoc "full_hash" m = Some v →
  v ≠ YStr (full_hash spec) →
  (needs_rebuild X spec url roe w).1 = Ok true ∧
  rebuilding_msg spec ("hash mismatch, remote = " +:+ py_str X v +:+
                       ", local = " +:+ full_hash spec)
    ∈ tty (needs_rebuild X spec url roe w).2.
Proof.
  intros Hc H Hne Hy Hm Hv. apply String.eqb_neq in Hne.
  apply py_ne_str_true in Hv.
  run_rebuild Hc. rewrite H; simpl. rewrite Hne, Hy; simpl.
  rewrite Hm; simpl. rewrite Hv; simpl.
  split; [reflexivity |]. unfold rebuilding_msg. set_solver.
Qed.

Lemma needs_rebuild_match spec url roe w body m :
  concrete spec = true →
  remote w !! spec_yaml_url spec url = Some (Content body) →
  body ≠ "" →
  syaml_load X body = inr (YMap m) →
  assoc "full_hash" m = Some (YStr (full_hash spec)) →
  (needs_rebuild X spec url roe w).1 = Ok false.
Proof.
  intros Hc H Hne Hy Hm. apply String.eqb_neq in Hne.
  run_rebuild Hc. rewrite H; simpl. rewrite Hne, Hy; simpl.
  rewrite Hm; simpl. by rewrite String.eqb_refl.
Qed.

(** C1. For a concrete spec, [needs_rebuild] answers [rebuild_on_errors]
    when reading the remote metadata file raises [URLError] or yields an
    empty body.  When the body parses to a mapping, the answer is [True] if
    ['full_hash'] is absent (reason "full_hash was missing ...") or differs
    from [spec.full_hash()] (reason "hash mismatch ..."), and it is [False]
    exactly when the recorded full hash equals the local one. *)
Theorem needs_rebuild_decision (spec : Spec) (url : string) (roe : bool)
  (w : world) :
  concrete spec = true →
  let run := needs_rebuild X spec url roe w in
  let answer := remote w !! spec_yaml_url spec url in
  ((answer = None ∨ ∃ reason, answer = Some (Fault (URLError reason))) →
   run.1 = Ok roe) ∧
  (answer = Some (Content "") → run.1 = Ok roe) ∧
  (∀ body m,
     answer = Some (Content body) → body ≠ "" →
     syaml_load X body = inr (YMap m) →
     (assoc "full_hash" m = None →
      run.1 = Ok true ∧
      rebuilding_msg spec "full_hash was missing from remote spec.yaml"
        ∈ tty run.2) ∧
     (∀ v, assoc "full_hash" m = Some v → v ≠ YStr (full_hash spec) →
      run.1 = Ok true ∧
      rebuilding_msg spec ("hash mismatch, remote = " +:+ py_str X v +:+
                           ", local = " +:+ full_hash spec)
        ∈ tty run.2) ∧
     (run.1 = Ok false ↔ assoc "full_hash" m = Some (YStr (full_hash spec)))).
Proof.
  intros Hc run answer. subst run answer. split; [| split].
  - by apply needs_rebuild_unreachable.
  - by apply needs_rebuild_empty.
  - intros body m H Hne Hy. split; [| split].
    + by eapply needs_rebuild_missing_field.
    + intros v Hm Hv. by eapply needs_rebuild_mismatch.
    + split.
      * intros Hr. destruct (assoc "full_hash" m) as [v |] eqn:Hm.
        -- destruct (py_ne_str v (full_hash spec)) eqn:Hv.
           ++ apply py_ne_str_true in Hv.
              destruct (needs_rebuild_mismatch spec url roe w body m v)
                as [E _]; try done.
              rewrite E in Hr. discriminate.
           ++ apply py_ne_str_false in Hv. by subst v.
        -- destruct (needs_rebuild_missing_field spec url roe w body m) as [E _];
             try done.
           rewrite E in Hr. discriminate.
      * intros Hm. by eapply needs_rebuild_match.
Qed.

End RebuildFacts.

(** ** extract_tarball *)




Section ExtractFacts.
Context (X : Externals).
#[local] Arguments String.append : simpl never.
#[local] Arguments tarball_name : simpl never.
#[local] Arguments os_path_join : simpl never.
#[local] Arguments os_path_dirname : simpl never.
#[local] Arguments fs_exists : simpl never.
#[local] Arguments fs_rmtree : simpl never.
#[local] Arguments sha256_of : simpl never.

Lemma extract_open_inv spec filename force w tmpdir w1 :
  extract_open X spec filename force w = (Ok tmpdir, w1) →
  staged tmpdir (fs_after_guard spec (fs w)) (fs w1) ∧
  remote w1 = remote w ∧ tty w1 = tty w ∧ calls w1 = calls w ∧
  (fs_exists (prefix spec) (fs w) = true → force = true).
Proof.
  unfold extract_open, fs_after_guard, mkdtemp, tar_extractall. unfold_py.
  intros H.
  destruct (fs_exists (prefix spec) (fs w)) eqn:Ee.
  - destruct force; [| discriminate]. rewrite Ee in H. simpl in H.
    destruct (pick_fresh _ _) as [[p rest] |] eqn:Ep; [| discriminate].
    simpl in H. repeat case_match; simplify_eq. simpl.
    split; [| repeat split; auto]. split; [by eapply pick_fresh_absent | eauto].
  - destruct (pick_fresh _ _) as [[p rest] |] eqn:Ep; [| discriminate].
    simpl in H. repeat case_match; simplify_eq. simpl.
    split; [| repeat split; auto; discriminate].
    split; [by eapply pick_fresh_absent | eauto].
Qed.




Lemma Gpg_verify_frame sig file : keeps same_fs (Gpg_verify X sig file).
Proof. intros w. unfold Gpg_verify, same_fs. by repeat case_match. Qed.

Lemma checksum_tarball_frame file : keeps tty_step (checksum_tarball X file).
Proof. unfold checksum_tarball. frame. Qed.

Lemma extract_verify_frame spec tmpdir unsigned :
  keeps_ok same_fs (extract_verify X spec tmpdir unsigned).
Proof.
  unfold extract_verify. destruct unsigned; simpl; [frame_ok |].
  apply keeps_ok_bind; try apply _; [frame_ok |]. intros [].
  - apply keeps_ok_try_except.
    + apply keeps_keeps_ok, Gpg_verify_frame.
    + intros e w a w'. unfold_py. by repeat case_match.
  - frame_ok.
Qed.

Lemma extract_verify_ok spec tmpdir unsigned w1 w2 :
  extract_verify X spec tmpdir unsigned w1 = (Ok tt, w2) → fs w2 = fs w1.
Proof. apply extract_verify_frame. Qed.


Lemma extract_checksum_ok spec tmpdir w payload meta entries bchecksum :
  fs w !! os_path_join tmpdir (tarball_name spec ".tar.gz") = Some (File payload) →
  fs w !! os_path_join tmpdir (tarball_name spec ".spec.yaml") = Some (File meta) →
  syaml_load X meta = inr (YMap entries) →
  assoc "binary_cache_checksum" entries = Some (YMap bchecksum) →
  assoc "hash" bchecksum = Some (YStr (sha256_of X payload)) →
  extract_checksum X spec tmpdir w = (Ok (YMap entries), w).
Proof.
  intros Hp Hm Hy Hb Hh.
  unfold extract_checksum, checksum_tarball. unfold_py.
  rewrite Hp, Hm, Hy. simpl. rewrite Hb, Hh. simpl.
  by rewrite String.eqb_refl.
Qed.




(** Layout *)


Lemma extract_layout_default spec tmpdir entries w :
  (assoc "buildinfo" entries = None ∨
   ∃ buildinfo, assoc "buildinfo" entries = Some (YMap buildinfo) ∧
                assoc "relative_prefix" buildinfo = None) →
  extract_layout X spec tmpdir (YMap entries) w = (Ok tt, w).
Proof.
  intros [Hb | (b & Hb & Hr)]; unfold extract_layout; unfold_py;
    rewrite Hb; simpl; rewrite ?Hr; simpl; by rewrite String.eqb_refl.
Qed.

Lemma extract_layout_raises spec tmpdir spec_dict w msg w' :
  extract_layout X spec tmpdir spec_dict w = (Raise (NewLayoutException msg), w') →
  ∃ entries buildinfo v,
    spec_dict = YMap entries ∧
    assoc "buildinfo" entries = Some (YMap buildinfo) ∧
    assoc "relative_prefix" buildinfo = Some v ∧
    v ≠ YStr (local_relative_prefix X spec).
Proof.
  unfold extract_layout, local_relative_prefix. unfold_py. intros H.
  destruct spec_dict as [| | | | | entries]; try discriminate.
  destruct (assoc "buildinfo" entries) as [bi |] eqn:Hb.
  - destruct bi as [| | | | | b]; try discriminate.
    destruct (assoc "relative_prefix" b) as [v |] eqn:Hr.
    + destruct (py_ne_str v _) eqn:Hne; [| discriminate].
      apply py_ne_str_true in Hne. by exists entries, b, v.
    + simpl in H. rewrite String.eqb_refl in H. discriminate.
  - simpl in H. rewrite String.eqb_refl in H. discriminate.
Qed.




(** Relocation rollback *)
Lemma extract_relocate_rollback spec tmpdir allow_root w e w' :
  relocate_package X (prefix spec) spec allow_root w = (Raise e, w') →
  is_Exception e = true →
  let run := extract_relocate X spec tmpdir allow_root w in
  fs_exists (prefix spec) (fs run.2) = false ∧
  (∃ e', run.1 = Raise e') ∧
  (fs_exists (prefix spec) (fs w') = true →
   fs_exists tmpdir (fs_rmtree (prefix spec) (fs w')) = true →
   run.1 = Raise (SystemExit 1) ∧ TtyError (str_exn e) ∈ tty run.2 ∧
   fs_exists tmpdir (fs run.2) = false).
Proof.
  intros Hr He. unfold extract_relocate. unfold_py. rewrite Hr, He.
  destruct (fs_exists (prefix spec) (fs w')) eqn:Hp; simpl.
  - destruct (fs_exists tmpdir (fs_rmtree (prefix spec) (fs w'))) eqn:Ht; simpl.
    + split; [| split; [eauto |]].
      * apply fs_exists_rmtree_other, fs_exists_rmtree.
      * intros _ _. split; [done |]. split; [set_solver |].
        apply fs_exists_rmtree.
    + split; [apply fs_exists_rmtree |]. split; [eauto | done].
  - destruct (fs_exists tmpdir (fs w')) eqn:Ht; simpl.
    + split; [by apply fs_exists_rmtree_other |]. split; [eauto | done].
    + split; [done |]. split; [eauto | done].
Qed.

(** C6.  When a run of [extract_tarball] reaches the relocation step and
    [relocate_package] raises an exception (a subclass of [Exception]), the
    run ends in an exception and the install prefix no longer exists; when
    the prefix and the temporary directory are still there at the failure,
    the run dies with [SystemExit] after printing the relocation error, and
    the temporary directory is removed too. *)
Theorem extract_tarball_relocation_rollback spec filename allow_root unsigned
  force w tmpdir w1 w2 spec_dict w3 w4 w5 e w6 :
  extract_open X spec filename force w = (Ok tmpdir, w1) →
  extract_verify X spec tmpdir unsigned w1 = (Ok tt, w2) →
  extract_checksum X spec tmpdir w2 = (Ok spec_dict, w3) →
  extract_layout X spec tmpdir spec_dict w3 = (Ok tt, w4) →
  extract_install X spec tmpdir w4 = (Ok tt, w5) →
  relocate_package X (prefix spec) spec allow_root w5 = (Raise e, w6) →
  is_Exception e = true →
  let run := extract_tarball X spec filename allow_root unsigned force w in
  fs_exists (prefix spec) (fs run.2) = false ∧
  (∃ e', run.1 = Raise e') ∧
  (fs_exists (prefix spec) (fs w6) = true →
   fs_exists tmpdir (fs_rmtree (prefix spec) (fs w6)) = true →
   run.1 = Raise (SystemExit 1) ∧ TtyError (str_exn e) ∈ tty run.2 ∧
   fs_exists tmpdir (fs run.2) = false).
Proof.
  intros Ho Hv Hc Hl Hi Hr He run. subst run. unfold extract_tarball.
  rewrite (bind_ok _ _ _ _ _ Ho), (bind_ok _ _ _ _ _ Hv),
    (bind_ok _ _ _ _ _ Hc), (bind_ok _ _ _ _ _ Hl), (bind_ok _ _ _ _ _ Hi).
  by apply (extract_relocate_rollback spec tmpdir allow_root w5 e w6).
Qed.

(** C10.  When the metadata has no ['buildinfo'] section, or the section
    has no ['relative_prefix'], the layout check passes without touching
    the world and [extract_tarball] goes on with the installation; the
    check raises [NewLayoutException] only when a recorded relative prefix
    is present and differs from the local one. *)
Theorem extract_tarball_layout_default spec filename allow_root unsigned
  force w tmpdir w1 w2 w3 entries :
  extract_open X spec filename force w = (Ok tmpdir, w1) →
  extract_verify X spec tmpdir unsigned w1 = (Ok tt, w2) →
  extract_checksum X spec tmpdir w2 = (Ok (YMap entries), w3) →
  ((assoc "buildinfo" entries = None ∨
    ∃ buildinfo, assoc "buildinfo" entries = Some (YMap buildinfo) ∧
                 assoc "relative_prefix" buildinfo = None) →
   extract_layout X spec tmpdir (YMap entries) w3 = (Ok tt, w3) ∧
   extract_tarball X spec filename allow_root unsigned force w =
     (extract_install X spec tmpdir ;;
      extract_relocate X spec tmpdir allow_root) w3) ∧
  (∀ msg w', extract_layout X spec tmpdir (YMap entries) w3 =
               (Raise (NewLayoutException msg), w') →
     ∃ buildinfo v,
       assoc "buildinfo" entries = Some (YMap buildinfo) ∧
       assoc "relative_prefix" buildinfo = Some v ∧
       v ≠ YStr (local_relative_prefix X spec)).
Proof.
  intros Ho Hv Hc. split.
  - intros Hd. pose proof (extract_layout_default spec tmpdir entries w3 Hd) as Hl.
    split; [done |]. unfold extract_tarball.
    by rewrite (bind_ok _ _ _ _ _ Ho), (bind_ok _ _ _ _ _ Hv),
      (bind_ok _ _ _ _ _ Hc), (bind_ok _ _ _ _ _ Hl).
  - intros msg w' Hl.
    destruct (extract_layout_raises _ _ _ _ _ _ Hl) as (en & b & v & [= <-] & H).
    by exists b, v.
Qed.
End ExtractFacts.

(** ** sign_tarball *)

Section SignFacts.
Context (X : Externals).
#[local] Arguments String.append : simpl never.
#[local] Arguments fs_exists : simpl never.





End SignFacts.

(** ** check_specs_against_mirrors *)

Lemma assoc_set_eq {A} k (v : A) l : assoc k (assoc_set k v l) = Some v.
Proof.
  induction l as [| [k' v'] l IH]; simpl.
  - by rewrite String.eqb_refl.
  - destruct (String.eqb k k') eqn:E; simpl; rewrite ?String.eqb_refl, ?E; done.
Qed.

Lemma assoc_set_ne {A} k k' (v : A) l :
  k ≠ k' → assoc k' (assoc_set k v l) = assoc k' l.
Proof.
  intros Hne. induction l as [| [k0 v0] l IH]; simpl.
  - apply String.eqb_neq in Hne. rewrite String.eqb_sym in Hne. by rewrite Hne.
  - destruct (String.eqb k k0) eqn:E; simpl.
    + apply String.eqb_eq in E as <-.
      assert (String.eqb k' k = false) as -> by (apply String.eqb_neq; congruence).
      done.
    + by rewrite IH.
Qed.

Lemma assoc_nil_iff {A} (l : list (string * A)) :
  l = [] ↔ ∀ k, assoc k l = None.
Proof.
  split; [by intros -> |]. destruct l as [| [k v] l]; [done |].
  intros H. specialize (H k). simpl in H. by rewrite String.eqb_refl in H.
Qed.

Section CheckFacts.
Context (X : Externals).
#[local] Arguments String.append : simpl never.
#[local] Arguments tarball_name : simpl never.
#[local] Arguments os_path_join : simpl never.











End CheckFacts.

(** ** get_specs *)

Section CacheFacts.
Context (X : Externals).

#[local] Arguments String.append : simpl never.
#[local] Arguments fs_exists : simpl never.

Lemma get_specs_cached force w s l :
  cached_specs w = Some (s :: l) →
  get_specs X force w =
    (Ok (SpecList (s :: l)),
     add_tty (TtyDebug "Using previously-retrieved specs") w).
Proof. intros H. unfold get_specs. unfold_py. by rewrite H. Qed.

Lemma stage_fetch_cache link : keeps cache_stays_set (stage_fetch X link).
Proof.
  intros w. unfold stage_fetch, cache_stays_set. by repeat case_match.
Qed.

Lemma get_specs_load_cache force link :
  keeps cache_stays_set (get_specs_load X force link).
Proof.
  pose proof stage_fetch_cache. unfold get_specs_load. frame.
  intros sp w _. simpl. eauto.
Qed.

Lemma get_specs_fills_cache force w l w' :
  get_specs X force w = (Ok (SpecList l), w') →
  l ≠ [] → cached_specs w' = Some l.
Proof.
  unfold get_specs. intros H Hl.
  apply bind_ok_inv in H as (cached & w0 & [= <- <-] & H).
  assert (Hrefresh :
    (configured <- (λ w, (Ok (mirrors w), w)) ;;
     match configured with
     | [] => tty_warn "No Spack mirrors are currently configured" ;;
             ret EmptyDict
     | _ :: _ =>
         urls <- get_specs_urls X configured ;;
         (λ w, (Ok tt, set_cached_specs (Some []) w)) ;;
         for_each (elements urls) (get_specs_load X force) ;;
         cached <- (λ w, (Ok (cached_specs w), w)) ;;
         ret (SpecList (default [] cached))
     end) w = (Ok (SpecList l), w') → cached_specs w' = Some l).
  { clear. intros H.
    apply bind_ok_inv in H as (configured & w0 & [= <- <-] & H).
    destruct (mirrors w) as [| m ms]; [by unfold_py |].
    apply bind_ok_inv in H as (urls & w1 & _ & H).
    apply bind_ok_inv in H as ([] & w2 & [= <-] & H).
    apply bind_ok_inv in H as ([] & w3 & Hloop & H).
    apply bind_ok_inv in H as (c & w4 & [= <- <-] & [= <- <-]).
    pose proof (keeps_for_each cache_stays_set (elements urls)
                  (get_specs_load X force) (get_specs_load_cache force)
                  (set_cached_specs (Some []) w1)) as Hk.
    rewrite Hloop in Hk. destruct Hk as [c Hc]; [simpl; eauto |].
    simpl in Hc. by rewrite Hc. }
  destruct (cached_specs w) as [[| s0 l0] |] eqn:Hc; [by apply Hrefresh | | by apply Hrefresh].
  unfold_py. by simplify_eq.
Qed.

(** C9, as the code has it.  Once a call of [get_specs] has returned a
    non-empty list, every later call, whatever its [force] argument, returns
    that list: it changes nothing but the terminal, so it queries no mirror,
    fetches nothing and leaves the cache as it is. *)
Theorem get_specs_cache_sticks (force1 force2 : bool) (w w1 : world)
  (l : list Spec) :
  get_specs X force1 w = (Ok (SpecList l), w1) →
  l ≠ [] →
  get_specs X force2 w1 =
    (Ok (SpecList l), add_tty (TtyDebug "Using previously-retrieved specs") w1).
Proof.
  intros H Hl. pose proof (get_specs_fills_cache _ _ _ _ H Hl) as Hc.
  destruct l as [| s l]; [done |]. by apply get_specs_cached.
Qed.

End CacheFacts.

(** ** build_tarball *)

Section BuildFacts.
Context (X : Externals).

#[local] Arguments String.append : simpl never.
#[local] Arguments tarball_name : simpl never.
#[local] Arguments tarball_directory_name : simpl never.
#[local] Arguments os_path_join : simpl never.
#[local] Arguments fs_exists : simpl never.
#[local] Arguments remote_spackfile_path : simpl never.
#[local] Arguments remote_specfile_path : simpl never.

Lemma build_guard_conflict spec outdir w tmpdir rest :
  concrete spec = true →
  pick_fresh (fs w) (tmp_supply w) = Some (tmpdir, rest) →
  url_present (remote w) (remote_spackfile_path X spec outdir tmpdir) = true ∨
  url_present (remote w) (remote_specfile_path X spec outdir tmpdir) = true →
  ∃ u w',
    build_guard X spec outdir false w =
      (Raise (NoOverwriteException (url_format X u)), w') ∧
    (u = remote_spackfile_path X spec outdir tmpdir ∨
     u = remote_specfile_path X spec outdir tmpdir) ∧
    url_present (remote w) u = true ∧
    remote w' = remote w ∧ calls w' = calls w.
Proof.
  intros Hc Hp Hex. unfold build_guard, mkdtemp, mkdirp, url_exists.
  unfold_py. rewrite Hc. simpl. rewrite Hp. simpl. unfold url_present in *.
  destruct (fs_exists _ _); simpl.
  - destruct (remote w !! remote_spackfile_path X spec outdir tmpdir)
      as [[b1 | e1] |] eqn:E1; simpl.
    + eexists _, _. split; [done |]. rewrite E1. eauto.
    + destruct Hex as [Hex | Hex]; [done |].
      destruct (remote w !! remote_specfile_path X spec outdir tmpdir)
        as [[b2 | e2] |] eqn:E2; try done; simpl.
      eexists _, _. split; [done |]. rewrite E2. eauto.
    + destruct Hex as [Hex | Hex]; [done |].
      destruct (remote w !! remote_specfile_path X spec outdir tmpdir)
        as [[b2 | e2] |] eqn:E2; try done; simpl.
      eexists _, _. split; [done |]. rewrite E2. eauto.
  - destruct (remote w !! remote_spackfile_path X spec outdir tmpdir)
      as [[b1 | e1] |] eqn:E1; simpl.
    + eexists _, _. split; [done |]. rewrite E1. eauto.
    + destruct Hex as [Hex | Hex]; [done |].
      destruct (remote w !! remote_specfile_path X spec outdir tmpdir)
        as [[b2 | e2] |] eqn:E2; try done; simpl.
      eexists _, _. split; [done |]. rewrite E2. eauto.
    + destruct Hex as [Hex | Hex]; [done |].
      destruct (remote w !! remote_specfile_path X spec outdir tmpdir)
        as [[b2 | e2] |] eqn:E2; try done; simpl.
      eexists _, _. split; [done |]. rewrite E2. eauto.
Qed.

Lemma build_guard_force spec outdir w tmpdir rest :
  concrete spec = true →
  pick_fresh (fs w) (tmp_supply w) = Some (tmpdir, rest) →
  ∃ w1,
    build_guard X spec outdir true w = (Ok tmpdir, w1) ∧
    calls w1 = calls w ++
      guard_removals (remote w)
        (remote_spackfile_path X spec outdir tmpdir)
        (remote_specfile_path X spec outdir tmpdir) ∧
    url_present (remote w1) (remote_spackfile_path X spec outdir tmpdir) = false ∧
    url_present (remote w1) (remote_specfile_path X spec outdir tmpdir) = false.
Proof.
  intros Hc Hp. unfold build_guard, mkdtemp, mkdirp, url_exists, remove_url.
  unfold_py. rewrite Hc. simpl. rewrite Hp. simpl.
  set (u1 := remote_spackfile_path X spec outdir tmpdir).
  set (u2 := remote_specfile_path X spec outdir tmpdir).
  unfold guard_removals, url_present.
  assert (Hdel : ∀ (r : gmap string response) u u',
            match r !! u with Some (Content _) => true | _ => false end = false →
            match delete u' r !! u with Some (Content _) => true | _ => false end
            = false).
  { intros r u u' H. destruct (decide (u' = u)) as [-> | Hne].
    - by rewrite lookup_delete_eq.
    - by rewrite lookup_delete_ne. }
  destruct (fs_exists _ _); simpl;
    destruct (remote w !! u1) as [[b1 | e1] |] eqn:E1; simpl;
    rewrite ?E1; simpl;
    match goal with
    | |- context [match ?r !! u2 with _ => _ end] =>
        destruct (r !! u2) as [[b2 | e2] |] eqn:E2
    end; simpl; eexists; (split; [reflexivity |]); simpl;
    rewrite ?app_nil_r, <- ?app_assoc; (split; [reflexivity |]);
    rewrite ?lookup_delete_eq, ?E1, ?E2; split; try done;
    try (apply Hdel; by rewrite ?lookup_delete_eq, ?E1).
Qed.

Lemma Gpg_sign_frame key file out :
  keeps (extends_calls is_GpgSign) (Gpg_sign X key file out).
Proof.
  intros w. unfold Gpg_sign.
  repeat case_match; simpl; (eexists [_]; split; [reflexivity |]);
    by repeat constructor.
Qed.

Lemma sign_tarball_frame key force specfile_path :
  keeps (extends_calls is_GpgSign) (sign_tarball X key force specfile_path).
Proof. pose proof Gpg_sign_frame. unfold sign_tarball. frame. Qed.

Lemma tar_add_tree_frame out dir arcname :
  keeps local_step (tar_add_tree X out dir arcname).
Proof. unfold tar_add_tree. prim. Qed.

Lemma read_buildinfo_file_frame prefix :
  keeps tty_step (read_buildinfo_file X prefix).
Proof. unfold read_buildinfo_file. frame. Qed.

Lemma write_buildinfo_file_frame prefix workdir rel :
  keeps local_step (write_buildinfo_file X prefix workdir rel).
Proof.
  unfold write_buildinfo_file. apply keeps_bind; [apply _ | by intros w |].
  intros files. apply keeps_bind; [apply _ | | intros [[? ?] ?]; frame].
  apply keeps_for_fold; [apply _ |]. intros [[path_name filename] x] [[t b] l].
  apply keeps_bind; [apply _ | by intros w |]. intros [m_type m_subtype].
  frame.
Qed.

Lemma make_package_relative_frame workdir spec allow_root :
  keeps local_step (make_package_relative X workdir spec allow_root).
Proof.
  pose proof read_buildinfo_file_frame. unfold make_package_relative. frame.
Qed.

Lemma make_package_placeholder_frame workdir spec allow_root :
  keeps local_step (make_package_placeholder X workdir spec allow_root).
Proof.
  pose proof read_buildinfo_file_frame. unfold make_package_placeholder. frame.
Qed.

Lemma build_package_frame spec outdir tmpdir force rel unsigned allow_root key :
  keeps (extends_calls is_GpgSign)
    (build_package X spec outdir tmpdir force rel unsigned allow_root key).
Proof.
  pose proof sign_tarball_frame. pose proof tar_add_tree_frame.
  pose proof write_buildinfo_file_frame.
  pose proof make_package_relative_frame.
  pose proof make_package_placeholder_frame.
  pose proof (checksum_tarball_frame X).
  unfold build_package. frame.
Qed.

Lemma push_to_url_frame local url :
  keeps (extends_calls not_RemoveUrl) (push_to_url local url).
Proof.
  intros w. unfold push_to_url, os_remove. unfold_py.
  repeat case_match; simplify_eq; simpl;
    first [ by (exists []; rewrite app_nil_r)
          | (eexists [_]; split; [reflexivity |]); by repeat constructor ].
Qed.

Lemma push_to_url_ok local url w w' :
  push_to_url local url w = (Ok tt, w') →
  ∃ body, fs w !! local = Some (File body) ∧
          calls w' = calls w ++ [PushUrl url body] ∧
          remote w' = <[url := Content body]> (remote w).
Proof.
  unfold push_to_url, os_remove. unfold_py. intros H.
  destruct (fs w !! local) as [[body | | lnk] |] eqn:E; simpl in H;
    try discriminate.
  exists body. rewrite E in H. by simplify_eq.
Qed.

Lemma list_url_frame url : keeps (extends_calls not_RemoveUrl) (list_url url).
Proof.
  intros w. unfold list_url. simpl. eexists [_].
  split; [reflexivity | by repeat constructor].
Qed.

Lemma generate_package_index_frame cache_prefix :
  keeps (extends_calls not_RemoveUrl) (generate_package_index cache_prefix).
Proof.
  pose proof push_to_url_frame. pose proof list_url_frame.
  unfold generate_package_index. frame.
Qed.

Lemma build_publish_frame spec outdir tmpdir regenerate_index :
  keeps (extends_calls not_RemoveUrl)
    (build_publish X spec outdir tmpdir regenerate_index).
Proof.
  pose proof push_to_url_frame. pose proof generate_package_index_frame.
  unfold build_publish. frame.
Qed.

Lemma build_publish_ok spec outdir tmpdir regenerate_index w w' :
  build_publish X spec outdir tmpdir regenerate_index w = (Ok tt, w') →
  ∃ b1 b2 index,
    calls w' = calls w ++
      [PushUrl (remote_spackfile_path X spec outdir tmpdir) b1;
       PushUrl (remote_specfile_path X spec outdir tmpdir) b2] ++ index ∧
    Forall not_RemoveUrl index ∧
    (regenerate_index = false →
     index = [] ∧
     remote w' =
       <[remote_specfile_path X spec outdir tmpdir := Content b2]>
         (<[remote_spackfile_path X spec outdir tmpdir := Content b1]>
            (remote w))).
Proof.
  unfold build_publish. intros H.
  apply bind_ok_inv in H as ([] & w1 & H1 & H).
  apply bind_ok_inv in H as ([] & w2 & H2 & H).
  apply push_to_url_ok in H1 as (b1 & _ & Hc1 & Hr1).
  apply push_to_url_ok in H2 as (b2 & _ & Hc2 & Hr2).
  exists b1, b2.
  destruct regenerate_index.
  - pose proof (keeps_try_finally (extends_calls not_RemoveUrl)
                  (generate_package_index
                     (url_join outdir
                        (os_path_relpath X (build_cache_prefix tmpdir) tmpdir)))
                  (shutil_rmtree tmpdir)) as Hk.
    destruct (Hk (generate_package_index_frame _)
                 ltac:(pose proof shutil_rmtree_frame; frame) w2)
      as (index & Hci & Hfi).
    rewrite H in Hci. simpl in Hci. exists index.
    split; [| split; [done | discriminate]].
    rewrite Hci, Hc2, Hc1. by rewrite <- !app_assoc.
  - exists []. unfold try_finally, shutil_rmtree, ret in H.
    destruct (fs_exists tmpdir (fs w2)); simplify_eq. simpl.
    split; [| split; [done |]].
    + rewrite Hc2, Hc1. by rewrite <- !app_assoc.
    + intros _. split; [done |]. by rewrite Hr2, Hr1.
Qed.

Lemma is_GpgSign_not_RemoveUrl ev : is_GpgSign ev → not_RemoveUrl ev.
Proof. by destruct ev. Qed.

(** C5.  For a concrete spec and a scratch directory [tmpdir] handed out by
    the system: without [force], an archive or a metadata file already
    present at its remote name makes [build_tarball] fail with
    [NoOverwriteException] for that name, the mirror contents unchanged and
    no remote call made; with [force], the run starts with the deletion of
    each artifact present, no deletion happens later, and in a run that
    succeeds the two artifacts are pushed after these deletions, preceded
    only by the signing call. *)
Theorem build_tarball_overwrite_guard (spec : Spec) (outdir : string)
  (force rel unsigned allow_root : bool) (key : option string)
  (regenerate_index : bool) (w : world) (tmpdir : string)
  (rest : list string) :
  concrete spec = true →
  pick_fresh (fs w) (tmp_supply w) = Some (tmpdir, rest) →
  let u1 := remote_spackfile_path X spec outdir tmpdir in
  let u2 := remote_specfile_path X spec outdir tmpdir in
  let run := build_tarball X spec outdir force rel unsigned allow_root key
               regenerate_index w in
  (force = false →
   url_present (remote w) u1 = true ∨ url_present (remote w) u2 = true →
   ∃ u, run.1 = Raise (NoOverwriteException (url_format X u)) ∧
        (u = u1 ∨ u = u2) ∧ url_present (remote w) u = true ∧
        remote run.2 = remote w ∧ calls run.2 = calls w) ∧
  (force = true →
   ∃ later,
     calls run.2 = calls w ++ guard_removals (remote w) u1 u2 ++ later ∧
     Forall not_RemoveUrl later ∧
     (run.1 = Ok tt →
      ∃ signing b1 b2 index,
        later = signing ++ [PushUrl u1 b1; PushUrl u2 b2] ++ index ∧
        Forall is_GpgSign signing ∧
        (regenerate_index = false →
         index = [] ∧ remote run.2 !! u2 = Some (Content b2)))).
Proof.
  intros Hc Hp u1 u2 run. subst u1 u2 run. split.
  - intros -> Hex.
    destruct (build_guard_conflict spec outdir w tmpdir rest Hc Hp Hex)
      as (u & w' & Hg & Hu & Hpres & Hr & Hca).
    exists u. unfold build_tarball. rewrite (bind_raise _ _ _ _ _ Hg). done.
  - intros ->.
    destruct (build_guard_force spec outdir w tmpdir rest Hc Hp)
      as (w1 & Hg & Hc1 & _).
    unfold build_tarball. rewrite (bind_ok _ _ _ _ _ Hg).
    destruct (build_package_frame spec outdir tmpdir true rel unsigned
                allow_root key w1) as (signing & Hcs & Hfs).
    destruct (build_package X spec outdir tmpdir true rel unsigned allow_root
                key w1) as [[[] | e] w2] eqn:Hpk; simpl in Hcs.
    + rewrite (bind_ok _ _ _ _ _ Hpk).
      destruct (build_publish_frame spec outdir tmpdir regenerate_index w2)
        as (pushes & Hcp & Hfp).
      exists (signing ++ pushes). split; [| split].
      * rewrite Hcp, Hcs, Hc1. by rewrite <- !app_assoc.
      * apply Forall_app. split; [| done].
        eapply Forall_impl; [exact Hfs | apply is_GpgSign_not_RemoveUrl].
      * intros Hok.
        destruct (build_publish X spec outdir tmpdir regenerate_index w2)
          as [[[] | e] w3] eqn:Hpb; simpl in *; [| done].
        destruct (build_publish_ok _ _ _ _ _ _ Hpb)
          as (b1 & b2 & index & Hci & Hfi & Hreg).
        exists signing, b1, b2, index. split; [| split; [done |]].
        -- f_equal. rewrite Hci in Hcp. by apply app_inv_head in Hcp.
        -- intros Hr. destruct (Hreg Hr) as [-> Hrem]. split; [done |].
           rewrite Hrem. apply lookup_insert_eq.
    + rewrite (bind_raise _ _ _ _ _ Hpk). simpl. exists signing.
      split; [| split; [| done]].
      * by rewrite Hcs, Hc1, <- app_assoc.
      * eapply Forall_impl; [exact Hfs | apply is_GpgSign_not_RemoveUrl].
Qed.

End BuildFacts.

(** * The worked scenario, run *)

Example toy_needs_rebuild_runs :
  (needs_rebuild toy zlib "https://a.example" false
     (mirror_world [mirror_a]
        [(spec_yaml_url zlib "https://a.example", Content "meta stale")])).1
  = Ok true.
Proof. vm_compute. reflexivity. Qed.

Example tar_member_path_resolves :
  tar_member_path "/tmp/t1" "zlib/lib/libz.so" = "/tmp/t1/zlib/lib/libz.so" ∧
  tar_member_path "/tmp/t1" "/opt/spack/evil" = "/opt/spack/evil" ∧
  tar_member_path "/tmp/t1" "../../opt/spack/evil" = "/opt/spack/evil" ∧
  tar_member_path "/tmp/t1" "a/../b" = "/tmp/t1/b" ∧
  tar_member_path "/tmp/t1" "./x/" = "/tmp/t1/x" ∧
  os_path_normpath "a/../../b" = "../b" ∧
  os_path_normpath "/../a//b/." = "/a/b" ∧
  os_path_normpath "" = ".".
Proof. vm_compute. repeat split; reflexivity. Qed.

Example toy_extract_tarball_installs :
  let run := extract_tarball toy zlib staged_archive false false false
               (staged_world "bundle good") in
  run.1 = Ok tt ∧
  fs run.2 !! os_path_join (prefix zlib) "lib/libz.so" = Some (File "ELF") ∧
  fs_exists "/tmp/t1" (fs run.2) = false.
Proof. vm_compute. repeat split; reflexivity. Qed.

Example toy_build_tarball_publishes :
  let u1 := remote_spackfile_path toy zlib "https://a.example" "/tmp/t1" in
  let u2 := remote_specfile_path toy zlib "https://a.example" "/tmp/t1" in
  let run := build_tarball toy zlib "https://a.example" true false true false
               None false (build_world [(u1, Content "bundle old")]) in
  run.1 = Ok tt ∧
  calls run.2 = [RemoveUrl u1; PushUrl u1 "bundle unsigned";
                 PushUrl u2 "meta good"].
Proof. vm_compute. repeat split; reflexivity. Qed.

(** Witness of C1: a stale record on the mirror. *)
Lemma needs_rebuild_decision_witness :
  concrete zlib = true ∧
  (needs_rebuild toy zlib "https://a.example" false
     (mirror_world [mirror_a]
        [(spec_yaml_url zlib "https://a.example", Content "meta stale")])).1
  = Ok true.
Proof.
  split; [reflexivity |].
  destruct (needs_rebuild_decision toy zlib "https://a.example" false
              (mirror_world [mirror_a]
                 [(spec_yaml_url zlib "https://a.example",
                   Content "meta stale")]) eq_refl) as (_ & _ & H).
  destruct (H "meta stale"
              [("binary_cache_checksum",
                YMap [("hash_algorithm", YStr "sha256");
                      ("hash", YStr "sha256:payload")]);
               ("buildinfo", YMap [("relative_prefix", YStr "linux/zlib")]);
               ("full_hash", YStr "fh0")])
    as (_ & Hmis & _);
    [vm_compute; reflexivity | discriminate | vm_compute; reflexivity |].
  apply (Hmis (YStr "fh0")); [reflexivity | discriminate].
Defined.

(** Counterexample to C1 as stated.  A transport error that is not a
    [URLError] (here a timeout) is not caught at line 791 and leaves
    [needs_rebuild], whatever [rebuild_on_errors] is; and a metadata file
    that parses, but not to a mapping (here the document [null]), makes the
    test of line 812 raise. *)
Lemma needs_rebuild_other_failures_raise :
  let url := spec_yaml_url zlib "https://a.example" in
  (needs_rebuild toy zlib "https://a.example" true
     (mirror_world [mirror_a] [(url, Fault (IOError "timed out"))])).1 =
    Raise (IOError "timed out") ∧
  (needs_rebuild toy_null zlib "https://a.example" true
     (mirror_world [mirror_a] [(url, Content "null")])).1 =
    Raise (TypeError "argument is not iterable").
Proof. vm_compute. split; reflexivity. Qed.

Ltac stage_runs := apply run_split; vm_compute; reflexivity.
Ltac evaluates := vm_compute; reflexivity.








(** Witness of C5: the archive is already on the mirror and [force] is
    not set. *)
Lemma build_tarball_overwrite_guard_witness :
  let u1 := remote_spackfile_path toy zlib "https://a.example" "/tmp/t1" in
  let run := build_tarball toy zlib "https://a.example" false false true false
               None false (build_world [(u1, Content "bundle old")]) in
  ∃ u, run.1 = Raise (NoOverwriteException u) ∧ calls run.2 = [].
Proof.
  intros u1 run.
  destruct (build_tarball_overwrite_guard toy zlib "https://a.example" false
              false true false None false
              (build_world [(u1, Content "bundle old")]) "/tmp/t1"
              ["/tmp/t2"; "/tmp/t3"])
    as [Hconflict _]; [reflexivity | subst u1; evaluates |].
  destruct Hconflict as (u & Hrun & _ & _ & _ & Hcalls);
    [reflexivity | left; subst u1; evaluates |].
  exists u. split; [exact Hrun | exact Hcalls].
Defined.

(** Witness of C6: relocation fails on the unpacked tree. *)
Lemma extract_tarball_relocation_rollback_witness :
  let run := extract_tarball toy zlib staged_archive false true false
               (staged_world "bundle broken") in
  fs_exists (prefix zlib) (fs run.2) = false ∧
  run.1 = Raise (SystemExit 1) ∧
  TtyError "cannot rewrite" ∈ tty run.2.
Proof.
  pose (w0 := staged_world "bundle broken").
  pose (w1 := (extract_open toy zlib staged_archive false w0).2).
  pose (w2 := (extract_verify toy zlib "/tmp/t1" true w1).2).
  pose (sd := toy_metadata (toy_digest "payload broken") (Some "linux/zlib")
                (Some "fh1")).
  pose (w3 := (extract_checksum toy zlib "/tmp/t1" w2).2).
  pose (w4 := (extract_layout toy zlib "/tmp/t1" sd w3).2).
  pose (w5 := (extract_install toy zlib "/tmp/t1" w4).2).
  pose (w6 := (relocate_package toy (prefix zlib) zlib false w5).2).
  destruct (extract_tarball_relocation_rollback toy zlib staged_archive false
              true false w0 "/tmp/t1" w1 w2 sd w3 w4 w5
              (ProcessError "cannot rewrite") w6)
    as (Hgone & _ & Hdie);
    [ subst w1 w0; stage_runs | subst w2 w1 w0; stage_runs
    | subst w3 w2 w1 w0 sd; stage_runs | subst w4 w3 w2 w1 w0 sd; stage_runs
    | subst w5 w4 w3 w2 w1 w0 sd; stage_runs
    | subst w6 w5 w4 w3 w2 w1 w0 sd; stage_runs | reflexivity |].
  destruct Hdie as (Hexit & Hmsg & _);
    [ subst w6 w5 w4 w3 w2 w1 w0 sd; evaluates
    | subst w6 w5 w4 w3 w2 w1 w0 sd; evaluates |].
  split; [exact Hgone |]. split; [exact Hexit | exact Hmsg].
Defined.




(** Witness of C9 as amended: one spec found on the first call. *)
Lemma get_specs_cache_sticks_witness :
  let link := "https://mirror.example/build_cache/" +:+ zlib_specfile in
  let w := mirror_world [mirror_a]
             [("https://a.example/build_cache/index.html", Content "index");
              (link, Content "spec zlib")] in
  let w1 := (get_specs toy false w).2 in
  get_specs toy true w1 =
    (Ok (SpecList [mark_concrete zlib]),
     add_tty (TtyDebug "Using previously-retrieved specs") w1).
Proof.
  intros link w w1.
  apply (get_specs_cache_sticks toy false true w w1 [mark_concrete zlib]);
    [subst w1 w link; stage_runs | discriminate].
Defined.

(** Counterexample to C9 as stated: the first call finds no spec and
    returns the empty list; the next call asks the mirror again. *)
Lemma get_specs_empty_list_not_cached :
  let w := mirror_world [mirror_a] [] in
  let first := get_specs toy false w in
  let second := get_specs toy true first.2 in
  first.1 = Ok (SpecList []) ∧
  calls second.2 =
    calls first.2 ++ [Spider "https://a.example/build_cache/index.html"].
Proof. vm_compute. split; reflexivity. Qed.

(** Witness of C10: the metadata carries no [buildinfo] section. *)
Lemma extract_tarball_layout_default_witness :
  let run := extract_tarball toy zlib staged_archive false true false
               (staged_world "bundle no layout") in
  run.1 = Ok tt ∧
  fs run.2 !! os_path_join (prefix zlib) "lib/libz.so" = Some (File "ELF").
Proof.
  pose (w0 := staged_world "bundle no layout").
  pose (w1 := (extract_open toy zlib staged_archive false w0).2).
  pose (w2 := (extract_verify toy zlib "/tmp/t1" true w1).2).
  pose (w3 := (extract_checksum toy zlib "/tmp/t1" w2).2).
  destruct (extract_tarball_layout_default toy zlib staged_archive false true
              false w0 "/tmp/t1" w1 w2 w3
              [("binary_cache_checksum",
                YMap [("hash_algorithm", YStr "sha256");
                      ("hash", YStr "sha256:payload")]);
               ("full_hash", YStr "fh1")])
    as [Hdefault _];
    [ subst w1 w0; stage_runs | subst w2 w1 w0; stage_runs
    | subst w3 w2 w1 w0; stage_runs |].
  destruct Hdefault as [_ Hrun]; [left; reflexivity |].
  cbv zeta. fold w0. rewrite Hrun. subst w3 w2 w1 w0.
  vm_compute. split; reflexivity.
Defined.

(** * Further properties of the module *)

(** ** checksum_tarball reads the whole file *)

Lemma substring_zero_all (n : nat) (s : string) :
  (String.length s <= n)%nat → String.substring 0 n s = s.
Proof.
  revert n. induction s as [| c s IH]; intros n Hn.
  - by destruct n.
  - destruct n as [| n]; simpl in *; [lia |]. rewrite IH; [done | lia].
Qed.





Section ChecksumFacts.
Context (X : Externals).
Context (streams : ∀ h a b, sha256_update X (sha256_update X h a) b =
                            sha256_update X h (a +:+ b)).
Context (idle : ∀ h, sha256_update X h "" = h).



End ChecksumFacts.



(** ** What needs_rebuild touches *)

Section ReadOnlyFacts.
Context (X : Externals).

#[local] Arguments String.append : simpl never.
#[local] Arguments tarball_name : simpl never.
#[local] Arguments os_path_join : simpl never.

(** X2.  [needs_rebuild] is read-only: whatever its outcome, the mirror
    contents, the local tree and the spec cache are unchanged, and it makes
    at most one external call, the read of the spec's metadata file. *)
Theorem needs_rebuild_reads_only (spec : Spec) (url : string) (roe : bool)
  (w : world) :
  let run := needs_rebuild X spec url roe w in
  remote run.2 = remote w ∧ fs run.2 = fs w ∧
  cached_specs run.2 = cached_specs w ∧
  (calls run.2 = calls w ∨
   calls run.2 = calls w ++ [ReadUrl (spec_yaml_url spec url)]).
Proof.
  unfold needs_rebuild, read_from_url, spec_yaml_url. unfold_py.
  destruct (concrete spec); simpl; [| auto].
  destruct (remote w !! _) as [[body | e] |]; simpl.
  - destruct (String.eqb body ""); simpl; [auto 6 |].
    destruct (syaml_load X body) as [e | y]; simpl; [auto 6 |].
    destruct y; simpl; auto 6; repeat case_match; simplify_eq; simpl; auto 6.
  - destruct (is_URLError e); simpl; auto 6.
  - auto 6.
Qed.

End ReadOnlyFacts.

(** ** More on extract_tarball *)

Section ExtractMore.
Context (X : Externals).

#[local] Arguments String.append : simpl never.
#[local] Arguments tarball_name : simpl never.
#[local] Arguments os_path_join : simpl never.
#[local] Arguments os_path_dirname : simpl never.
#[local] Arguments fs_exists : simpl never.
#[local] Arguments fs_rmtree : simpl never.
#[local] Arguments sha256_of : simpl never.


Lemma extract_open_tmpdir spec filename force w tmpdir w1 :
  extract_open X spec filename force w = (Ok tmpdir, w1) →
  ∃ rest, pick_fresh (fs_after_guard spec (fs w)) (tmp_supply w) =
          Some (tmpdir, rest).
Proof.
  unfold extract_open, fs_after_guard, mkdtemp, tar_extractall. unfold_py.
  intros H.
  destruct (fs_exists (prefix spec) (fs w)) eqn:Ee.
  - destruct force; [| discriminate]. rewrite Ee in H. simpl in H.
    destruct (pick_fresh _ _) as [[p rest] |] eqn:Ep; [| discriminate].
    simpl in H. repeat case_match; simplify_eq. eauto.
  - destruct (pick_fresh _ _) as [[p rest] |] eqn:Ep; [| discriminate].
    simpl in H. repeat case_match; simplify_eq. eauto.
Qed.

Lemma extract_relocate_ok spec tmpdir allow_root w w' :
  extract_relocate X spec tmpdir allow_root w = (Ok tt, w') →
  fs_exists tmpdir (fs w') = false.
Proof.
  unfold extract_relocate, try_finally, shutil_rmtree.
  destruct (try_except_else _ _ _ _ w) as [r w1].
  destruct (fs_exists tmpdir (fs w1)) eqn:E; [| by destruct r].
  intros [= -> <-]. simpl. apply fs_exists_rmtree.
Qed.

(** X4.  A run of [extract_tarball] that returns normally has removed
    its temporary directory, the first name of the supply that did not
    exist once the overwrite guard had passed. *)
Theorem extract_tarball_ok_cleans_up (spec : Spec) (filename : string)
  (allow_root unsigned force : bool) (w w' : world) :
  extract_tarball X spec filename allow_root unsigned force w = (Ok tt, w') →
  ∃ tmpdir rest,
    pick_fresh (fs_after_guard spec (fs w)) (tmp_supply w) =
      Some (tmpdir, rest) ∧
    fs_exists tmpdir (fs w') = false.
Proof.
  unfold extract_tarball. intros H.
  apply bind_ok_inv in H as (tmpdir & w1 & Ho & H).
  apply bind_ok_inv in H as ([] & w2 & _ & H).
  apply bind_ok_inv in H as (sd & w3 & _ & H).
  apply bind_ok_inv in H as ([] & w4 & _ & H).
  apply bind_ok_inv in H as ([] & w5 & _ & H).
  destruct (extract_open_tmpdir _ _ _ _ _ _ Ho) as [rest Hp].
  exists tmpdir, rest. split; [done |]. by eapply extract_relocate_ok.
Qed.

(** X5.  Metadata without the ['binary_cache_checksum'] entry makes
    [extract_tarball] fail with [KeyError] at line 600, and this exit does
    not clean up: the temporary directory and what was unpacked into it
    stay on disk. *)
Theorem extract_tarball_missing_checksum_leaks (spec : Spec)
  (filename : string) (allow_root unsigned force : bool)
  (w : world) (tmpdir : string) (w1 w2 : world) (payload meta : string)
  (entries : list (string * yaml)) :
  extract_open X spec filename force w = (Ok tmpdir, w1) →
  extract_verify X spec tmpdir unsigned w1 = (Ok tt, w2) →
  fs w2 !! os_path_join tmpdir (tarball_name spec ".tar.gz") =
    Some (File payload) →
  fs w2 !! os_path_join tmpdir (tarball_name spec ".spec.yaml") =
    Some (File meta) →
  syaml_load X meta = inr (YMap entries) →
  assoc "binary_cache_checksum" entries = None →
  extract_tarball X spec filename allow_root unsigned force w =
    (Raise (KeyError "binary_cache_checksum"), w2) ∧
  fs_exists tmpdir (fs w2) = true ∧
  fs w2 !! os_path_join tmpdir (tarball_name spec ".tar.gz") =
    Some (File payload).
Proof.
  intros Ho Hv Hp Hm Hy Hb.
  destruct (extract_open_inv _ _ _ _ _ _ _ Ho) as (Hst & _).
  pose proof (extract_verify_ok _ _ _ _ _ _ Hv) as Hfs. rewrite <- Hfs in Hst.
  split; [| split; [by eapply staged_exists | done]].
  unfold extract_tarball.
  rewrite (bind_ok _ _ _ _ _ Ho), (bind_ok _ _ _ _ _ Hv).
  unfold extract_checksum, checksum_tarball. unfold_py.
  rewrite Hp, Hm, Hy. simpl. by rewrite Hb.
Qed.

(** [relocate_package] does nothing when the build information says the
    binaries were made relative: no message, no relocation primitive run,
    the world unchanged. *)
Lemma relocate_package_relative_noop (workdir : string) (spec : Spec)
  (allow_root : bool) (w : world) (content : string)
  (buildinfo : list (string * yaml)) (old_path rel : yaml) :
  fs w !! buildinfo_file_name workdir = Some (File content) →
  yaml_load X content = inr (YMap buildinfo) →
  assoc "buildpath" buildinfo = Some old_path →
  assoc "relative_rpaths" buildinfo = Some rel →
  py_truthy rel = true →
  relocate_package X workdir spec allow_root w = (Ok tt, w).
Proof.
  intros Hf Hy Hb Hr Ht. unfold relocate_package, read_buildinfo_file.
  unfold_py. rewrite Hf, Hy. simpl. rewrite Hb, Hr. simpl. by rewrite Ht.
Qed.

End ExtractMore.


Lemma extract_tarball_ok_cleans_up_witness :
  ∃ tmpdir rest,
    pick_fresh (fs_after_guard zlib (fs (staged_world "bundle good")))
      (tmp_supply (staged_world "bundle good")) = Some (tmpdir, rest) ∧
    fs_exists tmpdir
      (fs (extract_tarball toy zlib staged_archive false false false
             (staged_world "bundle good")).2) = false.
Proof.
  apply (extract_tarball_ok_cleans_up toy zlib staged_archive false false
           false (staged_world "bundle good")).
  stage_runs.
Defined.

Lemma extract_tarball_missing_checksum_leaks_witness :
  let w := staged_world "bundle bare" in
  let w1 := (extract_open toy_bare zlib staged_archive false w).2 in
  let w2 := (extract_verify toy_bare zlib "/tmp/t1" true w1).2 in
  extract_tarball toy_bare zlib staged_archive false true false w =
    (Raise (KeyError "binary_cache_checksum"), w2) ∧
  fs_exists "/tmp/t1" (fs w2) = true ∧
  fs w2 !! os_path_join "/tmp/t1" (tarball_name zlib ".tar.gz") =
    Some (File "payload").
Proof.
  intros w w1 w2.
  apply (extract_tarball_missing_checksum_leaks toy_bare zlib
           staged_archive false true false w "/tmp/t1" w1 w2 "payload"
           "spec zlib" [("spec", YStr "zlib")]);
    subst w2 w1 w;
    [ stage_runs | stage_runs | evaluates | evaluates | evaluates
    | evaluates ].
Defined.

(** ** More on sign_tarball *)

Section SignMore.
Context (X : Externals).

#[local] Arguments String.append : simpl never.
#[local] Arguments fs_exists : simpl never.

(** Without gpg, [sign_tarball] raises [NoGpgException] whatever the key
    and the [force] flag, before it looks at keys or files: the world is
    unchanged. *)
Lemma sign_tarball_without_gpg (key : option string) (force : bool)
  (specfile_path : string) (w : world) :
  gpg_available X = false →
  ∃ msg, sign_tarball X key force specfile_path w =
           (Raise (NoGpgException msg), w).
Proof.
  intros Hg. unfold sign_tarball, has_gnupg2. unfold_py. rewrite Hg. simpl.
  eauto.
Qed.

(** X6.  The overwrite guard on the detached signature: with a key chosen
    and a signature file in place, [sign_tarball] without [force] raises
    [NoOverwriteException] for that file and signs nothing; with [force]
    the old signature is replaced by the one gpg produces for the metadata
    file. *)
Theorem sign_tarball_signature_guard (k : string) (force : bool)
  (specfile_path : string) (w : world) (old content sig : string) :
  gpg_available X = true →
  fs w !! (specfile_path +:+ ".asc") = Some (File old) →
  fs w !! specfile_path = Some (File content) →
  gpg_signature X (Some k) content = inr sig →
  let run := sign_tarball X (Some k) force specfile_path w in
  (force = false →
   run = (Raise (NoOverwriteException (specfile_path +:+ ".asc")), w)) ∧
  (force = true →
   run.1 = Ok tt ∧
   fs run.2 !! (specfile_path +:+ ".asc") = Some (File sig) ∧
   fs run.2 !! specfile_path = Some (File content)).
Proof.
  intros Hg Ha Hc Hs.
  assert (He : fs_exists (specfile_path +:+ ".asc") (fs w) = true).
  { apply fs_exists_true. exists (specfile_path +:+ ".asc"), (File old).
    split; [done | apply at_or_under_refl]. }
  assert (Hne : specfile_path +:+ ".asc" ≠ specfile_path)
    by (by apply string_app_ne).
  unfold sign_tarball, has_gnupg2, Gpg_sign. unfold_py. rewrite Hg. simpl.
  rewrite He. split; intros ->; [done |].
  rewrite Ha. simpl. rewrite lookup_delete_ne by done. rewrite Hc, Hs. simpl.
  split; [done |]. split; [apply lookup_insert_eq |].
  rewrite lookup_insert_ne by done. by rewrite lookup_delete_ne.
Qed.

End SignMore.

Lemma sign_tarball_signature_guard_witness :
  let w := set_fs (λ m, <["/tmp/t1/zlib.spec.yaml.asc" := File "signature old"]>
                          (<["/tmp/t1/zlib.spec.yaml" := File "meta good"]> m))
             (staged_world "bundle good") in
  fs (sign_tarball toy (Some "KEY1") true "/tmp/t1/zlib.spec.yaml" w).2
    !! "/tmp/t1/zlib.spec.yaml.asc" = Some (File "signature good").
Proof.
  intros w.
  destruct (sign_tarball_signature_guard toy "KEY1" true
              "/tmp/t1/zlib.spec.yaml" w "signature old" "meta good"
              "signature good") as [_ Hforce];
    [reflexivity | subst w; evaluates | subst w; evaluates | reflexivity |].
  destruct (Hforce eq_refl) as (_ & Hsig & _). exact Hsig.
Defined.

(** ** download_tarball *)

Section DownloadFacts.
Context (X : Externals).

#[local] Arguments String.append : simpl never.
#[local] Arguments url_join : simpl never.
#[local] Arguments tarball_path_name : simpl never.

Lemma stage_fetch_missing link w :
  url_present (remote w) link = false →
  stage_fetch X link w = (Raise (FetchError link), add_call (StageFetch link) w).
Proof.
  unfold url_present, stage_fetch. by destruct (remote w !! link) as [[] |].
Qed.

Lemma download_tarball_from_skip spec a rest w :
  url_present (remote w) (archive_url spec a) = false →
  download_tarball_from X (a :: rest) (tarball_path_name spec ".spack") w =
  download_tarball_from X rest (tarball_path_name spec ".spack")
    (add_call (StageFetch (archive_url spec a)) w).
Proof.
  intros Ha. simpl. unfold bind at 1. unfold try_except, bind at 1.
  fold (archive_url spec a). by rewrite stage_fetch_missing.
Qed.

Lemma download_tarball_from_first spec pre m post body :
  ∀ w,
  (∀ m', m' ∈ pre → url_present (remote w) (archive_url spec m') = false) →
  remote w !! archive_url spec m = Some (Content body) →
  let run := download_tarball_from X (pre ++ m :: post)
               (tarball_path_name spec ".spack") w in
  run.1 = Ok (Some (stage_save_filename X (archive_url spec m))) ∧
  fs run.2 !! stage_save_filename X (archive_url spec m) = Some (File body) ∧
  calls run.2 =
    calls w ++ map (λ m', StageFetch (archive_url spec m')) (pre ++ [m]).
Proof.
  induction pre as [| a pre IH]; intros w Hpre Hm.
  - simpl. unfold bind, try_except, stage_fetch. fold (archive_url spec m).
    rewrite Hm. simpl. split; [done |]. split; [apply lookup_insert_eq | done].
  - cbv zeta. rewrite <- app_comm_cons.
    rewrite download_tarball_from_skip by (apply Hpre, list_elem_of_here).
    destruct (IH (add_call (StageFetch (archive_url spec a)) w))
      as (Hr & Hf & Hc); [| done |].
    + intros m' Hm'. apply Hpre. by apply list_elem_of_further.
    + split; [done |]. split; [done |]. rewrite Hc. simpl.
      by rewrite <- app_assoc.
Qed.

Lemma download_tarball_from_none spec configured :
  ∀ w,
  (∀ m', m' ∈ configured →
         url_present (remote w) (archive_url spec m') = false) →
  let run := download_tarball_from X configured
               (tarball_path_name spec ".spack") w in
  run.1 = Ok None ∧ fs run.2 = fs w ∧
  calls run.2 =
    calls w ++ map (λ m', StageFetch (archive_url spec m')) configured.
Proof.
  induction configured as [| a l IH]; intros w Hall.
  - simpl. by rewrite app_nil_r.
  - cbv zeta.
    rewrite download_tarball_from_skip by (apply Hall, list_elem_of_here).
    destruct (IH (add_call (StageFetch (archive_url spec a)) w))
      as (Hr & Hf & Hc).
    + intros m' Hm'. apply Hall. by apply list_elem_of_further.
    + split; [done |]. split; [done |]. rewrite Hc. simpl.
      by rewrite <- app_assoc.
Qed.

Lemma download_tarball_configured spec w :
  mirrors w ≠ [] →
  download_tarball X spec w =
  download_tarball_from X (mirrors w) (tarball_path_name spec ".spack") w.
Proof.
  intros Hne. unfold download_tarball. unfold bind at 1. simpl.
  by destruct (mirrors w).
Qed.

(** X7.  [download_tarball] asks the configured mirrors in order and
    stops at the first one that serves the archive: it returns the name
    of the staged file, which holds the body served, and the mirrors after
    that one are not contacted. *)
Theorem download_tarball_first_mirror (spec : Spec) (w : world)
  (pre : list Mirror) (m : Mirror) (post : list Mirror) (body : string) :
  mirrors w = pre ++ m :: post →
  (∀ m', m' ∈ pre → url_present (remote w) (archive_url spec m') = false) →
  remote w !! archive_url spec m = Some (Content body) →
  let run := download_tarball X spec w in
  run.1 = Ok (Some (stage_save_filename X (archive_url spec m))) ∧
  fs run.2 !! stage_save_filename X (archive_url spec m) = Some (File body) ∧
  calls run.2 =
    calls w ++ map (λ m', StageFetch (archive_url spec m')) (pre ++ [m]).
Proof.
  intros Hmirrors Hpre Hm. cbv zeta.
  rewrite download_tarball_configured
    by (rewrite Hmirrors; by destruct pre).
  rewrite Hmirrors. by apply download_tarball_from_first.
Qed.

(** X8.  When no configured mirror serves the archive,
    [download_tarball] returns [None] after one fetch attempt per mirror
    and stages nothing; with no mirror configured it dies instead. *)
Theorem download_tarball_unavailable (spec : Spec) (w : world) :
  (∀ m', m' ∈ mirrors w →
         url_present (remote w) (archive_url spec m') = false) →
  let run := download_tarball X spec w in
  (mirrors w = [] → run.1 = Raise (SystemExit 1)) ∧
  (mirrors w ≠ [] →
   run.1 = Ok None ∧ fs run.2 = fs w ∧
   calls run.2 =
     calls w ++ map (λ m', StageFetch (archive_url spec m')) (mirrors w)).
Proof.
  intros Hall. cbv zeta. split.
  - intros E. unfold download_tarball. unfold bind at 1. simpl.
    by rewrite E.
  - intros Hne. rewrite download_tarball_configured by done.
    by apply download_tarball_from_none.
Qed.

End DownloadFacts.

Lemma download_tarball_first_mirror_witness :
  let w := mirror_world [mirror_a; mirror_b]
             [(archive_url zlib mirror_b, Content "bundle good")] in
  let run := download_tarball toy zlib w in
  run.1 = Ok (Some (stage_save_filename toy (archive_url zlib mirror_b))) ∧
  fs run.2 !! stage_save_filename toy (archive_url zlib mirror_b) =
    Some (File "bundle good") ∧
  calls run.2 = [StageFetch (archive_url zlib mirror_a);
                 StageFetch (archive_url zlib mirror_b)].
Proof.
  intros w.
  apply (download_tarball_first_mirror toy zlib w [mirror_a] mirror_b []
           "bundle good"); [reflexivity | | subst w; evaluates].
  intros m' Hm'. apply list_elem_of_singleton in Hm' as ->. subst w. evaluates.
Defined.

Lemma download_tarball_unavailable_witness :
  let w := mirror_world [mirror_a; mirror_b] [] in
  (download_tarball toy zlib w).1 = Ok None.
Proof.
  intros w.
  destruct (download_tarball_unavailable toy zlib w) as [_ Hnone].
  - intros m' _. reflexivity.
  - by destruct Hnone as (Hr & _).
Defined.

(** ** download_buildcache_entry *)

Section EntryFacts.

#[local] Arguments String.append : simpl never.
#[local] Arguments os_path_join : simpl never.
#[local] Arguments os_path_basename : simpl never.
#[local] Arguments fs_exists : simpl never.

Lemma _download_buildcache_entry_run mirror_root ds :
  ∀ w, ∃ w',
    _download_buildcache_entry mirror_root ds w =
      (Ok (forallb (served (remote w) mirror_root) ds), w') ∧
    remote w' = remote w ∧ mirrors w' = mirrors w.
Proof.
  induction ds as [| d ds IH]; intros w; [by exists w |].
  simpl. unfold bind at 1. unfold mkdirp.
  set (w1 := (if fs_exists (d_path d) (fs w)
              then (Ok (), w)
              else (Ok (), set_fs (insert (d_path d) Dir) w)).2).
  assert (Hw1 : (if fs_exists (d_path d) (fs w)
                 then (Ok (), w)
                 else (Ok (), set_fs (insert (d_path d) Dir) w)) = (Ok tt, w1))
    by (subst w1; by destruct (fs_exists _ _)).
  assert (Hr1 : remote w1 = remote w ∧ mirrors w1 = mirrors w)
    by (subst w1; by destruct (fs_exists _ _)).
  rewrite Hw1. clearbody w1. destruct Hr1 as [Hr1 Hm1].
  unfold bind at 1. unfold try_except, stage_fetch_into, served, url_present.
  unfold bind at 1. rewrite <- Hr1, <- Hm1.
  destruct (remote w1 !! os_path_join mirror_root (d_url d))
    as [[body | e] |] eqn:E; simpl.
  - rewrite orb_true_r. simpl.
    match goal with |- context [_download_buildcache_entry _ _ ?w'] =>
      destruct (IH w') as (w2 & Hres & Hrem & Hmir) end.
    rewrite Hres. eauto.
  - rewrite orb_false_r. destruct (d_required d); simpl.
    + eauto.
    + match goal with |- context [_download_buildcache_entry _ _ ?w'] =>
        destruct (IH w') as (w2 & Hres & Hrem & Hmir) end.
      rewrite Hres. eauto.
  - rewrite orb_false_r. destruct (d_required d); simpl.
    + eauto.
    + match goal with |- context [_download_buildcache_entry _ _ ?w'] =>
        destruct (IH w') as (w2 & Hres & Hrem & Hmir) end.
      rewrite Hres. eauto.
Qed.

Lemma download_buildcache_entry_from_run configured ds :
  ∀ w, ∃ w',
    download_buildcache_entry_from configured ds w =
      (Ok (existsb
             (λ m, forallb
                     (served (remote w)
                        (os_path_join (fetch_url m) _build_cache_relative_path))
                     ds) configured), w') ∧
    remote w' = remote w ∧ mirrors w' = mirrors w.
Proof.
  induction configured as [| m ms IH]; intros w; [by exists w |].
  simpl. unfold bind at 1.
  destruct (_download_buildcache_entry_run
              (os_path_join (fetch_url m) _build_cache_relative_path) ds w)
    as (w1 & -> & Hr1 & Hm1).
  destruct (forallb _ ds); simpl; [by exists w1 |].
  destruct (IH w1) as (w2 & -> & Hr2 & Hm2). rewrite Hr1.
  exists w2. by rewrite Hr2, Hm2.
Qed.

Lemma download_buildcache_entry_configured ds w :
  mirrors w ≠ [] →
  download_buildcache_entry ds w =
  download_buildcache_entry_from (mirrors w) ds w.
Proof.
  intros Hne. unfold download_buildcache_entry. unfold bind at 1. simpl.
  by destruct (mirrors w).
Qed.

(** X9.  [download_buildcache_entry] returns [True] exactly when some
    configured mirror serves every required file of the descriptions; a
    file that is not required never makes a mirror fail.  The mirrors are
    only read.  With no mirror configured the call dies. *)
Theorem download_buildcache_entry_served (ds : list description) (w : world) :
  let run := download_buildcache_entry ds w in
  (mirrors w = [] → run.1 = Raise (SystemExit 1)) ∧
  (mirrors w ≠ [] →
   run.1 = Ok (existsb
                 (λ m, forallb
                         (served (remote w)
                            (os_path_join (fetch_url m)
                               _build_cache_relative_path)) ds)
                 (mirrors w)) ∧
   remote run.2 = remote w).
Proof.
  cbv zeta. split.
  - intros E. unfold download_buildcache_entry. unfold bind at 1. simpl.
    by rewrite E.
  - intros Hne. rewrite download_buildcache_entry_configured by done.
    destruct (download_buildcache_entry_from_run (mirrors w) ds w)
      as (w' & -> & Hr & _).
    done.
Qed.

End EntryFacts.

Lemma download_buildcache_entry_served_witness :
  let w := mirror_world [mirror_a; mirror_b]
             [("https://b.example/build_cache/zlib.spec.yaml",
               Content "meta good")] in
  let ds := [mkDescription "zlib.spec.yaml" "/stage" true;
             mkDescription "zlib.cdash" "/stage" false] in
  (download_buildcache_entry ds w).1 = Ok true.
Proof.
  intros w ds.
  destruct (download_buildcache_entry_served ds w) as [_ Hsome].
  destruct Hsome as [Hres _]; [done |]. rewrite Hres. subst w ds. evaluates.
Defined.

(** ** get_keys *)

Section KeyFacts.
Context (X : Externals).

#[local] Arguments String.append : simpl never.

Lemma stage_fetch_no_trust link :
  keeps (extends_calls not_GpgTrust) (stage_fetch X link).
Proof.
  intros w. unfold stage_fetch.
  repeat case_match; simpl; (eexists [_]; split; [reflexivity |]);
    by repeat constructor.
Qed.

Lemma spider_no_trust url : keeps (extends_calls not_GpgTrust) (spider X url).
Proof.
  intros w. unfold spider. simpl. eexists [_].
  split; [reflexivity | by repeat constructor].
Qed.

Lemma get_keys_load_no_trust install trust force link :
  install && trust = false →
  keeps (extends_calls not_GpgTrust) (get_keys_load X install trust force link).
Proof.
  intros Hgate. pose proof stage_fetch_no_trust. unfold get_keys_load.
  destruct install, trust; try discriminate; frame.
Qed.

(** X10.  [get_keys] hands a key to [Gpg.trust] only when both [install]
    and [trust] are set: in every other case no external call of the run,
    whatever the mirrors serve and however the run ends, is a trust
    call. *)
Theorem get_keys_trust_gate (install trust force : bool) (w : world) :
  install && trust = false →
  ∃ evs, calls (get_keys X install trust force w).2 = calls w ++ evs ∧
         Forall not_GpgTrust evs.
Proof.
  intros Hgate.
  pose proof (get_keys_load_no_trust install trust force) as Hload.
  pose proof spider_no_trust.
  assert (Hk : keeps (extends_calls not_GpgTrust)
                 (get_keys X install trust force)).
  { unfold get_keys. frame. by intros w0. }
  apply Hk.
Qed.

End KeyFacts.

Example toy_get_keys_trusts :
  calls (get_keys toy_keys true true false keys_world).2 =
  [Spider "https://a.example/build_cache";
   StageFetch "https://a.example/build_cache/signer.key";
   GpgTrust "/stage/signer.key"].
Proof. vm_compute. reflexivity. Qed.

Lemma get_keys_trust_gate_witness :
  ∃ evs, calls (get_keys toy_keys true false false keys_world).2 =
           calls keys_world ++ evs ∧
         Forall not_GpgTrust evs.
Proof. by apply get_keys_trust_gate. Defined.

(** ** generate_package_index *)

Section IndexFacts.

#[local] Arguments String.append : simpl never.
#[local] Arguments os_path_join : simpl never.
#[local] Arguments url_join : simpl never.
#[local] Arguments fs_exists : simpl never.
#[local] Arguments fs_rmtree : simpl never.
#[local] Arguments BUILD_CACHE_INDEX_TEMPLATE : simpl never.
#[local] Arguments child_names : simpl never.

Lemma generate_package_index_run (cache_prefix : string) (w : world)
  (tmpdir : string) (rest : list string) :
  pick_fresh (fs w) (tmp_supply w) = Some (tmpdir, rest) →
  let listed :=
    filter (λ entry, endswith entry ".yaml" || endswith entry ".key" = true)
      (child_names cache_prefix (map fst (map_to_list (remote w)))) in
  let page :=
    BUILD_CACHE_INDEX_TEMPLATE "Spack Package Index"
      (join_lines (map BUILD_CACHE_INDEX_ENTRY_TEMPLATE listed)) in
  generate_package_index cache_prefix w =
    (Ok tt,
     set_fs (λ _, fs w)
       (add_call (PushUrl (url_join cache_prefix "index.html") page)
          (set_remote (insert (url_join cache_prefix "index.html")
                         (Content page))
             (add_call (ListUrl cache_prefix) (set_tmp_supply rest w))))).
Proof.
  intros Hp. cbv zeta.
  pose proof (pick_fresh_absent _ _ _ _ Hp) as Hfree.
  assert (Hidx : fs w !! os_path_join tmpdir "index.html" = None).
  { destruct (fs w !! os_path_join tmpdir "index.html") as [x |] eqn:E; [| done].
    assert (fs_exists tmpdir (fs w) = true) as Ht; [| congruence].
    apply fs_exists_true. exists (os_path_join tmpdir "index.html"), x.
    split; [done | apply at_or_under_join]. }
  set (page := BUILD_CACHE_INDEX_TEMPLATE _ _).
  unfold generate_package_index, mkdtemp, list_url, push_to_url.
  unfold_py. rewrite Hp. simpl. rewrite lookup_insert_eq. simpl.
  rewrite lookup_insert_eq. simpl.
  assert (Hfs : delete (os_path_join tmpdir "index.html")
                  (<[os_path_join tmpdir "index.html" := File page]>
                     (<[tmpdir := Dir]> (fs w))) = <[tmpdir := Dir]> (fs w)).
  { apply delete_insert_id.
    rewrite lookup_insert_ne
      by (intros E; symmetry in E; by apply os_path_join_ne in E).
    done. }
  fold page. rewrite Hfs.
  assert (He : fs_exists tmpdir (<[tmpdir := Dir]> (fs w)) = true).
  { apply fs_exists_true. exists tmpdir, Dir.
    split; [apply lookup_insert_eq | apply at_or_under_refl]. }
  rewrite He. simpl. f_equal. unfold set_fs. simpl. f_equal.
  apply (staged_rmtree tmpdir (fs w)). split; [done |].
  exists []. split; [constructor | done].
Qed.

(** X11.  [generate_package_index] leaves the local tree as it found it,
    whatever its outcome.  A run that returns has listed the mirror
    directory once and published, as [index.html] of that directory, the
    page with one link per listed name that ends in [.yaml] or [.key], and
    no other; the rest of the mirror is as before. *)
Theorem generate_package_index_page (cache_prefix : string) (w : world) :
  let listed :=
    filter (λ entry, endswith entry ".yaml" || endswith entry ".key" = true)
      (child_names cache_prefix (map fst (map_to_list (remote w)))) in
  let page :=
    BUILD_CACHE_INDEX_TEMPLATE "Spack Package Index"
      (join_lines (map BUILD_CACHE_INDEX_ENTRY_TEMPLATE listed)) in
  let run := generate_package_index cache_prefix w in
  fs run.2 = fs w ∧
  (run.1 = Ok tt →
   remote run.2 =
     <[url_join cache_prefix "index.html" := Content page]> (remote w) ∧
   calls run.2 =
     calls w ++ [ListUrl cache_prefix;
                 PushUrl (url_join cache_prefix "index.html") page]).
Proof.
  cbv zeta.
  destruct (pick_fresh (fs w) (tmp_supply w)) as [[tmpdir rest] |] eqn:Hp.
  - rewrite (generate_package_index_run _ _ _ _ Hp). simpl.
    split; [done |]. intros _. split; [done |]. by rewrite <- app_assoc.
  - unfold generate_package_index, mkdtemp. unfold bind at 1 2.
    rewrite Hp. simpl. split; [done |].
    unfold bind. by rewrite Hp.
Qed.

End IndexFacts.

Lemma generate_package_index_page_witness :
  let w := mirror_world [mirror_a]
             [("https://a.example/build_cache/zlib.spec.yaml",
               Content "meta good");
              ("https://a.example/build_cache/signer.key", Content "PUBKEY");
              ("https://a.example/build_cache/linux/zlib.spack",
               Content "bundle good")] in
  let run := generate_package_index "https://a.example/build_cache" w in
  fs run.2 = fs w ∧
  is_Some (remote run.2 !! url_join "https://a.example/build_cache" "index.html").
Proof.
  intros w.
  destruct (generate_package_index_page "https://a.example/build_cache" w)
    as (Hfs & Hok).
  split; [exact Hfs |].
  destruct Hok as [Hrem _]; [subst w; evaluates |].
  rewrite Hrem, lookup_insert_eq. by eexists.
Defined.

Example toy_index_lists_metadata_and_keys :
  filter (λ entry, endswith entry ".yaml" || endswith entry ".key" = true)
    (child_names "https://a.example/build_cache"
       ["https://a.example/build_cache/zlib.spec.yaml";
        "https://a.example/build_cache/signer.key";
        "https://a.example/build_cache/linux/zlib.spack";
        "https://a.example/build_cache/index.html"]) =
  ["zlib.spec.yaml"; "signer.key"].
Proof. vm_compute. reflexivity. Qed.

(** ** The report of check_specs_against_mirrors *)

Section ReportFacts.
Context (X : Externals).

#[local] Arguments String.append : simpl never.
#[local] Arguments tarball_name : simpl never.
#[local] Arguments os_path_join : simpl never.

#[local] Instance reads_only_preorder : PreOrder reads_only.
Proof.
  split; [done |]. intros x y z [? ?] [? ?]. split; congruence.
Qed.

Lemma tty_step_reads_only w w' : tty_step w w' → reads_only w w'.
Proof. intros [(Hr & _) Hf]. by split. Qed.

Lemma read_from_url_reads_only url : keeps reads_only (read_from_url url).
Proof. intros w. unfold read_from_url. by repeat case_match. Qed.

Lemma needs_rebuild_frame spec url roe :
  keeps reads_only (needs_rebuild X spec url roe).
Proof.
  pose proof tty_step_reads_only. pose proof read_from_url_reads_only.
  unfold needs_rebuild. frame.
Qed.

Lemma collect_rebuilds_frame mirrors specs roe :
  keeps reads_only (collect_rebuilds X mirrors specs roe).
Proof.
  pose proof tty_step_reads_only. pose proof needs_rebuild_frame.
  unfold collect_rebuilds. frame.
Qed.

(** X12.  [check_specs_against_mirrors] never changes a mirror, and the
    only local change it can make is the report file.  When the scan of the
    mirrors raises, the exception goes through and nothing is written.  A
    run that returns has scanned all mirrors first, and then a non-empty
    [output_file] holds the JSON text of the report, also when the report
    is empty. *)
Theorem check_specs_against_mirrors_output (mirrors : list Mirror)
  (specs : list Spec) (output_file : option string) (roe : bool) (w : world) :
  let scan := collect_rebuilds X mirrors specs roe w in
  let run := check_specs_against_mirrors X mirrors specs output_file roe w in
  remote run.2 = remote w ∧
  (∀ e, scan.1 = Raise e → run.1 = Raise e ∧ fs run.2 = fs w) ∧
  (∀ code, run.1 = Ok code →
     ∃ rebuilds,
       scan.1 = Ok rebuilds ∧
       fs run.2 =
       match output_file with
       | Some f => if String.eqb f "" then fs w
                   else <[f := File (json_dumps X rebuilds)]> (fs w)
       | None => fs w
       end).
Proof.
  cbv zeta. unfold check_specs_against_mirrors.
  destruct (collect_rebuilds_frame mirrors specs roe w) as [Hf Hr].
  destruct (collect_rebuilds X mirrors specs roe w) as [[rebuilds | e] w1]
    eqn:E; simpl in *.
  - rewrite (bind_ok _ _ _ _ _ E). unfold bind, write_file, ret.
    split; [| split; [done |]].
    + destruct output_file as [f |]; [destruct (String.eqb f "") |]; simpl;
        by rewrite ?Hr.
    + intros code _. exists rebuilds. split; [done |].
      destruct output_file as [f |]; [destruct (String.eqb f "") |]; simpl;
        by rewrite ?Hf.
  - rewrite (bind_raise _ _ _ _ _ E). simpl.
    split; [done |]. split; [by intros ? [= <-] | done].
Qed.

End ReportFacts.

(** ** What build_tarball publishes *)

Section ArtifactFacts.
Context (X : Externals).

#[local] Arguments String.append : simpl never.
#[local] Arguments tarball_name : simpl never.
#[local] Arguments tarball_directory_name : simpl never.
#[local] Arguments tarball_path_name : simpl never.
#[local] Arguments os_path_join : simpl never.
#[local] Arguments os_path_basename : simpl never.
#[local] Arguments build_cache_prefix : simpl never.
#[local] Arguments fs_exists : simpl never.
#[local] Arguments remote_spackfile_path : simpl never.
#[local] Arguments remote_specfile_path : simpl never.
#[local] Arguments sha256_of : simpl never.

Lemma write_file_inv p c w w' :
  write_file p c w = (Ok tt, w') → fs w' = <[p := File c]> (fs w).
Proof. unfold write_file. by intros [= <-]. Qed.

Lemma read_file_inv p w c w' :
  read_file p w = (Ok c, w') → fs w !! p = Some (File c) ∧ w' = w.
Proof.
  unfold read_file. destruct (fs w !! p) as [[c' | | t] |]; try discriminate.
  by intros [= <- <-].
Qed.

Lemma os_remove_inv p w w' :
  os_remove p w = (Ok tt, w') →
  is_Some (fs w !! p) ∧ fs w' = delete p (fs w).
Proof.
  unfold os_remove. destruct (fs w !! p) as [[c' | | t] |]; try discriminate;
    by intros [= <-].
Qed.

Lemma checksum_tarball_inv file w c w' :
  checksum_tarball X file w = (Ok c, w') →
  ∃ content, fs w !! file = Some (File content) ∧
             c = sha256_of X content ∧ w' = w.
Proof.
  unfold checksum_tarball. intros H.
  apply bind_ok_inv in H as (content & w1 & Hr & H).
  apply read_file_inv in Hr as [Hr ->]. injection H as <- <-. eauto.
Qed.

Lemma py_setitem_inv v k x w v' w' :
  py_setitem v k x w = (Ok v', w') →
  ∃ m, v = YMap m ∧ v' = YMap (assoc_set k x m) ∧ w' = w.
Proof.
  destruct v; simpl; try discriminate. intros [= <- <-]. eauto.
Qed.

Lemma sign_tarball_ok_fs key force p w w' :
  sign_tarball X key force p w = (Ok tt, w') →
  ∃ sig, fs w' = <[p +:+ ".asc" := File sig]> (fs w).
Proof.
  unfold sign_tarball. intros H.
  apply bind_ok_inv in H as (gpg & w1 & [= <- <-] & H).
  apply bind_ok_inv in H as (k & w1 & Hk & H).
  assert (w1 = w) as ->.
  { revert Hk. unfold Gpg_signing_keys. unfold_py.
    repeat case_match; intros; simplify_eq; done. }
  clear Hk.
  apply bind_ok_inv in H as (asc & w1 & [= <- <-] & H).
  apply bind_ok_inv in H as ([] & w1 & Hg & H).
  unfold Gpg_sign in H.
  destruct (fs w1 !! p) as [[c | | t] |]; try discriminate.
  destruct (gpg_signature X k c) as [e | sig]; [discriminate |].
  injection H as <-. exists sig. simpl.
  destruct (fs_exists (p +:+ ".asc") (fs w)).
  - destruct force; [| discriminate].
    apply os_remove_inv in Hg as [_ ->]. apply insert_delete_eq.
  - by injection Hg as <-.
Qed.

(** A lookup that succeeds below deletions is not at a deleted name. *)
Ltac gone H :=
  repeat match type of H with
  | context [delete ?k ?m !! ?s] =>
      let E := fresh "E" in
      destruct (decide (k = s)) as [E | E];
      [ exfalso; rewrite E, lookup_delete_eq in H;
        first [ discriminate H | by destruct H ]
      | rewrite (lookup_delete_ne m k s E) in H ]
  end.

Lemma build_package_artifacts spec outdir tmpdir force rel unsigned allow_root
  key u1 u2 w w2 w3 w4 :
  build_package X spec outdir tmpdir force rel unsigned allow_root key w =
    (Ok tt, w2) →
  push_to_url
    (os_path_join (build_cache_prefix tmpdir) (tarball_path_name spec ".spack"))
    u1 w2 = (Ok tt, w3) →
  push_to_url
    (os_path_realpath X
       (os_path_join (build_cache_prefix tmpdir)
          (tarball_name spec ".spec.yaml")))
    u2 w3 = (Ok tt, w4) →
  ∃ payload d signature,
    fs w2 !! os_path_join (build_cache_prefix tmpdir)
               (tarball_path_name spec ".spack") =
      Some (File (tar_write X
                    ([(tarball_name spec ".tar.gz", File payload);
                      (tarball_name spec ".spec.yaml",
                       File (syaml_dump X (YMap d)))] ++ signature))) ∧
    fs w3 !! os_path_realpath X
               (os_path_join (build_cache_prefix tmpdir)
                  (tarball_name spec ".spec.yaml")) =
      Some (File (syaml_dump X (YMap d))) ∧
    assoc "binary_cache_checksum" d =
      Some (YMap [("hash_algorithm", YStr "sha256");
                  ("hash", YStr (sha256_of X payload))]) ∧
    assoc "buildinfo" d =
      Some (YMap [("relative_prefix",
                   YStr (os_path_relpath X (prefix spec) (layout_root X)))]) ∧
    assoc "full_hash" d = Some (YStr (full_hash spec)) ∧
    (if unsigned then signature = []
     else ∃ sig, signature =
                   [(tarball_name spec ".spec.yaml" +:+ ".asc", File sig)]).
Proof.
  intros H Hpush1 Hpush2. unfold build_package in H. cbv zeta in H.
  set (tarfile_path := os_path_join (os_path_join (build_cache_prefix tmpdir)
                                       (tarball_directory_name spec))
                         (tarball_name spec ".tar.gz")) in *.
  set (spackfile_path := os_path_join (build_cache_prefix tmpdir)
                           (tarball_path_name spec ".spack")) in *.
  set (specfile_path := os_path_realpath X
                          (os_path_join (build_cache_prefix tmpdir)
                             (tarball_name spec ".spec.yaml"))) in *.
  apply bind_ok_inv in H as (tmp2 & wa & _ & H).
  apply bind_ok_inv in H as ([] & wb & _ & H).
  apply bind_ok_inv in H as ([] & wc & _ & H).
  apply bind_ok_inv in H as ([] & wd & _ & H).
  apply bind_ok_inv in H as ([] & we & _ & H).
  apply bind_ok_inv in H as ([] & wf & _ & H).
  apply bind_ok_inv in H as (checksum & w7 & Hsum & H).
  apply checksum_tarball_inv in Hsum as (payload & Hpayload & -> & ->).
  apply bind_ok_inv in H as (content & w8 & Hc & H).
  apply read_file_inv in Hc as [_ ->].
  apply bind_ok_inv in H as (d0 & w9 & Hy & H).
  assert (w9 = wf) as ->.
  { unfold lift_outcome, raise, ret in Hy.
    destruct (yaml_load X content); by simplify_eq. }
  clear Hy.
  apply bind_ok_inv in H as (d1 & w10 & Hs1 & H).
  apply py_setitem_inv in Hs1 as (m0 & -> & -> & ->).
  apply bind_ok_inv in H as (d2 & w11 & Hs2 & H).
  apply py_setitem_inv in Hs2 as (m1 & [= <-] & -> & ->).
  apply bind_ok_inv in H as (d3 & w12 & Hs3 & H).
  apply py_setitem_inv in Hs3 as (m2 & [= <-] & -> & ->).
  match type of H with
  | context [syaml_dump X (YMap ?m)] => set (d := m) in *
  end.
  apply bind_ok_inv in H as ([] & w13 & [= <-] & H).
  apply bind_ok_inv in H as ([] & w14 & [= <-] & H).
  apply bind_ok_inv in H as ([] & w15 & Hw & H).
  apply write_file_inv in Hw. simpl in Hw.
  apply bind_ok_inv in H as ([] & w16 & Hsign & H).
  apply bind_ok_inv in H as (tarball & w17 & Ht & H).
  apply read_file_inv in Ht as [Ht ->].
  apply bind_ok_inv in H as (specfile & w18 & Hsp & H).
  apply read_file_inv in Hsp as [Hsp ->].
  apply bind_ok_inv in H as (signature & w19 & Hsig & H).
  apply bind_ok_inv in H as ([] & w20 & Hwa & H).
  apply write_file_inv in Hwa.
  apply bind_ok_inv in H as ([] & w21 & Hrm & H).
  apply os_remove_inv in Hrm as [_ Hrm].
  apply push_to_url_ok in Hpush2 as (b2 & Hb2 & _ & _).
  unfold push_to_url in Hpush1.
  apply bind_ok_inv in Hpush1 as (b1 & w2' & Hb1 & Hpush1).
  apply read_file_inv in Hb1 as [Hb1 ->].
  apply bind_ok_inv in Hpush1 as ([] & w2' & [= <-] & Hpush1).
  apply os_remove_inv in Hpush1 as [_ Hfs3]. simpl in Hfs3.
  assert (Hasc : specfile_path +:+ ".asc" ≠ specfile_path)
    by (by apply string_app_ne).
  (* the state of the scratch files when the archive is assembled *)
  assert (Hfs16 : if unsigned then fs w16 = fs w15 ∧ w19 = w16 ∧ signature = [] ∧ w2 = w21
                  else ∃ sig sig', fs w16 = <[specfile_path +:+ ".asc" := File sig]> (fs w15) ∧
                         fs w19 = fs w16 ∧
                         signature = [(tarball_name spec ".spec.yaml" +:+ ".asc", File sig')] ∧
                         is_Some (fs w21 !! (specfile_path +:+ ".asc")) ∧
                         fs w2 = delete (specfile_path +:+ ".asc") (fs w21)).
  { destruct unsigned; simpl in *.
    - injection Hsign as <-. injection Hsig as <- <-. by injection H as <-.
    - apply sign_tarball_ok_fs in Hsign as [sig Hsign].
      apply bind_ok_inv in Hsig as (sig' & w' & Hr & [= <- <-]).
      apply read_file_inv in Hr as [_ ->].
      apply os_remove_inv in H as [Hsome H]. eauto 10. }
  assert (Hd : assoc "binary_cache_checksum" d =
                 Some (YMap [("hash_algorithm", YStr "sha256");
                             ("hash", YStr (sha256_of X payload))]) ∧
               assoc "buildinfo" d =
                 Some (YMap [("relative_prefix",
                              YStr (os_path_relpath X (prefix spec)
                                      (layout_root X)))]) ∧
               assoc "full_hash" d = Some (YStr (full_hash spec))).
  { subst d. rewrite assoc_set_eq.
    rewrite (assoc_set_ne "full_hash" "buildinfo") by done.
    rewrite assoc_set_eq.
    rewrite (assoc_set_ne "full_hash" "binary_cache_checksum") by done.
    rewrite (assoc_set_ne "buildinfo" "binary_cache_checksum") by done.
    by rewrite assoc_set_eq. }
  clearbody tarfile_path spackfile_path specfile_path d.
  pose proof Hb2 as Hspec. pose proof Hb1 as Hpack.
  rewrite Hfs3 in Hb2. clear Hfs3 w4 H Hsign Hsig.
  exists payload, d, signature.
  destruct unsigned.
  - destruct Hfs16 as (H16 & -> & -> & ->).
    rewrite Hrm, Hwa, H16, Hw in Hb2, Hb1. rewrite H16, Hw in Ht, Hsp.
    gone Hb2. gone Hb1.
    rewrite lookup_insert_eq in Hb1.
    rewrite lookup_insert_ne, lookup_insert_eq in Hb2 by done.
    rewrite lookup_insert_eq in Hsp.
    rewrite lookup_insert_ne in Ht by done.
    simplify_eq. destruct Hd as (? & ? & ?). by repeat split.
  - destruct Hfs16 as (sig & sig' & H16 & H19 & -> & Hsome & H2).
    rewrite H2, Hrm, Hwa, H19, H16, Hw in Hb2, Hb1.
    rewrite Hrm, Hwa, H19, H16, Hw in Hsome. rewrite H16, Hw in Ht, Hsp.
    gone Hb2. gone Hb1. gone Hsome.
    rewrite lookup_insert_eq in Hb1.
    rewrite !lookup_insert_ne, lookup_insert_eq in Hb2 by done.
    rewrite lookup_insert_ne, lookup_insert_eq in Hsp by done.
    rewrite !lookup_insert_ne in Ht by done.
    simplify_eq. destruct Hd as (? & ? & ?). repeat split; eauto.
Qed.

Lemma build_tarball_ok_inv spec outdir force rel unsigned allow_root key
  regenerate_index w w' :
  build_tarball X spec outdir force rel unsigned allow_root key
    regenerate_index w = (Ok tt, w') →
  concrete spec = true ∧
  ∃ tmpdir payload d signature w2 index,
    let metadata := syaml_dump X (YMap d) in
    let archive :=
      tar_write X ([(tarball_name spec ".tar.gz", File payload);
                    (tarball_name spec ".spec.yaml", File metadata)] ++
                   signature) in
    calls w' =
      calls w2 ++
      [PushUrl (remote_spackfile_path X spec outdir tmpdir) archive;
       PushUrl (remote_specfile_path X spec outdir tmpdir) metadata] ++ index ∧
    (∃ before, calls w2 = calls w ++ before) ∧
    assoc "binary_cache_checksum" d =
      Some (YMap [("hash_algorithm", YStr "sha256");
                  ("hash", YStr (sha256_of X payload))]) ∧
    assoc "buildinfo" d =
      Some (YMap [("relative_prefix",
                   YStr (os_path_relpath X (prefix spec) (layout_root X)))]) ∧
    assoc "full_hash" d = Some (YStr (full_hash spec)) ∧
    (if unsigned then signature = []
     else ∃ sig, signature =
                   [(tarball_name spec ".spec.yaml" +:+ ".asc", File sig)]) ∧
    (regenerate_index = false →
     remote w' =
       <[remote_specfile_path X spec outdir tmpdir := Content metadata]>
         (<[remote_spackfile_path X spec outdir tmpdir := Content archive]>
            (remote w2))) ∧
    ∃ rest, pick_fresh (fs w) (tmp_supply w) = Some (tmpdir, rest).
Proof.
  unfold build_tarball. intros H.
  apply bind_ok_inv in H as (tmpdir & w1 & Hg & H).
  apply bind_ok_inv in H as ([] & w2 & Hpk & H).
  split.
  { unfold build_guard in Hg.
    destruct (concrete spec); [done | discriminate]. }
  unfold build_publish in H.
  apply bind_ok_inv in H as ([] & w3 & Hp1 & H).
  apply bind_ok_inv in H as ([] & w4 & Hp2 & H).
  destruct (build_package_artifacts _ _ _ _ _ _ _ _ _ _ _ _ _ _ Hpk Hp1 Hp2)
    as (payload & d & signature & Hpack & Hspec & Hd1 & Hd2 & Hd3 & Hsig).
  apply push_to_url_ok in Hp1 as (b1 & Hb1 & Hc1 & Hr1).
  apply push_to_url_ok in Hp2 as (b2 & Hb2 & Hc2 & Hr2).
  rewrite Hpack in Hb1. rewrite Hspec in Hb2. simplify_eq.
  assert (Hk : keeps (extends_calls not_RemoveUrl)
                 (try_finally
                    (if regenerate_index
                     then generate_package_index
                            (url_join outdir
                               (os_path_relpath X (build_cache_prefix tmpdir)
                                  tmpdir))
                     else ret ())
                    (shutil_rmtree tmpdir))).
  { pose proof generate_package_index_frame. frame. }
  destruct (Hk w4) as (index & Hci & _). rewrite H in Hci. simpl in Hci.
  assert (Hbefore : ∃ before, calls w2 = calls w ++ before).
  { destruct (build_package_frame X spec outdir tmpdir force rel unsigned
                allow_root key w1) as (signing & Hcs & _).
    rewrite Hpk in Hcs. simpl in Hcs.
    assert (Hkg : keeps (extends_calls (λ _, True))
                    (build_guard X spec outdir force)).
    { unfold build_guard.
      assert (Hrm : ∀ u, keeps (extends_calls (λ _, True)) (remove_url u)).
      { intros u w0. eexists [_]. split; [reflexivity | by repeat constructor]. }
      frame. }
    destruct (Hkg w) as (removals & Hcg & _). rewrite Hg in Hcg. simpl in Hcg.
    exists (removals ++ signing). by rewrite Hcs, Hcg, app_assoc. }
  exists tmpdir, payload, d, signature, w2, index. cbv zeta.
  split; [by rewrite Hci, Hc2, Hc1, <- !app_assoc |].
  split; [done |]. do 4 (split; [done |]). split.
  - intros ->. unfold try_finally, shutil_rmtree, ret in H.
    destruct (fs_exists tmpdir (fs w4)); simplify_eq; simpl;
      by rewrite Hr2, Hr1.
  - unfold build_guard in Hg. destruct (concrete spec); [| discriminate].
    simpl in Hg. apply bind_ok_inv in Hg as (t & w0 & Hmk & Hg).
    assert (t = tmpdir) as ->.
    { clear -Hg. repeat (apply bind_ok_inv in Hg as (? & ? & _ & Hg)).
      by injection Hg. }
    unfold mkdtemp in Hmk.
    destruct (pick_fresh (fs w) (tmp_supply w)) as [[p r] |];
      [| discriminate].
    injection Hmk as -> _. eauto.
Qed.

(** X13.  What a successful [build_tarball] publishes is consistent: the
    metadata file pushed is the one packed into the archive; its
    ['binary_cache_checksum'] is the SHA-256 digest of the payload packed
    beside it, its ['full_hash'] is the full hash of the spec and its
    ['buildinfo'] records the install prefix relative to the layout root;
    the archive carries a signature exactly when [unsigned] is not set. *)
Theorem build_tarball_artifacts (spec : Spec) (outdir : string)
  (force rel unsigned allow_root : bool) (key : option string)
  (regenerate_index : bool) (w w' : world) :
  build_tarball X spec outdir force rel unsigned allow_root key
    regenerate_index w = (Ok tt, w') →
  ∃ tmpdir payload d signature before index,
    let metadata := syaml_dump X (YMap d) in
    let archive :=
      tar_write X ([(tarball_name spec ".tar.gz", File payload);
                    (tarball_name spec ".spec.yaml", File metadata)] ++
                   signature) in
    calls w' =
      calls w ++ before ++
      [PushUrl (remote_spackfile_path X spec outdir tmpdir) archive;
       PushUrl (remote_specfile_path X spec outdir tmpdir) metadata] ++ index ∧
    assoc "binary_cache_checksum" d =
      Some (YMap [("hash_algorithm", YStr "sha256");
                  ("hash", YStr (sha256_of X payload))]) ∧
    assoc "buildinfo" d =
      Some (YMap [("relative_prefix",
                   YStr (os_path_relpath X (prefix spec) (layout_root X)))]) ∧
    assoc "full_hash" d = Some (YStr (full_hash spec)) ∧
    (if unsigned then signature = []
     else ∃ sig, signature =
                   [(tarball_name spec ".spec.yaml" +:+ ".asc", File sig)]).
Proof.
  intros H. apply build_tarball_ok_inv in H as [_ H].
  destruct H as (tmpdir & payload & d & signature & w2 & index & Hc &
                 [before Hb] & Hd1 & Hd2 & Hd3 & Hsig & _ & _).
  exists tmpdir, payload, d, signature, before, index. cbv zeta.
  split; [| done]. rewrite Hc, Hb. by rewrite <- app_assoc.
Qed.

(** X14.  Publishing and checking agree.  Suppose that reading back what
    [syaml.dump] wrote keeps the ['full_hash'] entry, and that the metadata
    file is pushed to the URL that [needs_rebuild] reads.  Then a spec that
    [build_tarball] has just published to a mirror does not need a rebuild
    on that mirror, whatever [rebuild_on_errors] is. *)
Theorem build_tarball_then_needs_rebuild (spec : Spec) (outdir : string)
  (force rel unsigned allow_root : bool) (key : option string)
  (roe : bool) (w w' : world) (tmpdir : string) (rest : list string) :
  (∀ d h, assoc "full_hash" d = Some (YStr h) →
          syaml_dump X (YMap d) ≠ "" ∧
          ∃ d', syaml_load X (syaml_dump X (YMap d)) = inr (YMap d') ∧
                assoc "full_hash" d' = Some (YStr h)) →
  pick_fresh (fs w) (tmp_supply w) = Some (tmpdir, rest) →
  remote_specfile_path X spec outdir tmpdir = spec_yaml_url spec outdir →
  build_tarball X spec outdir force rel unsigned allow_root key false w =
    (Ok tt, w') →
  (needs_rebuild X spec outdir roe w').1 = Ok false.
Proof.
  intros Hyaml Hp Hurl H. apply build_tarball_ok_inv in H as [Hc H].
  destruct H as (tmpdir' & payload & d & signature & w2 & index & _ & _ &
                 _ & _ & Hd3 & _ & Hrem & rest' & Hp').
  rewrite Hp in Hp'. injection Hp' as <- <-.
  specialize (Hrem eq_refl).
  destruct (Hyaml d (full_hash spec) Hd3) as (Hne & d' & Hload & Hd').
  eapply needs_rebuild_match; [done | | done | done | done].
  rewrite Hrem, <- Hurl. apply lookup_insert_eq.
Qed.

End ArtifactFacts.

Lemma build_tarball_artifacts_witness :
  let w := build_world [] in
  let w' := (build_tarball toy zlib "https://a.example" false false true false
               None false w).2 in
  ∃ tmpdir payload d signature before index,
    let metadata := syaml_dump toy (YMap d) in
    let archive :=
      tar_write toy ([(tarball_name zlib ".tar.gz", File payload);
                      (tarball_name zlib ".spec.yaml", File metadata)] ++
                     signature) in
    calls w' =
      calls w ++ before ++
      [PushUrl (remote_spackfile_path toy zlib "https://a.example" tmpdir)
         archive;
       PushUrl (remote_specfile_path toy zlib "https://a.example" tmpdir)
         metadata] ++ index ∧
    assoc "binary_cache_checksum" d =
      Some (YMap [("hash_algorithm", YStr "sha256");
                  ("hash", YStr (sha256_of toy payload))]) ∧
    assoc "buildinfo" d =
      Some (YMap [("relative_prefix",
                   YStr (os_path_relpath toy (prefix zlib) (layout_root toy)))]) ∧
    assoc "full_hash" d = Some (YStr (full_hash zlib)) ∧
    signature = [].
Proof.
  intros w w'.
  apply (build_tarball_artifacts toy zlib "https://a.example" false false true
           false None false w w').
  subst w' w. stage_runs.
Defined.

Lemma build_tarball_then_needs_rebuild_witness :
  let w := build_world [] in
  let w' := (build_tarball toy_hashed zlib "https://a.example" false false
               true false None false w).2 in
  (needs_rebuild toy_hashed zlib "https://a.example" true w').1 = Ok false.
Proof.
  intros w w'.
  apply (build_tarball_then_needs_rebuild toy_hashed zlib "https://a.example"
           false false true false None true w w' "/tmp/t1"
           ["/tmp/t2"; "/tmp/t3"]).
  - intros d h Hd. simpl. rewrite Hd. split; [done |].
    exists [("full_hash", YStr h)]. split; [| done].
    by vm_compute.
  - reflexivity.
  - evaluates.
  - subst w' w. stage_runs.
Defined.

(** ** Publishing, then downloading *)

#[local] Instance same_mirrors_preorder : PreOrder same_mirrors.
Proof. split; [done |]. intros x y z; unfold same_mirrors; congruence. Qed.

Lemma string_app_inv_head (a x y : string) : a +:+ x = a +:+ y → x = y.
Proof.
  induction a as [| c a IH]; [done |].
  rewrite !string_app_cons. intros [= H]. by apply IH.
Qed.

(** The archive and the metadata file of a spec have different URLs. *)
Lemma archive_url_ne_spec_yaml_url (spec : Spec) (m : Mirror) :
  archive_url spec m ≠ spec_yaml_url spec (fetch_url m).
Proof.
  unfold archive_url, spec_yaml_url, url_join, os_path_join,
    build_cache_prefix, build_cache_relative_path, tarball_path_name,
    os_path_join, tarball_directory_name, tarball_name.
  intros H. do 2 apply string_app_inv_head in H.
  rewrite !string_app_assoc in H.
  apply string_app_inv_head in H. discriminate H.
Qed.

Section RoundTrip.
Context (X : Externals).

#[local] Arguments String.append : simpl never.
#[local] Arguments tarball_name : simpl never.
#[local] Arguments tarball_path_name : simpl never.
#[local] Arguments url_join : simpl never.
#[local] Arguments remote_spackfile_path : simpl never.
#[local] Arguments remote_specfile_path : simpl never.

Lemma local_step_same_mirrors w w' : local_step w w' → same_mirrors w w'.
Proof. by intros (_ & _ & H & _). Qed.

Lemma tty_step_same_mirrors w w' : tty_step w w' → same_mirrors w w'.
Proof. intros H. by apply local_step_same_mirrors, tty_step_local. Qed.

Lemma build_tarball_mirrors spec outdir force rel unsigned allow_root key
  regenerate_index :
  keeps same_mirrors
    (build_tarball X spec outdir force rel unsigned allow_root key
       regenerate_index).
Proof.
  pose proof local_step_same_mirrors. pose proof tty_step_same_mirrors.
  assert (Hrm : ∀ u, keeps same_mirrors (remove_url u)) by (by intros u w).
  assert (Hpush : ∀ l u, keeps same_mirrors (push_to_url l u)).
  { intros l u. unfold push_to_url. frame. by intros w. }
  assert (Hlist : ∀ u, keeps same_mirrors (list_url u)) by (by intros u w).
  assert (Hsign : ∀ k f o, keeps same_mirrors (Gpg_sign X k f o)).
  { intros k f o w. unfold Gpg_sign. by repeat case_match. }
  pose proof (checksum_tarball_frame X).
  pose proof (tar_add_tree_frame X).
  pose proof (write_buildinfo_file_frame X).
  pose proof (make_package_relative_frame X).
  pose proof (make_package_placeholder_frame X).
  assert (Hst : ∀ k f p, keeps same_mirrors (sign_tarball X k f p))
    by (intros; unfold sign_tarball; frame).
  assert (Hidx : ∀ c, keeps same_mirrors (generate_package_index c))
    by (intros; unfold generate_package_index; frame).
  unfold build_tarball, build_guard, build_package, build_publish. frame.
Qed.

(** X15.  Publishing and downloading agree on the name of the archive.
    When the two artifacts are pushed to the URLs that the readers use,
    [download_tarball] run after a successful [build_tarball] to the first
    configured mirror stages exactly the archive that was pushed. *)
Theorem build_tarball_then_download (spec : Spec) (m : Mirror)
  (others : list Mirror) (force rel unsigned allow_root : bool)
  (key : option string) (w w' : world) (tmpdir : string)
  (rest : list string) :
  mirrors w = m :: others →
  pick_fresh (fs w) (tmp_supply w) = Some (tmpdir, rest) →
  remote_spackfile_path X spec (fetch_url m) tmpdir = archive_url spec m →
  remote_specfile_path X spec (fetch_url m) tmpdir =
    spec_yaml_url spec (fetch_url m) →
  build_tarball X spec (fetch_url m) force rel unsigned allow_root key false w
    = (Ok tt, w') →
  ∃ archive,
    PushUrl (archive_url spec m) archive ∈ calls w' ∧
    let run := download_tarball X spec w' in
    run.1 = Ok (Some (stage_save_filename X (archive_url spec m))) ∧
    fs run.2 !! stage_save_filename X (archive_url spec m) =
      Some (File archive).
Proof.
  intros Hm Hp Hu1 Hu2 H.
  pose proof (build_tarball_mirrors spec (fetch_url m) force rel unsigned
                allow_root key false w) as Hmir.
  rewrite H in Hmir. unfold same_mirrors in Hmir. simpl in Hmir.
  apply build_tarball_ok_inv in H as [_ H].
  destruct H as (tmpdir' & payload & d & signature & w2 & index & Hc & _ &
                 _ & _ & _ & _ & Hrem & rest' & Hp').
  rewrite Hp in Hp'. injection Hp' as <- <-.
  specialize (Hrem eq_refl). rewrite Hu1, Hu2 in *.
  eexists. split.
  { rewrite Hc. apply elem_of_app. right. apply list_elem_of_here. }
  cbv zeta. rewrite download_tarball_configured by (rewrite Hmir, Hm; done).
  rewrite Hmir, Hm.
  destruct (download_tarball_from_first X spec [] m others
              (tar_write X
                 ([(tarball_name spec ".tar.gz", File payload);
                   (tarball_name spec ".spec.yaml",
                    File (syaml_dump X (YMap d)))] ++ signature)) w')
    as (Hr & Hf & _).
  - intros m' Hm'. by apply elem_of_nil in Hm'.
  - rewrite Hrem. rewrite lookup_insert_ne
      by (apply not_eq_sym, archive_url_ne_spec_yaml_url).
    apply lookup_insert_eq.
  - by split.
Qed.

End RoundTrip.

Lemma build_tarball_then_download_witness :
  let w := build_world [] in
  let w' := (build_tarball toy zlib (fetch_url mirror_a) false false true
               false None false w).2 in
  ∃ archive,
    PushUrl (archive_url zlib mirror_a) archive ∈ calls w' ∧
    let run := download_tarball toy zlib w' in
    run.1 = Ok (Some (stage_save_filename toy (archive_url zlib mirror_a))) ∧
    fs run.2 !! stage_save_filename toy (archive_url zlib mirror_a) =
      Some (File archive).
Proof.
  intros w w'.
  apply (build_tarball_then_download toy zlib mirror_a [] false false true
           false None w w' "/tmp/t1" ["/tmp/t2"; "/tmp/t3"]);
    [reflexivity | reflexivity | evaluates | evaluates | ].
  subst w' w. stage_runs.
Defined.

(** ** write_buildinfo_file *)

Section BuildinfoFacts.
Context (X : Externals).

#[local] Arguments String.append : simpl never.
#[local] Arguments os_path_join : simpl never.
#[local] Arguments buildinfo_file_name : simpl never.
#[local] Arguments startswith : simpl never.
#[local] Arguments endswith : simpl never.

Lemma for_fold_total {A S : Type} (l : list A) (body : A → S → M S)
  (R : world → world → Prop) `{!PreOrder R} :
  (∀ x s w, ∃ s' w', body x s w = (Ok s', w') ∧ R w w') →
  ∀ s w, ∃ s' w', for_fold l s body w = (Ok s', w') ∧ R w w'.
Proof.
  intros Hb. induction l as [| x l IH]; intros s w; simpl.
  - exists s, w. split; [done | reflexivity].
  - destruct (Hb x s w) as (s1 & w1 & Hx & Hr1).
    destruct (IH s1 w1) as (s2 & w2 & Hl & Hr2).
    exists s2, w2. unfold bind. rewrite Hx. split; [done |].
    by etransitivity.
Qed.

(** The walk over the prefix cannot fail and changes the terminal only;
    what is left of [write_buildinfo_file] is the write of the file. *)
Lemma write_buildinfo_file_scan (prefix workdir : string) (rel : bool)
  (w : world) :
  ∃ text binaries links w1,
    tty_step w w1 ∧
    write_buildinfo_file X prefix workdir rel w =
    write_file (buildinfo_file_name workdir)
      (syaml_dump X
         (YMap [("relative_rpaths", YBool rel);
                ("buildpath", YStr (layout_root X));
                ("spackprefix", YStr (spack_prefix X));
                ("relative_prefix",
                 YStr (os_path_relpath X prefix (layout_root X)));
                ("relocate_textfiles", YSeq (map YStr text));
                ("relocate_binaries", YSeq (map YStr binaries));
                ("relocate_links", YSeq (map YStr links))])) w1.
Proof.
  unfold write_buildinfo_file. unfold bind at 1.
  match goal with
  | |- context [for_fold ?l ?s0 ?body] =>
      assert (Hloop : ∃ s' w', for_fold l s0 body w = (Ok s', w') ∧
                               tty_step w w');
        [apply (for_fold_total l body tty_step) |
         destruct Hloop as ([[text binaries] links] & w1 & Hrun & Hstep)]
  end.
  { intros [[path_name filename] x] [[t b] l] w0.
    unfold bind at 1. simpl.
    destruct (mime_type X (fs w0) path_name) as [m_type m_subtype].
    destruct x as [c | | link]; unfold bind, ret, tty_warn; simpl;
      try (eexists _, _; split; [reflexivity | reflexivity]).
    destruct (startswith link "/"); [destruct (startswith link (layout_root X)) |];
      simpl; eexists _, _; (split; [reflexivity |]);
      first [reflexivity | by repeat split]. }
  exists text, binaries, links, w1. split; [done |].
  unfold bind at 1. simpl in Hrun. by rewrite Hrun.
Qed.

(** X16.  A run of [write_buildinfo_file] that returns has written one
    file, the build information of [workdir]: a mapping that records [rel]
    as ['relative_rpaths'], the layout root as ['buildpath'], the Spack
    prefix and the prefix relative to the layout root, with three lists of
    file names to relocate.  Nothing else of the local tree has changed, and
    no mirror was contacted. *)
Theorem write_buildinfo_file_records (prefix workdir : string) (rel : bool)
  (w w' : world) :
  write_buildinfo_file X prefix workdir rel w = (Ok tt, w') →
  ∃ text binaries links,
    fs w' =
      <[buildinfo_file_name workdir :=
          File (syaml_dump X
                  (YMap [("relative_rpaths", YBool rel);
                         ("buildpath", YStr (layout_root X));
                         ("spackprefix", YStr (spack_prefix X));
                         ("relative_prefix",
                          YStr (os_path_relpath X prefix (layout_root X)));
                         ("relocate_textfiles", YSeq (map YStr text));
                         ("relocate_binaries", YSeq (map YStr binaries));
                         ("relocate_links", YSeq (map YStr links))]))]>
        (fs w) ∧
    remote w' = remote w ∧ calls w' = calls w.
Proof.
  intros H.
  destruct (write_buildinfo_file_scan prefix workdir rel w)
    as (text & binaries & links & w1 & Hstep & Hrun).
  rewrite Hrun in H. unfold write_file in H. injection H as <-.
  destruct Hstep as [(Hr & Hc & _) Hf].
  exists text, binaries, links. simpl. rewrite Hf.
  by repeat split.
Qed.

(** X17.  A package built with relative paths is not relocated when it is
    installed.  If reading back the build information that
    [write_buildinfo_file] wrote keeps its ['buildpath'] entry and a true
    ['relative_rpaths'], then [relocate_package] on that directory does
    nothing: no message, no relocation primitive run, the world
    unchanged. *)
Theorem relative_package_not_relocated (prefix workdir : string)
  (spec : Spec) (allow_root : bool) (w w' : world) :
  (∀ doc, assoc "relative_rpaths" doc = Some (YBool true) →
          assoc "buildpath" doc = Some (YStr (layout_root X)) →
          ∃ doc' old rel,
            yaml_load X (syaml_dump X (YMap doc)) = inr (YMap doc') ∧
            assoc "buildpath" doc' = Some old ∧
            assoc "relative_rpaths" doc' = Some rel ∧
            py_truthy rel = true) →
  write_buildinfo_file X prefix workdir true w = (Ok tt, w') →
  relocate_package X workdir spec allow_root w' = (Ok tt, w').
Proof.
  intros Hyaml H.
  destruct (write_buildinfo_file_scan prefix workdir true w)
    as (text & binaries & links & w1 & _ & Hrun).
  rewrite Hrun in H. apply write_file_inv in H as Hfs.
  match type of Hfs with
  | _ = <[_ := File (syaml_dump X (YMap ?doc))]> _ =>
      destruct (Hyaml doc) as (doc' & old & rel & Hload & Hold & Hrel & Ht);
        [done | done |]
  end.
  eapply relocate_package_relative_noop; [| exact Hload | done | done | done].
  rewrite Hfs. apply lookup_insert_eq.
Qed.

End BuildinfoFacts.

Lemma write_buildinfo_file_records_witness :
  let w := build_world [] in
  let w' := (write_buildinfo_file toy (prefix zlib) "/tmp/t2/zlib" true w).2 in
  ∃ text binaries links,
    fs w' =
      <[buildinfo_file_name "/tmp/t2/zlib" :=
          File (syaml_dump toy
                  (YMap [("relative_rpaths", YBool true);
                         ("buildpath", YStr (layout_root toy));
                         ("spackprefix", YStr (spack_prefix toy));
                         ("relative_prefix",
                          YStr (os_path_relpath toy (prefix zlib)
                                  (layout_root toy)));
                         ("relocate_textfiles", YSeq (map YStr text));
                         ("relocate_binaries", YSeq (map YStr binaries));
                         ("relocate_links", YSeq (map YStr links))]))]>
        (fs w) ∧
    remote w' = remote w ∧ calls w' = calls w.
Proof.
  intros w w'.
  apply (write_buildinfo_file_records toy (prefix zlib) "/tmp/t2/zlib" true
           w w').
  subst w' w. stage_runs.
Defined.

(** ** The specs of get_specs are concrete *)

#[local] Instance keeps_concrete_preorder : PreOrder keeps_concrete.
Proof.
  split; [by intros x Hx |]. intros x y z; unfold keeps_concrete; auto.
Qed.

Section ConcreteFacts.
Context (X : Externals).

#[local] Arguments String.append : simpl never.
#[local] Arguments fs_exists : simpl never.

Lemma local_step_keeps_concrete w w' : local_step w w' → keeps_concrete w w'.
Proof.
  intros (_ & _ & _ & Hc) Hw l. rewrite Hc. apply Hw.
Qed.

Lemma tty_step_keeps_concrete w w' : tty_step w w' → keeps_concrete w w'.
Proof. intros H. by apply local_step_keeps_concrete, tty_step_local. Qed.

Lemma stage_fetch_concrete link : keeps keeps_concrete (stage_fetch X link).
Proof.
  intros w Hw l. unfold stage_fetch. repeat case_match; simpl; apply Hw.
Qed.

Lemma spider_concrete url : keeps keeps_concrete (spider X url).
Proof. intros w Hw l. simpl. apply Hw. Qed.

Lemma get_specs_load_concrete force link :
  keeps keeps_concrete (get_specs_load X force link).
Proof.
  pose proof local_step_keeps_concrete. pose proof tty_step_keeps_concrete.
  pose proof stage_fetch_concrete. unfold get_specs_load. frame.
  intros sp w Hw l. simpl. intros [= <-].
  apply Forall_app. split; [| constructor; [reflexivity | constructor]].
  destruct (cached_specs w) as [l0 |] eqn:E; simpl; [by apply Hw | constructor].
Qed.

(** X18.  Every spec that [get_specs] returns is concrete, as
    [needs_rebuild] and [build_tarball] require of their argument:
    the specs read from the mirrors are marked concrete before they enter
    the cache, so that a cache holding only concrete specs stays so. *)
Theorem get_specs_concrete (force : bool) (w w' : world) (l : list Spec) :
  cache_concrete w →
  get_specs X force w = (Ok (SpecList l), w') →
  Forall (λ s, concrete s = true) l ∧ cache_concrete w'.
Proof.
  intros Hw H. unfold get_specs in H.
  apply bind_ok_inv in H as (cached & w0 & [= <- <-] & H).
  assert (Hrefresh :
    (configured <- (λ w, (Ok (mirrors w), w)) ;;
     match configured with
     | [] => tty_warn "No Spack mirrors are currently configured" ;;
             ret EmptyDict
     | _ :: _ =>
         urls <- get_specs_urls X configured ;;
         (λ w, (Ok tt, set_cached_specs (Some []) w)) ;;
         for_each (elements urls) (get_specs_load X force) ;;
         cached <- (λ w, (Ok (cached_specs w), w)) ;;
         ret (SpecList (default [] cached))
     end) w = (Ok (SpecList l), w') →
    Forall (λ s, concrete s = true) l ∧ cache_concrete w').
  { clear. intros H.
    apply bind_ok_inv in H as (configured & w0 & [= <- <-] & H).
    destruct (mirrors w) as [| m ms]; [by unfold_py |].
    apply bind_ok_inv in H as (urls & w1 & _ & H).
    apply bind_ok_inv in H as ([] & w2 & [= <-] & H).
    apply bind_ok_inv in H as ([] & w3 & Hloop & H).
    apply bind_ok_inv in H as (c & w4 & [= <- <-] & [= <- <-]).
    pose proof (keeps_for_each keeps_concrete (elements urls)
                  (get_specs_load X force) (get_specs_load_concrete force)
                  (set_cached_specs (Some []) w1)) as Hk.
    rewrite Hloop in Hk. simpl in Hk.
    assert (Hc : cache_concrete w3).
    { apply Hk. intros l0 [= <-]. constructor. }
    split; [| done].
    destruct (cached_specs w3) as [l0 |] eqn:E; simpl; [by apply Hc | constructor]. }
  destruct (cached_specs w) as [[| s0 l0] |] eqn:Hc;
    [by apply Hrefresh | | by apply Hrefresh].
  unfold_py. simplify_eq. split; [by apply Hw |].
  intros l1. simpl. apply Hw.
Qed.

End ConcreteFacts.

Lemma get_specs_concrete_witness :
  let link := "https://mirror.example/build_cache/" +:+ zlib_specfile in
  let w := mirror_world [mirror_a]
             [("https://a.example/build_cache/index.html", Content "index");
              (link, Content "spec zlib")] in
  let w' := (get_specs toy false w).2 in
  Forall (λ s, concrete s = true) [mark_concrete zlib] ∧ cache_concrete w'.
Proof.
  intros link w w'.
  apply (get_specs_concrete toy false w w' [mark_concrete zlib]).
  - intros l Hl. discriminate Hl.
  - subst w' w link. stage_runs.
Defined.

(** ** The pattern for spec files *)

Lemma string_prefix_inv (p s : string) :
  String.prefix p s = true → ∃ r, s = p +:+ r.
Proof.
  revert s. induction p as [| a p IH]; intros s H; [by exists s |].
  destruct s as [| b s]; [done |]. simpl in H.
  destruct (ascii_dec a b) as [-> | ]; [| done].
  destruct (IH s H) as [r ->]. exists r. by rewrite string_app_cons.
Qed.

Lemma matches_spec_yaml_here_iff (s : string) :
  matches_spec_yaml_here s = true ↔
  ∃ c post, s = "spec" +:+ String c ("yaml" +:+ post) ∧ c ≠ ascii_of_nat 10.
Proof.
  unfold matches_spec_yaml_here. split.
  - intros H. apply andb_true_iff in H as [H Hy].
    apply andb_true_iff in H as [Hs Hc].
    apply string_prefix_inv in Hs as [r ->].
    rewrite !string_app_cons in Hc, Hy. simpl in Hc, Hy.
    change ("" +:+ r) with r in *.
    destruct r as [| c r]; [done |]. simpl in Hc, Hy.
    rewrite Nat.sub_0_r, substring_zero_all in Hy by done.
    apply string_prefix_inv in Hy as [post ->].
    exists c, post. split; [done |].
    intros ->. by rewrite Ascii.eqb_refl in Hc.
  - intros (c & post & -> & Hc).
    rewrite !string_app_cons. simpl. change ("" +:+ ?r) with r.
    apply Ascii.eqb_neq in Hc. rewrite Hc. simpl.
    by destruct (substring _ _ _).
Qed.

(** X19.  What [get_specs] takes for the name of a spec file: [re.search]
    with the pattern ['spec.yaml'] accepts any name that contains ["spec"],
    then one character that is not a newline, then ["yaml"]; the character
    need not be a dot. *)
Theorem re_search_spec_yaml_matches (s : string) :
  re_search_spec_yaml s = true ↔
  ∃ pre c post,
    s = pre +:+ "spec" +:+ String c ("yaml" +:+ post) ∧ c ≠ ascii_of_nat 10.
Proof.
  induction s as [| a r IH].
  - split; [done |]. intros (pre & c & post & H & _).
    apply (f_equal String.length) in H. rewrite string_length_app in H.
    simpl in H. lia.
  - change (re_search_spec_yaml (String a r))
      with (matches_spec_yaml_here (String a r) || re_search_spec_yaml r).
    rewrite orb_true_iff, matches_spec_yaml_here_iff, IH. split.
    + intros [(c & post & H & Hc) | (pre & c & post & -> & Hc)].
      * exists "", c, post. by split.
      * exists (String a pre), c, post. by rewrite string_app_cons.
    + intros (pre & c & post & H & Hc). destruct pre as [| a' pre].
      * left. by exists c, post.
      * right. rewrite string_app_cons in H. injection H as -> ->.
        by exists pre, c, post.
Qed.

Example toy_spec_yaml_without_dot :
  re_search_spec_yaml "zlib-specsyaml.txt" = true ∧
  re_search_spec_yaml "zlib.spec.yml" = false.
Proof. vm_compute. by split. Qed.

Lemma relative_package_not_relocated_witness :
  let w := build_world [] in
  let w' := (write_buildinfo_file toy_relative (prefix zlib) "/tmp/t2/zlib"
               true w).2 in
  relocate_package toy_relative "/tmp/t2/zlib" zlib false w' = (Ok tt, w').
Proof.
  intros w w'.
  apply (relative_package_not_relocated toy_relative (prefix zlib)
           "/tmp/t2/zlib" zlib false w w').
  - intros doc _ Hb. simpl. rewrite Hb.
    exists [("relative_rpaths", YBool true); ("buildpath", YStr "/opt/spack")],
      (YStr "/opt/spack"), (YBool true).
    by repeat split.
  - subst w' w. stage_runs.
Defined.

(** ** A forced rebuild that fails *)

Section ForceFacts.
Context (X : Externals).

#[local] Arguments String.append : simpl never.
#[local] Arguments tarball_name : simpl never.
#[local] Arguments tarball_directory_name : simpl never.
#[local] Arguments os_path_join : simpl never.
#[local] Arguments fs_exists : simpl never.
#[local] Arguments remote_spackfile_path : simpl never.
#[local] Arguments remote_specfile_path : simpl never.

Lemma build_package_same_remote spec outdir tmpdir force rel unsigned
  allow_root key :
  keeps same_remote
    (build_package X spec outdir tmpdir force rel unsigned allow_root key).
Proof.
  assert (Hsign : ∀ k f o, keeps same_remote (Gpg_sign X k f o)).
  { intros k f o w. unfold Gpg_sign. by repeat case_match. }
  pose proof (checksum_tarball_frame X).
  pose proof (tar_add_tree_frame X).
  pose proof (write_buildinfo_file_frame X).
  pose proof (make_package_relative_frame X).
  pose proof (make_package_placeholder_frame X).
  assert (Hst : ∀ k f p, keeps same_remote (sign_tarball X k f p))
    by (intros; unfold sign_tarball; frame).
  unfold build_package. frame.
Qed.

(** X20.  A forced rebuild deletes what is published before it knows that
    the new artifacts can be made.  For a concrete spec under [force], when
    the packaging of lines 347-422 raises (a relocation check, a missing
    spec file, a signing error), [build_tarball] ends with that exception
    and the mirror holds neither the archive nor the metadata file of the
    spec, whatever it held before: the artifacts present at the start have
    been removed and nothing has been pushed. *)
Theorem build_tarball_force_failure (spec : Spec) (outdir : string)
  (rel unsigned allow_root : bool) (key : option string)
  (regenerate_index : bool) (w : world) (tmpdir : string)
  (rest : list string) (e : exn) (w2 : world) :
  concrete spec = true →
  pick_fresh (fs w) (tmp_supply w) = Some (tmpdir, rest) →
  build_package X spec outdir tmpdir true rel unsigned allow_root key
    (build_guard X spec outdir true w).2 = (Raise e, w2) →
  let u1 := remote_spackfile_path X spec outdir tmpdir in
  let u2 := remote_specfile_path X spec outdir tmpdir in
  build_tarball X spec outdir true rel unsigned allow_root key
    regenerate_index w = (Raise e, w2) ∧
  url_present (remote w2) u1 = false ∧
  url_present (remote w2) u2 = false ∧
  ∃ signing,
    calls w2 = calls w ++ guard_removals (remote w) u1 u2 ++ signing ∧
    Forall is_GpgSign signing.
Proof.
  intros Hc Hp Hpk. cbv zeta.
  destruct (build_guard_force X spec outdir w tmpdir rest Hc Hp)
    as (w1 & Hg & Hc1 & Hu1 & Hu2).
  rewrite Hg in Hpk. simpl in Hpk.
  pose proof (build_package_same_remote spec outdir tmpdir true rel unsigned
                allow_root key w1) as Hrem.
  destruct (build_package_frame X spec outdir tmpdir true rel unsigned
              allow_root key w1) as (signing & Hcs & Hfs).
  rewrite Hpk in Hrem, Hcs. unfold same_remote in Hrem. simpl in Hrem, Hcs.
  split; [| split; [by rewrite Hrem | split; [by rewrite Hrem |]]].
  - unfold build_tarball. rewrite (bind_ok _ _ _ _ _ Hg).
    by rewrite (bind_raise _ _ _ _ _ Hpk).
  - exists signing. split; [| done]. by rewrite Hcs, Hc1, <- app_assoc.
Qed.

End ForceFacts.

Lemma build_tarball_force_failure_witness :
  let w := build_world
             [(remote_spackfile_path toy_no_gpg zlib "https://a.example"
                 "/tmp/t1", Content "bundle old")] in
  let e := NoGpgException
             ("gpg2 is not available in $PATH ." +:+ nl +:+
              "Use spack install gnupg and spack load gnupg.") in
  let w2 := (build_package toy_no_gpg zlib "https://a.example" "/tmp/t1" true
               false false false None
               (build_guard toy_no_gpg zlib "https://a.example" true w).2).2 in
  let u1 := remote_spackfile_path toy_no_gpg zlib "https://a.example"
              "/tmp/t1" in
  let u2 := remote_specfile_path toy_no_gpg zlib "https://a.example"
              "/tmp/t1" in
  build_tarball toy_no_gpg zlib "https://a.example" true false false false
    None false w = (Raise e, w2) ∧
  url_present (remote w2) u1 = false ∧
  url_present (remote w2) u2 = false ∧
  ∃ signing,
    calls w2 = calls w ++ guard_removals (remote w) u1 u2 ++ signing ∧
    Forall is_GpgSign signing.
Proof.
  intros w e w2.
  apply (build_tarball_force_failure toy_no_gpg zlib "https://a.example"
           false false false None false w "/tmp/t1" ["/tmp/t2"; "/tmp/t3"]
           e w2).
  - reflexivity.
  - subst w. evaluates.
  - subst w2 e w. stage_runs.
Defined.

Example toy_forced_rebuild_loses_archive :
  let u1 := remote_spackfile_path toy_no_gpg zlib "https://a.example"
              "/tmp/t1" in
  let w := build_world [(u1, Content "bundle old")] in
  let run := build_tarball toy_no_gpg zlib "https://a.example" true false
               false false None false w in
  url_present (remote w) u1 = true ∧ url_present (remote run.2) u1 = false.
Proof. vm_compute. by split. Qed.
